(** * LocalLense: order lifecycle, inventory and rating aggregation

    A shallow embedding of the order and review back end of the LocalLense
    marketplace (models [Product.js], [Order.js], [Review.js]; routes
    [orders.js], [reviews.js]; request validation from the validation
    middleware), followed by the properties of its specification.

    Modelling conventions.
    - A Mongo collection that is only read and written by [_id] is a
      [gmap ObjectId _]; the review collection, which is scanned by the
      rating aggregation, is a list in insertion order.
    - A JavaScript [Number] holding money or a rating is an exact rational
      ([Q]); a [Number] holding a count is an integer ([Z]).  Rounding error
      of IEEE doubles is outside the model.
    - [Date] values are milliseconds since the epoch ([Z]).
    - A request handler is a function from the database to an outcome and a
      database: what was written before an early [return res.status(..)] or
      before an exception reached the handler's [catch] stays written.
    - A value of a request body that the middleware does not sanitise
      reaches the handler as the JSON value that was sent ([JsValue]): a
      quantity may be a number or a numeral in a string, a flag may be any
      value.
    - [save()] validates before it runs the [pre('save')] hooks of the
      schema (Mongoose registers its validation as the first such hook).
    - Fields that no handler below reads (titles, images, addresses, ...)
      are left out of the records. *)

From Stdlib Require Import ZArith QArith Qround Qabs Lia Lqa Ascii String List Sorted.
From stdpp Require Import base option list gmap strings pretty.

Local Open Scope Z_scope.

(** Mongo [ObjectId]s; [toString()] comparison is equality. *)
Abbreviation ObjectId := positive.

(** ** Numbers *)

(** [Math.round]: nearest integer, a tie goes up. *)
Definition Math_round (x : Q) : Z := Qfloor (x + (1 # 2))%Q.

(** [{ average, count }], the aggregate stored on products and artisans. *)
Record Rating := mkRating { average : Q; count : Z }.

(** ** JSON values *)

(** A value of a request body.  [JUndefined] is an absent key; [JObject]
    stands for an object or an array, whose content no handler below looks
    at. *)
Inductive JsValue :=
  | JUndefined
  | JNull
  | JBool (b : bool)
  | JNumber (x : Q)
  | JString (s : string)
  | JObject.

(** JavaScript truthiness: what [if (v)] tests. *)
Definition ToBoolean (v : JsValue) : bool :=
  match v with
  | JUndefined | JNull => false
  | JBool b => b
  | JNumber x => negb (Qeq_bool x 0)
  | JString s => negb (String.eqb s "")
  | JObject => true
  end.

(** Mongoose's cast to a [Boolean] path: [true, 'true', 1, '1', 'yes']
    become [true]; [false, 'false', 0, '0', 'no'] become [false]; [null]
    stays [null] (the inner [None]); anything else is a cast error (the
    outer [None]), which makes [save()] fail. *)
Definition castBoolean (v : JsValue) : option (option bool) :=
  match v with
  | JUndefined | JNull => Some None
  | JBool b => Some (Some b)
  | JNumber x =>
      if Qeq_bool x 1 then Some (Some true)
      else if Qeq_bool x 0 then Some (Some false)
      else None
  | JString s =>
      if existsb (String.eqb s) ["true"; "1"; "yes"]%string then Some (Some true)
      else if existsb (String.eqb s) ["false"; "0"; "no"]%string then Some (Some false)
      else None
  | JObject => None
  end.

Definition is_digit (a : ascii) : bool :=
  (48 <=? nat_of_ascii a)%nat && (nat_of_ascii a <=? 57)%nat.

(** The number written by decimal digits, after the digits read so far. *)
Fixpoint digits_value (s : string) (acc : Z) : option Z :=
  match s with
  | EmptyString => Some acc
  | String a rest =>
      if is_digit a
      then digits_value rest (10 * acc + Z.of_nat (nat_of_ascii a - 48))
      else None
  end.

(** [Number(s)] for the strings met below, which are made of signs and
    decimal digits: an optional sign and at least one digit is that
    integer; any other such string is [NaN] ([None]). *)
Definition Number_of_string (s : string) : option Z :=
  match s with
  | EmptyString => None
  | String a rest =>
      if Ascii.eqb a "-" then
        if String.eqb rest "" then None else Z.opp <$> digits_value rest 0
      else if Ascii.eqb a "+" then
        if String.eqb rest "" then None else digits_value rest 0
      else digits_value s 0
  end.

(** validator.js [isInt] on a string: an optional sign, then either the
    digit 0 alone or a digit from 1 to 9 followed by any digits (a numeral
    without leading zeros). *)
Definition isInt (s : string) : bool :=
  let unsigned :=
    match s with
    | String a rest => if Ascii.eqb a "-" || Ascii.eqb a "+" then rest else s
    | EmptyString => s
    end in
  match unsigned with
  | EmptyString => false
  | String a rest =>
      if Ascii.eqb a "0" then String.eqb rest ""
      else is_digit a && bool_decide (is_Some (digits_value rest 0))
  end.

(** A [Number] that is an integer: its text has no fraction. *)
Definition Number_isInteger (x : Q) : bool := Qeq_bool x (inject_Z (Qfloor x)).

(** The integer an [isInt] check reads a value as: the validation
    middleware tests the text of the value, so a number and a string with
    its numeral pass alike, and nothing is converted.  (Numbers are taken
    in the range where the text of an integer is its digits, below
    [10^21].) *)
Definition int_of_value (v : JsValue) : option Z :=
  match v with
  | JNumber x => if Number_isInteger x then Some (Qfloor x) else None
  | JString s => if isInt s then Number_of_string s else None
  | _ => None
  end.

(** [isInt({ min })] of the validation middleware. *)
Definition isInt_min (min : Z) (v : JsValue) : bool :=
  match int_of_value v with
  | Some n => min <=? n
  | None => false
  end.

(** [n += v] on a [Number] path of a Mongoose document that holds a
    count, for the values [isInt] lets through.  For a number [v] it is
    the sum.  For a string JavaScript concatenates the text of
    [n] and [v], and the setter of the path casts the text back to a
    number, or records a cast error ([None]) that makes [save()] fail. *)
Definition add_assign (n : Z) (v : JsValue) : option Z :=
  match v with
  | JNumber x => if Number_isInteger x then Some (n + Qfloor x) else None
  | JString s => Number_of_string (pretty n ++ s)
  | _ => None
  end.

Definition is_space (a : ascii) : bool :=
  existsb (Nat.eqb (nat_of_ascii a)) [32; 9; 10; 11; 12; 13]%nat.

(** [.trim().notEmpty()] of the validation middleware, which tests the
    text of the value: [null] and an absent key have the empty text. *)
Definition notEmpty_trimmed (v : JsValue) : bool :=
  match v with
  | JUndefined | JNull => false
  | JString s => existsb (fun a => negb (is_space a)) (list_ascii_of_string s)
  | JBool _ | JNumber _ | JObject => true
  end.

(** ** models/Product.js *)
Module Product.

Record Price := mkPrice {
  amount : Q;
  discount : option Q   (* percentage, 0..100; may be absent *)
}.

Record Inventory := mkInventory {
  quantity : Z;
  lowStockThreshold : Z;
  trackInventory : bool
}.

Record Stats := mkStats { totalSold : Z }.

Record t := mk {
  artisan : ObjectId;
  price : Price;
  inventory : Inventory;
  rating : Rating;
  stats : Stats;
  isActive : bool
}.

(** Virtual [discountedPrice]. *)
Definition discountedPrice (this : t) : Q :=
  match discount (price this) with
  | Some d =>
      if negb (Qle_bool d 0)    (* discount > 0 *)
      then (amount (price this) * (1 - d / 100))%Q
      else amount (price this)
  | None => amount (price this)
  end.

(** Method [isAvailable(quantity = 1)]. *)
Definition isAvailable (this : t) (qty : Z) : bool :=
  if negb (isActive this) then false
  else if negb (trackInventory (inventory this)) then true
  else quantity (inventory this) >=? qty.

(** Schema validator run by [save()] on a modified quantity:
    [min: [0, 'Quantity cannot be negative']]. *)
Definition validate (this : t) : bool := 0 <=? quantity (inventory this).

Definition with_stock (q sold : Z) (this : t) : t :=
  {| artisan := artisan this;
     price := price this;
     inventory :=
       {| quantity := q;
          lowStockThreshold := lowStockThreshold (inventory this);
          trackInventory := trackInventory (inventory this) |};
     rating := rating this;
     stats := {| totalSold := sold |};
     isActive := isActive this |}.

(** [product.inventory.quantity -= n; product.stats.totalSold += n]
    (order creation). *)
Definition take_stock (n : Z) (this : t) : t :=
  with_stock (quantity (inventory this) - n) (totalSold (stats this) + n) this.

(** [product.inventory.quantity += n; product.stats.totalSold -= n]
    (order cancellation). *)
Definition restore_stock (n : Z) (this : t) : t :=
  with_stock (quantity (inventory this) + n) (totalSold (stats this) - n) this.

Definition set_rating (r : Rating) (this : t) : t :=
  {| artisan := artisan this; price := price this;
     inventory := inventory this; rating := r;
     stats := stats this; isActive := isActive this |}.

End Product.

(** ** models/Artisan.js (the aggregate rating is all the handlers touch) *)
Module Artisan.
Record t := mk { rating : Rating }.
End Artisan.

(** ** models/User.js as seen by the handlers: the role tested by the
    permission checks and the cart cleared by order creation. *)
Module User.
Inductive Role := customer | artisan | admin.

#[global] Instance Role_eq_dec : EqDecision Role.
Proof. solve_decision. Defined.

Record CartLine := mkCartLine { product : ObjectId; quantity : Z }.

Record t := mk { role : Role; cart : list CartLine }.

Definition clear_cart (this : t) : t := {| role := role this; cart := [] |}.
End User.

(** ** models/Order.js *)
Module Order.

Inductive Status :=
  pending | confirmed | processing | shipped | delivered | cancelled | returned.

#[global] Instance Status_eq_dec : EqDecision Status.
Proof. solve_decision. Defined.

Definition Status_to_string (s : Status) : string :=
  match s with
  | pending => "pending" | confirmed => "confirmed"
  | processing => "processing" | shipped => "shipped"
  | delivered => "delivered" | cancelled => "cancelled"
  | returned => "returned"
  end.

(** The schema [enum]: the strings a status may hold. *)
Definition Status_of_string (s : string) : option Status :=
  if String.eqb s "pending" then Some pending
  else if String.eqb s "confirmed" then Some confirmed
  else if String.eqb s "processing" then Some processing
  else if String.eqb s "shipped" then Some shipped
  else if String.eqb s "delivered" then Some delivered
  else if String.eqb s "cancelled" then Some cancelled
  else if String.eqb s "returned" then Some returned
  else None.

Inductive PaymentMethod := card | upi | netbanking | wallet | cod.
Inductive PaymentStatus :=
  pay_pending | pay_processing | pay_completed | pay_failed | pay_refunded.
Inductive RefundStatus := refund_pending | refund_processed | refund_failed.

#[global] Instance PaymentMethod_eq_dec : EqDecision PaymentMethod.
Proof. solve_decision. Defined.
#[global] Instance PaymentStatus_eq_dec : EqDecision PaymentStatus.
Proof. solve_decision. Defined.

Record Item := mkItem {
  product : ObjectId;
  artisan : ObjectId;
  quantity : Z;
  price : Q
}.

(** [pricing]; [discount.amount] has the schema default 0. *)
Record Pricing := mkPricing {
  subtotal : Q;
  shippingCost : Q;
  tax : Q;
  discount_amount : Q;
  totalAmount : Q
}.

Record Payment := mkPayment { method : PaymentMethod; pay_status : PaymentStatus }.

Record TimelineEntry := mkEntry {
  entry_status : Status;
  timestamp : Z;
  note : string;
  updatedBy : option ObjectId
}.

Record Cancellation := mkCancellation {
  reason : option string;
  cancelledBy : ObjectId;
  cancelledAt : Z;
  refundStatus : RefundStatus
}.

Record t := mk {
  orderNumber : option string;
  customer : ObjectId;
  items : list Item;
  pricing : Pricing;
  payment : Payment;
  status : Status;
  timeline : list TimelineEntry;
  actualDelivery : option Z;
  cancellation : option Cancellation;
  createdAt : Z
}.

Definition set_orderNumber (n : string) (this : t) : t :=
  {| orderNumber := Some n; customer := customer this; items := items this;
     pricing := pricing this; payment := payment this;
     status := status this; timeline := timeline this;
     actualDelivery := actualDelivery this;
     cancellation := cancellation this; createdAt := createdAt this |}.

Definition set_status (s : Status) (this : t) : t :=
  {| orderNumber := orderNumber this; customer := customer this;
     items := items this; pricing := pricing this; payment := payment this;
     status := s; timeline := timeline this;
     actualDelivery := actualDelivery this;
     cancellation := cancellation this; createdAt := createdAt this |}.

(** [this.timeline.push(e)] *)
Definition push_timeline (e : TimelineEntry) (this : t) : t :=
  {| orderNumber := orderNumber this; customer := customer this;
     items := items this; pricing := pricing this; payment := payment this;
     status := status this; timeline := timeline this ++ [e];
     actualDelivery := actualDelivery this;
     cancellation := cancellation this; createdAt := createdAt this |}.

Definition set_actualDelivery (d : Z) (this : t) : t :=
  {| orderNumber := orderNumber this; customer := customer this;
     items := items this; pricing := pricing this; payment := payment this;
     status := status this; timeline := timeline this;
     actualDelivery := Some d;
     cancellation := cancellation this; createdAt := createdAt this |}.

Definition set_cancellation (c : Cancellation) (this : t) : t :=
  {| orderNumber := orderNumber this; customer := customer this;
     items := items this; pricing := pricing this; payment := payment this;
     status := status this; timeline := timeline this;
     actualDelivery := actualDelivery this;
     cancellation := Some c; createdAt := createdAt this |}.

(** [String.prototype.slice(-n)]: the last [n] characters. *)
Definition slice_last (n : nat) (s : string) : string :=
  String.substring (String.length s - n) n s.

(** [padStart(3, '0')] on the decimal digits of a number below 1000. *)
Definition padStart3 (s : string) : string :=
  match String.length s with
  | 0%nat => "000" ++ s
  | 1%nat => "00" ++ s
  | 2%nat => "0" ++ s
  | _ => s
  end.

(** First [pre('save')] hook: the order number, from [Date.now()] and
    [Math.floor(Math.random() * 1000)]. *)
Definition generate_orderNumber (now random : Z) (this : t) : t :=
  match orderNumber this with
  | Some _ => this
  | None =>
      set_orderNumber
        ("LL" ++ slice_last 6 (pretty now) ++ padStart3 (pretty random)) this
  end.

(** Second [pre('save')] hook: a status change of a stored order is logged.
    [modified] is [this.isModified('status')], [isNew] is [this.isNew]. *)
Definition log_status_change (modified isNew : bool) (now : Z) (this : t) : t :=
  if modified && negb isNew
  then push_timeline
         {| entry_status := status this;
            timestamp := now;
            note := "Order status changed to " ++ Status_to_string (status this);
            updatedBy := None |} this
  else this.

(** Schema validators of the paths the record keeps: [orderNumber] is
    [required], and so are the paths the record holds without an option;
    a line item has [quantity: { min: 1 }]. *)
Definition validate (this : t) : bool :=
  bool_decide (is_Some (orderNumber this))
  && forallb (fun item => 1 <=? quantity item) (items this).

(** Method [canBeCancelled]. *)
Definition canBeCancelled (this : t) : bool :=
  bool_decide (status this ∈ [pending; confirmed]).

(** Method [canBeReturned]; [now] is [Date.now()]. *)
Definition canBeReturned (now : Z) (this : t) : bool :=
  if negb (bool_decide (status this = delivered)) then false
  else
    let deliveryDate := default (createdAt this) (actualDelivery this) in
    let daysSinceDelivery :=
      (inject_Z (now - deliveryDate) / inject_Z (1000 * 60 * 60 * 24))%Q in
    Qle_bool daysSinceDelivery 7.

End Order.

(** ** models/Review.js: the schema and the methods on one review *)
Module Review.

Inductive Status := pending | approved | rejected | flagged.

#[global] Instance Status_eq_dec : EqDecision Status.
Proof. solve_decision. Defined.

(** [helpful] is a [Boolean] path without a default: it may hold [null]. *)
Record Vote := mkVote { user : ObjectId; helpful : option bool; votedAt : Z }.

Record t := mk {
  _id : ObjectId;
  product : ObjectId;
  artisan : ObjectId;
  customer : ObjectId;
  order : ObjectId;
  overall : Q;            (* rating.overall *)
  helpfulVotes : Z;
  votedBy : list Vote;
  status : Status
}.

Definition set_overall (x : Q) (this : t) : t :=
  {| _id := _id this; product := product this; artisan := artisan this;
     customer := customer this; order := order this; overall := x;
     helpfulVotes := helpfulVotes this; votedBy := votedBy this;
     status := status this |}.

Definition set_votes (n : Z) (vs : list Vote) (this : t) : t :=
  {| _id := _id this; product := product this; artisan := artisan this;
     customer := customer this; order := order this; overall := overall this;
     helpfulVotes := n; votedBy := vs; status := status this |}.

(** Schema validators on [rating.overall]: [min: 1, max: 5]. *)
Definition validate (this : t) : bool :=
  Qle_bool 1 (overall this) && Qle_bool (overall this) 5.

(** Method [canVote(userId)]. *)
Definition canVote (userId : ObjectId) (this : t) : bool :=
  negb (existsb (fun vote => Pos.eqb (user vote) userId) (votedBy this)).

(** The key of the unique index [{ customer: 1, product: 1, order: 1 }]. *)
Definition key (this : t) : ObjectId * ObjectId * ObjectId :=
  (customer this, product this, order this).

End Review.

(** ** The database and the handler monad *)

Record Db := mkDb {
  products : gmap ObjectId Product.t;
  artisans : gmap ObjectId Artisan.t;
  users : gmap ObjectId User.t;
  orders : gmap ObjectId Order.t;
  reviews : list Review.t
}.

Definition with_products (ps : gmap ObjectId Product.t) (db : Db) : Db :=
  {| products := ps; artisans := artisans db; users := users db;
     orders := orders db; reviews := reviews db |}.
Definition with_artisans (ars : gmap ObjectId Artisan.t) (db : Db) : Db :=
  {| products := products db; artisans := ars; users := users db;
     orders := orders db; reviews := reviews db |}.
Definition with_users (us : gmap ObjectId User.t) (db : Db) : Db :=
  {| products := products db; artisans := artisans db; users := us;
     orders := orders db; reviews := reviews db |}.
Definition with_orders (os : gmap ObjectId Order.t) (db : Db) : Db :=
  {| products := products db; artisans := artisans db; users := users db;
     orders := os; reviews := reviews db |}.
Definition with_reviews (rs : list Review.t) (db : Db) : Db :=
  {| products := products db; artisans := artisans db; users := users db;
     orders := orders db; reviews := rs |}.

(** What a handler answers when it does not answer 2xx.  The code sends a
    status and a message; the names are those of the specification.
    - [ValidationFailed]: 400 'Validation failed' (validation middleware)
    - [ItemUnavailable]: 400 'Product .. not found or inactive'
    - [InsufficientStock]: 400 'Insufficient stock for ..'
    - [NotFound]: 404
    - [AccessDenied]: 403 'Access denied'
    - [InvalidStatus]: 400 'Invalid status'
    - [InvalidTransition]: 400 'Order cannot be cancelled at this stage'
    - [NotEligible]: 400 'Order not found or not eligible for review'
    - [DuplicateReview]: 400 'Review already exists for this product'
    - [AlreadyVoted]: 400 'You have already voted on this review'
    - [InternalError]: 500, sent by the handler's [catch] block. *)
Inductive error :=
  | ValidationFailed | ItemUnavailable | InsufficientStock | NotFound
  | AccessDenied | InvalidStatus | InvalidTransition | NotEligible
  | DuplicateReview | AlreadyVoted | InternalError.

Inductive outcome (A : Type) :=
  | Done (a : A)
  | Failed (e : error).
Arguments Done {A} a.
Arguments Failed {A} e.

Definition Handler (A : Type) : Type := Db -> outcome A * Db.

Definition ret {A} (a : A) : Handler A := fun db => (Done a, db).
Definition fail {A} (e : error) : Handler A := fun db => (Failed e, db).
(** An exception: it reaches the [catch] of the handler, which answers 500. *)
Definition throw {A} : Handler A := fail InternalError.
Definition bind {A B} (m : Handler A) (k : A -> Handler B) : Handler B :=
  fun db =>
    match m db with
    | (Done a, db') => k a db'
    | (Failed e, db') => (Failed e, db')
    end.
Definition gets {A} (f : Db -> A) : Handler A := fun db => (Done (f db), db).
Definition modify (f : Db -> Db) : Handler unit := fun db => (Done tt, f db).

Notation "'let*' x := m 'in' k" := (bind m (fun x => k))
  (at level 10, x pattern, m at level 200, k at level 200).

(** What a request brings from outside the database: the clock, the
    [ObjectId] given to a new document, [Math.floor(Math.random() * 1000)]. *)
Record Env := mkEnv { now : Z; new_id : ObjectId; random : Z }.

(** [req.user], set by the authentication middleware. *)
Record Actor := mkActor { actor_id : ObjectId; actor_role : User.Role }.

(** ** Document operations *)

Definition Product_findById (id : ObjectId) : Handler (option Product.t) :=
  gets (fun db => products db !! id).

(** [product.save()] on a product loaded as [loaded] and changed to [p]:
    a path that was modified is validated, then the document is written. *)
Definition Product_save (id : ObjectId) (loaded p : Product.t) : Handler unit :=
  let modified :=
    negb (bool_decide (Product.quantity (Product.inventory p)
                       = Product.quantity (Product.inventory loaded))) in
  if modified && negb (Product.validate p) then throw
  else modify (fun db => with_products (<[id := p]> (products db)) db).

Definition Order_findById (id : ObjectId) : Handler (option Order.t) :=
  gets (fun db => orders db !! id).

Definition orderNumber_taken (n : option string) (db : Db) : bool :=
  existsb (fun io => bool_decide (Order.orderNumber (snd io) = n))
          (map_to_list (orders db)).

(** [order.save()] on [new Order(..)].  Mongoose validates first: its
    validation is itself a [pre('save')] hook, put ahead of those of the
    schema.  Then come the two hooks of the schema and the insert, which
    the unique indexes on [_id] and [orderNumber] can refuse.  A document
    without an order number does not get past the validation, so the hook
    that would generate the number is not reached for it. *)
Definition Order_save_new (env : Env) (o : Order.t) : Handler Order.t :=
  if negb (Order.validate o) then throw
  else
    let o := Order.generate_orderNumber (now env) (random env) o in
    let o := Order.log_status_change true true (now env) o in
    let* taken := gets (fun db =>
                      bool_decide (is_Some (orders db !! new_id env))
                      || orderNumber_taken (Order.orderNumber o) db) in
    if taken then throw
    else
      let* _ := modify (fun db =>
                  with_orders (<[new_id env := o]> (orders db)) db) in
      ret o.

(** [order.save()] on an order loaded as [loaded] and changed to [o]. *)
Definition Order_save (env : Env) (id : ObjectId) (loaded o : Order.t)
  : Handler Order.t :=
  let o := Order.generate_orderNumber (now env) (random env) o in
  let modified := negb (bool_decide (Order.status o = Order.status loaded)) in
  let o := Order.log_status_change modified false (now env) o in
  let* _ := modify (fun db => with_orders (<[id := o]> (orders db)) db) in
  ret o.

(** [User.findByIdAndUpdate(id, { cart: [] })] *)
Definition User_clear_cart (id : ObjectId) : Handler unit :=
  modify (fun db => with_users (alter User.clear_cart id (users db)) db).

(** ** models/Review.js: the rating hooks *)

(** The aggregation pipeline [$match] then [$group] with [_id: null]:
    no group at all when nothing matches, otherwise [$avg] of
    [rating.overall] and [$sum: 1]. *)
Definition Review_aggregate (matches : Review.t -> bool) (rs : list Review.t)
  : option (Q * Z) :=
  match List.filter matches rs with
  | [] => None
  | m =>
      Some ((foldr Qplus 0 (map Review.overall m)
             / inject_Z (Z.of_nat (length m)))%Q,
            Z.of_nat (length m))
  end.

(** [stats.length > 0 ? { average: Math.round(avg * 10) / 10, count } :
    { average: 0, count: 0 }] *)
Definition rating_of_stats (stats : option (Q * Z)) : Rating :=
  match stats with
  | Some (averageRating, totalReviews) =>
      {| average := (inject_Z (Math_round (averageRating * 10)) / 10)%Q;
         count := totalReviews |}
  | None => {| average := 0%Q; count := 0 |}
  end.

Definition approved_for_product (productId : ObjectId) (r : Review.t) : bool :=
  Pos.eqb (Review.product r) productId
  && bool_decide (Review.status r = Review.approved).

Definition approved_for_artisan (artisanId : ObjectId) (r : Review.t) : bool :=
  Pos.eqb (Review.artisan r) artisanId
  && bool_decide (Review.status r = Review.approved).

Definition updateProductRating (productId : ObjectId) : Handler unit :=
  let* stats := gets (fun db =>
      Review_aggregate (approved_for_product productId) (reviews db)) in
  let rating := rating_of_stats stats in
  modify (fun db =>
    with_products (alter (Product.set_rating rating) productId (products db)) db).

Definition updateArtisanRating (artisanId : ObjectId) : Handler unit :=
  let* stats := gets (fun db =>
      Review_aggregate (approved_for_artisan artisanId) (reviews db)) in
  let rating := rating_of_stats stats in
  modify (fun db =>
    with_artisans (alter (fun _ => Artisan.mk rating) artisanId (artisans db)) db).

(** [post('save')] and [post('remove')]: the same two calls. *)
Definition Review_post_hook (this : Review.t) : Handler unit :=
  let* _ := updateProductRating (Review.product this) in
  updateArtisanRating (Review.artisan this).

Definition has_id (id : ObjectId) (r : Review.t) : bool := Pos.eqb (Review._id r) id.

Definition Review_findById (id : ObjectId) : Handler (option Review.t) :=
  gets (fun db => List.find (has_id id) (reviews db)).

(** [Review.findOne({ customer, product, order })] *)
Definition Review_findByKey (k : ObjectId * ObjectId * ObjectId)
  : Handler (option Review.t) :=
  gets (fun db => List.find (fun r => bool_decide (Review.key r = k)) (reviews db)).

(** [review.save()] on [new Review(..)]: validation, the insert (refused by
    the unique indexes on [_id] and on customer, product, order), the hook. *)
Definition Review_save_new (r : Review.t) : Handler unit :=
  if negb (Review.validate r) then throw
  else
    let* byId := Review_findById (Review._id r) in
    let* byKey := Review_findByKey (Review.key r) in
    match byId, byKey with
    | None, None =>
        let* _ := modify (fun db => with_reviews (reviews db ++ [r]) db) in
        Review_post_hook r
    | _, _ => throw
    end.

(** [review.save()] on a loaded review (its key does not change);
    [rating_modified] tells whether [rating] was assigned, in which case its
    validators run. *)
Definition Review_save (rating_modified : bool) (r : Review.t) : Handler unit :=
  if rating_modified && negb (Review.validate r) then throw
  else
    let* _ := modify (fun db =>
      with_reviews
        (map (fun x => if has_id (Review._id r) x then r else x) (reviews db))
        db) in
    Review_post_hook r.

(** [review.remove()] *)
Definition Review_remove (r : Review.t) : Handler unit :=
  let* _ := modify (fun db =>
    with_reviews
      (List.filter (fun x => negb (has_id (Review._id r) x)) (reviews db)) db) in
  Review_post_hook r.

(** Method [addVote(userId, helpful)] of a review.  [helpful] is whatever
    the request sent: the pushed vote holds its cast to [Boolean], the
    counter follows its truthiness, and a value that does not cast makes
    [save()] fail, so that nothing of the vote is stored. *)
Definition Review_addVote (env : Env) (this : Review.t)
    (userId : ObjectId) (helpful : JsValue) : Handler Review.t :=
  if Review.canVote userId this then
    match castBoolean helpful with
    | None => throw
    | Some flag =>
        let votedBy :=
          Review.votedBy this
          ++ [ {| Review.user := userId; Review.helpful := flag;
                  Review.votedAt := now env |} ] in
        let helpfulVotes :=
          if ToBoolean helpful then Review.helpfulVotes this + 1
          else Review.helpfulVotes this in
        let this := Review.set_votes helpfulVotes votedBy this in
        let* _ := Review_save false this in
        ret this
    end
  else throw.   (* 'User has already voted on this review' *)

(** ** routes/orders.js *)

(** [items.*.product] as sent: the 24 hexadecimal digits of an
    [ObjectId], or any other value. *)
Inductive IdInput := MongoId (id : ObjectId) | NotAnId.

(** [shippingAddress.phone] as sent: a value that validator.js's
    [isMobilePhone] accepts, or one that it refuses. *)
Inductive PhoneInput := MobilePhone | NotAPhone.

Record OrderLine := mkOrderLine {
  line_product_in : IdInput;
  line_quantity_in : JsValue
}.

Record ShippingAddress := mkShippingAddress {
  ship_name : JsValue;
  ship_phone : PhoneInput;
  ship_street : JsValue;
  ship_city : JsValue;
  ship_state : JsValue;
  ship_zipCode : JsValue
}.

(** [items] is [None] when the body holds no array under that key. *)
Record CreateOrderBody := mkCreateOrderBody {
  body_items_in : option (list OrderLine);
  body_shippingAddress : ShippingAddress;
  body_payment_method_in : JsValue
}.

Definition body_items (body : CreateOrderBody) : list OrderLine :=
  default [] (body_items_in body).

(** The schema [enum] of [payment.method]. *)
Definition PaymentMethod_of_string (s : string) : option Order.PaymentMethod :=
  if String.eqb s "card" then Some Order.card
  else if String.eqb s "upi" then Some Order.upi
  else if String.eqb s "netbanking" then Some Order.netbanking
  else if String.eqb s "wallet" then Some Order.wallet
  else if String.eqb s "cod" then Some Order.cod
  else None.

Definition PaymentMethod_of_value (v : JsValue) : option Order.PaymentMethod :=
  match v with
  | JString s => PaymentMethod_of_string s
  | _ => None
  end.

(** The product a line asks for and the number of units it asks for, as
    the handler reads them from a line that the middleware let through
    (for any other line: the first identifier, no unit). *)
Definition line_product (line : OrderLine) : ObjectId :=
  match line_product_in line with
  | MongoId id => id
  | NotAnId => 1%positive
  end.

Definition line_quantity (line : OrderLine) : Z :=
  default 0 (int_of_value (line_quantity_in line)).

(** The payment method of a body that the middleware let through. *)
Definition body_payment_method (body : CreateOrderBody) : Order.PaymentMethod :=
  default Order.card (PaymentMethod_of_value (body_payment_method_in body)).

(** [validateOrderCreation]: [items] is an array of at least one element;
    every [product] is a Mongo id; every [quantity] passes [isInt] with a
    minimum of 1; the name, street, city, state and ZIP code of the
    shipping address are not blank; its phone is a mobile phone number;
    the payment method is one of the five of the list. *)
Definition validateOrderCreation (body : CreateOrderBody) : bool :=
  match body_items_in body with
  | None | Some [] => false
  | Some items =>
      forallb (fun item =>
                 match line_product_in item with
                 | MongoId _ => true
                 | NotAnId => false
                 end) items
      && forallb (fun item => isInt_min 1 (line_quantity_in item)) items
  end
  && notEmpty_trimmed (ship_name (body_shippingAddress body))
  && match ship_phone (body_shippingAddress body) with
     | MobilePhone => true
     | NotAPhone => false
     end
  && notEmpty_trimmed (ship_street (body_shippingAddress body))
  && notEmpty_trimmed (ship_city (body_shippingAddress body))
  && notEmpty_trimmed (ship_state (body_shippingAddress body))
  && notEmpty_trimmed (ship_zipCode (body_shippingAddress body))
  && bool_decide (is_Some (PaymentMethod_of_value (body_payment_method_in body))).

(** The loop [for (const item of items)] of the creation handler, with its
    accumulators [subtotal] and [orderItems].  [item.quantity] is used as
    it was sent: the comparison, the product and the subtraction read it
    as a number, [+=] adds it or, for a string, appends it. *)
Fixpoint order_lines (items : list OrderLine) (subtotal : Q)
    (orderItems : list Order.Item) : Handler (Q * list Order.Item) :=
  match items with
  | [] => ret (subtotal, orderItems)
  | item :: rest =>
      match line_product_in item with
      | NotAnId => throw     (* [findById] cannot cast the id *)
      | MongoId productId =>
      let* found := Product_findById productId in
      match found with
      | None => fail ItemUnavailable
      | Some product =>
          if negb (Product.isActive product) then fail ItemUnavailable
          else
          match int_of_value (line_quantity_in item) with
          | None => throw    (* not reached: [isInt] let the quantity through *)
          | Some quantity =>
          if negb (Product.isAvailable product quantity)
          then fail InsufficientStock
          else
            let itemPrice := Product.discountedPrice product in
            let itemTotal := (itemPrice * inject_Z quantity)%Q in
            let subtotal := (subtotal + itemTotal)%Q in
            (* [.populate('artisan')]: [product.artisan._id] throws when the
               artisan document does not exist *)
            let* artisan := gets (fun db => artisans db !! Product.artisan product) in
            match artisan with
            | None => throw
            | Some _ =>
                let orderItems :=
                  orderItems
                  ++ [ {| Order.product := productId;
                          Order.artisan := Product.artisan product;
                          Order.quantity := quantity;
                          Order.price := itemPrice |} ] in
                let* _ :=
                  if Product.trackInventory (Product.inventory product)
                  then
                    match add_assign (Product.totalSold (Product.stats product))
                                     (line_quantity_in item) with
                    | None => throw   (* the cast error fails [product.save()] *)
                    | Some totalSold =>
                        Product_save productId product
                          (Product.with_stock
                             (Product.quantity (Product.inventory product) - quantity)
                             totalSold product)
                    end
                  else ret tt in
                order_lines rest subtotal orderItems
            end
          end
      end
      end
  end.

(** [new Order({ .. })]: the document the handler builds from the
    accumulators of the loop.  It has no order number. *)
Definition new_order (env : Env) (user : Actor) (body : CreateOrderBody)
    (subtotal : Q) (orderItems : list Order.Item) : Order.t :=
  {| Order.orderNumber := None;
     Order.customer := actor_id user;
     Order.items := orderItems;
     Order.pricing :=
       {| Order.subtotal := subtotal;
          Order.shippingCost := 0%Q;
          Order.tax := (subtotal * (18 # 100))%Q;
          Order.discount_amount := 0%Q;
          Order.totalAmount := (subtotal + 0 + subtotal * (18 # 100))%Q |};
     Order.payment :=
       {| Order.method := body_payment_method body;
          Order.pay_status :=
            if bool_decide (body_payment_method body = Order.cod)
            then Order.pay_pending else Order.pay_processing |};
     Order.status := Order.pending;
     Order.timeline := [];
     Order.actualDelivery := None;
     Order.cancellation := None;
     Order.createdAt := now env |}.

(** The handler of [POST /api/orders] up to [new Order({ .. })]: the loop,
    the totals, the document. *)
Definition build_order (env : Env) (user : Actor) (body : CreateOrderBody)
  : Handler Order.t :=
  let* totals := order_lines (body_items body) 0%Q [] in
  ret (new_order env user body (fst totals) (snd totals)).

(** The handler of [POST /api/orders]. *)
Definition create_order (env : Env) (user : Actor) (body : CreateOrderBody)
  : Handler Order.t :=
  let* order := build_order env user body in
  let* order := Order_save_new env order in
  let* _ := User_clear_cart (actor_id user) in
  ret order.

(** [POST /api/orders] behind its validation middleware. *)
Definition POST_orders (env : Env) (user : Actor) (body : CreateOrderBody)
  : Handler Order.t :=
  if validateOrderCreation body then create_order env user body
  else fail ValidationFailed.

Record UpdateStatusBody := mkUpdateStatusBody {
  body_status : string;
  body_note : option string
}.

Definition validStatuses : list string :=
  ["confirmed"; "processing"; "shipped"; "delivered"; "cancelled"].

(** JavaScript truthiness of an optional string: present and not empty. *)
Definition truthy (s : option string) : bool :=
  match s with
  | Some s => negb (String.eqb s "")
  | None => false
  end.

(** The handler of [PUT /api/orders/:id/status]. *)
Definition update_status (env : Env) (user : Actor) (id : ObjectId)
    (body : UpdateStatusBody) : Handler Order.t :=
  if negb (existsb (String.eqb (body_status body)) validStatuses)
  then fail InvalidStatus
  else
    let* found := Order_findById id in
    match found, Order.Status_of_string (body_status body) with
    | None, _ => fail NotFound
    | Some loaded, status =>
        let isArtisan :=
          existsb (fun item => Pos.eqb (Order.artisan item) (actor_id user))
                  (Order.items loaded) in
        let isAdmin := bool_decide (actor_role user = User.admin) in
        if negb isArtisan && negb isAdmin then fail AccessDenied
        else
          match status with
          | None => throw   (* not reached: every valid status is in the enum *)
          | Some status =>
              let order := Order.set_status status loaded in
              let order :=
                if truthy (body_note body)
                then Order.push_timeline
                       {| Order.entry_status := status;
                          Order.timestamp := now env;
                          Order.note := default "" (body_note body);
                          Order.updatedBy := Some (actor_id user) |} order
                else order in
              let order :=
                if bool_decide (status = Order.delivered)
                then Order.set_actualDelivery (now env) order
                else order in
              Order_save env id loaded order
          end
    end.

(** The loop [for (const item of order.items)] of the cancellation handler. *)
Fixpoint restore_inventory (items : list Order.Item) : Handler unit :=
  match items with
  | [] => ret tt
  | item :: rest =>
      let* found := Product_findById (Order.product item) in
      let* _ :=
        match found with
        | Some product =>
            if Product.trackInventory (Product.inventory product)
            then Product_save (Order.product item) product
                   (Product.restore_stock (Order.quantity item) product)
            else ret tt
        | None => ret tt
        end in
      restore_inventory rest
  end.

(** The handler of [POST /api/orders/:id/cancel]. *)
Definition cancel_order (env : Env) (user : Actor) (id : ObjectId)
    (reason : option string) : Handler Order.t :=
  let* found := Order_findById id in
  match found with
  | None => fail NotFound
  | Some loaded =>
      let isCustomer := Pos.eqb (Order.customer loaded) (actor_id user) in
      if negb isCustomer && negb (bool_decide (actor_role user = User.admin))
      then fail AccessDenied
      else if negb (Order.canBeCancelled loaded) then fail InvalidTransition
      else
        let order := Order.set_status Order.cancelled loaded in
        let order :=
          Order.set_cancellation
            {| Order.reason := reason;
               Order.cancelledBy := actor_id user;
               Order.cancelledAt := now env;
               Order.refundStatus := Order.refund_pending |} order in
        let* _ := restore_inventory (Order.items order) in
        Order_save env id loaded order
  end.

(** ** routes/reviews.js *)

Record CreateReviewBody := mkCreateReviewBody {
  body_productId : ObjectId;
  body_orderId : ObjectId;
  body_overall : Z          (* rating.overall *)
}.

(** [validateReviewCreation]: [rating.overall] is an integer from 1 to 5. *)
Definition validateReviewCreation (body : CreateReviewBody) : bool :=
  (1 <=? body_overall body) && (body_overall body <=? 5).

(** [order.items.find(item => item.product._id.toString() === productId)]
    on the populated order: a line whose product document is gone has
    [item.product === null], and reading its [_id] throws. *)
Fixpoint find_orderItem (productId : ObjectId) (items : list Order.Item)
  : Handler (option Order.Item) :=
  match items with
  | [] => ret None
  | item :: rest =>
      let* populated := Product_findById (Order.product item) in
      match populated with
      | None => throw
      | Some _ =>
          if Pos.eqb (Order.product item) productId then ret (Some item)
          else find_orderItem productId rest
      end
  end.

(** The handler of [POST /api/reviews]. *)
Definition create_review (env : Env) (user : Actor) (body : CreateReviewBody)
  : Handler Review.t :=
  let productId := body_productId body in
  let orderId := body_orderId body in
  let customerId := actor_id user in
  let* found := Order_findById orderId in
  let eligible (o : Order.t) : bool :=
    Pos.eqb (Order.customer o) customerId
    && bool_decide (Order.status o = Order.delivered)
    && existsb (fun item => Pos.eqb (Order.product item) productId) (Order.items o) in
  match found with
  | Some order =>
      if negb (eligible order) then fail NotEligible
      else
        let* existingReview := Review_findByKey (customerId, productId, orderId) in
        match existingReview with
        | Some _ => fail DuplicateReview
        | None =>
            let* orderItem := find_orderItem productId (Order.items order) in
            match orderItem with
            | None => throw      (* [orderItem.artisan] of [undefined] *)
            | Some orderItem =>
                let* artisan := gets (fun db => artisans db !! Order.artisan orderItem) in
                match artisan with
                | None => throw  (* [orderItem.artisan._id] of [null] *)
                | Some _ =>
                    let review :=
                      {| Review._id := new_id env;
                         Review.product := productId;
                         Review.artisan := Order.artisan orderItem;
                         Review.customer := customerId;
                         Review.order := orderId;
                         Review.overall := inject_Z (body_overall body);
                         Review.helpfulVotes := 0;
                         Review.votedBy := [];
                         Review.status := Review.approved |} in
                    let* _ := Review_save_new review in
                    ret review
                end
            end
        end
  | None => fail NotEligible
  end.

(** [POST /api/reviews] behind its validation middleware. *)
Definition POST_reviews (env : Env) (user : Actor) (body : CreateReviewBody)
  : Handler Review.t :=
  if validateReviewCreation body then create_review env user body
  else fail ValidationFailed.

(** The key [rating] of an update body: the whole nested object, each
    score a number or absent. *)
Record RatingInput := mkRatingInput {
  in_overall : option Q;
  in_quality : option Q;
  in_craftsmanship : option Q;
  in_packaging : option Q;
  in_shipping : option Q
}.

(** The keys of an update body that the schema validates: [rating],
    [title] and [comment], each absent or present with a value of the type
    of its path.  ([images], [pros], [cons] and [wouldRecommend] have no
    validator.) *)
Record UpdateReviewBody := mkUpdateReviewBody {
  body_rating : option RatingInput;
  body_title : option string;
  body_comment : option string
}.

(** [min: 1, max: 5] on a score that is there. *)
Definition score_valid (x : option Q) : bool :=
  match x with
  | Some x => Qle_bool 1 x && Qle_bool x 5
  | None => true
  end.

(** The validators of the nested [rating]: [overall] is [required]. *)
Definition rating_valid (r : RatingInput) : bool :=
  bool_decide (is_Some (in_overall r))
  && score_valid (in_overall r) && score_valid (in_quality r)
  && score_valid (in_craftsmanship r) && score_valid (in_packaging r)
  && score_valid (in_shipping r).

(** [trim: true] then [maxlength: 100] on [title]; the trimmed title is
    no longer than the title. *)
Fixpoint trim_start (s : string) : string :=
  match s with
  | String a rest => if is_space a then trim_start rest else s
  | EmptyString => EmptyString
  end.

Definition string_rev (s : string) : string :=
  string_of_list_ascii (rev (list_ascii_of_string s)).

Definition trim (s : string) : string :=
  string_rev (trim_start (string_rev (trim_start s))).

Definition title_valid (s : string) : bool :=
  (String.length (trim s) <=? 100)%nat.

(** [required] then [maxlength: 1000] on [comment]; an empty string does
    not meet [required]. *)
Definition comment_valid (s : string) : bool :=
  negb (String.eqb s "") && (String.length s <=? 1000)%nat.

(** The validators [save()] runs on the paths that [Object.assign] wrote. *)
Definition updates_valid (body : UpdateReviewBody) : bool :=
  match body_rating body with Some r => rating_valid r | None => true end
  && match body_title body with Some s => title_valid s | None => true end
  && match body_comment body with Some s => comment_valid s | None => true end.

(** [Review.findOne({ _id, customer })] *)
Definition Review_findOwn (id customerId : ObjectId) : Handler (option Review.t) :=
  gets (fun db =>
    List.find (fun r => has_id id r && Pos.eqb (Review.customer r) customerId)
              (reviews db)).

(** The handler of [PUT /api/reviews/:id].  [Object.assign] writes every
    allowed key of the body on the review and [save()] validates what was
    written; of the written paths the record of a review keeps
    [rating.overall], so that is what the stored record shows of an update
    that went through. *)
Definition update_review (user : Actor) (id : ObjectId) (body : UpdateReviewBody)
  : Handler Review.t :=
  let* found := Review_findOwn id (actor_id user) in
  match found with
  | None => fail NotFound
  | Some review =>
      (* [Object.assign(review, updates); await review.save()] *)
      if negb (updates_valid body) then throw
      else
        match body_rating body with
        | None => let* _ := Review_save false review in ret review
        | Some rating =>
            match in_overall rating with
            | Some x =>
                let review := Review.set_overall x review in
                let* _ := Review_save true review in ret review
            | None => throw     (* [rating.overall] is required *)
            end
        end
  end.

(** The handler of [DELETE /api/reviews/:id]. *)
Definition delete_review (user : Actor) (id : ObjectId) : Handler unit :=
  let* found := Review_findOwn id (actor_id user) in
  match found with
  | None => fail NotFound
  | Some review => Review_remove review
  end.

(** The handler of [POST /api/reviews/:id/helpful];
    [const { helpful = true } = req.body]. *)
Definition vote_helpful (env : Env) (user : Actor) (id : ObjectId)
    (body_helpful : JsValue) : Handler Z :=
  let helpful :=
    match body_helpful with
    | JUndefined => JBool true
    | sent => sent
    end in
  let* found := Review_findById id in
  match found with
  | None => fail NotFound
  | Some review =>
      if negb (Review.canVote (actor_id user) review) then fail AlreadyVoted
      else
        let* review := Review_addVote env review (actor_id user) helpful in
        ret (Review.helpfulVotes review)
  end.

(** ** The API as a whole *)

(** One request to the order and review API. *)
Inductive Request :=
  | CreateOrder (env : Env) (user : Actor) (body : CreateOrderBody)
  | UpdateStatus (env : Env) (user : Actor) (id : ObjectId) (body : UpdateStatusBody)
  | CancelOrder (env : Env) (user : Actor) (id : ObjectId) (reason : option string)
  | CreateReview (env : Env) (user : Actor) (body : CreateReviewBody)
  | UpdateReview (user : Actor) (id : ObjectId) (body : UpdateReviewBody)
  | DeleteReview (user : Actor) (id : ObjectId)
  | VoteHelpful (env : Env) (user : Actor) (id : ObjectId) (helpful : JsValue).

(** The database a request leaves behind, whatever it answered. *)
Definition handle (db : Db) (r : Request) : Db :=
  match r with
  | CreateOrder env user body => snd (POST_orders env user body db)
  | UpdateStatus env user id body => snd (update_status env user id body db)
  | CancelOrder env user id reason => snd (cancel_order env user id reason db)
  | CreateReview env user body => snd (POST_reviews env user body db)
  | UpdateReview user id body => snd (update_review user id body db)
  | DeleteReview user id => snd (delete_review user id db)
  | VoteHelpful env user id helpful => snd (vote_helpful env user id helpful db)
  end.

Definition handle_all (db : Db) (rs : list Request) : Db := foldl handle db rs.

(** ** Quantities the properties are stated with *)

(** Units of product [pid] asked for by the lines of a request. *)
Definition ordered (pid : ObjectId) (lines : list OrderLine) : Z :=
  foldr (fun l acc => if Pos.eqb (line_product l) pid
                      then line_quantity l + acc else acc) 0 lines.

(** Units of product [pid] on the line items of an order. *)
Definition ordered_items (pid : ObjectId) (items : list Order.Item) : Z :=
  foldr (fun i acc => if Pos.eqb (Order.product i) pid
                      then Order.quantity i + acc else acc) 0 items.

(** Sum over line items of unit price times quantity. *)
Definition lines_total (items : list Order.Item) : Q :=
  foldr (fun i acc => (Order.price i * inject_Z (Order.quantity i) + acc)%Q)
        0%Q items.

(** Stock of a product after [n] units left it ([n] negative: came back);
    a product that does not track inventory is untouched. *)
Definition stock_after (n : Z) (p : Product.t) : Product.t :=
  if Product.trackInventory (Product.inventory p)
  then Product.with_stock (Product.quantity (Product.inventory p) - n)
                          (Product.totalSold (Product.stats p) + n) p
  else p.

(** Overall ratings of the reviews selected by [matches]. *)
Definition overalls (matches : Review.t -> bool) (db : Db) : list Q :=
  map Review.overall (List.filter matches (reviews db)).

Definition Qsum (l : list Q) : Q := foldr Qplus 0%Q l.

Definition mean (l : list Q) : Q := (Qsum l / inject_Z (Z.of_nat (length l)))%Q.

(** [r] is [x] rounded to one decimal place, a tie going up: a whole number
    of tenths, at most half a tenth above [x] and less than half a tenth
    below it. *)
Definition rounded_to_one_decimal (x r : Q) : Prop :=
  (exists k : Z, r == inject_Z k / 10)%Q /\ (x - (1 # 20) < r)%Q /\ (r <= x + (1 # 20))%Q.

(** The stored aggregate [rt] agrees with the ratings [l] it summarises. *)
Definition rating_agrees (l : list Q) (rt : Rating) : Prop :=
  count rt = Z.of_nat (length l)
  /\ (l = [] -> average rt = 0%Q)
  /\ (l <> [] -> rounded_to_one_decimal (mean l) (average rt)).

(** A line of the request and the line item the loop makes of it, in the
    catalogue [db] the request found. *)
Definition line_item (db : Db) (line : OrderLine) (item : Order.Item) : Prop :=
  Order.product item = line_product line
  /\ Order.quantity item = line_quantity line
  /\ exists p, products db !! line_product line = Some p
               /\ Order.price item = Product.discountedPrice p
               /\ Order.artisan item = Product.artisan p.



(** Every quantity of the lines was sent as a JSON number. *)
Definition sent_as_numbers (lines : list OrderLine) : Prop :=
  Forall (fun l => exists x, line_quantity_in l = JNumber x) lines.

(** A product with its sales counter put to 0: all of it but [totalSold]. *)
Definition but_sold (p : Product.t) : Product.t :=
  Product.with_stock (Product.quantity (Product.inventory p)) 0 p.

(** [p'] is [p] up to the stock figures, and is [p] when [p] does not
    track inventory. *)
Definition same_but_stock (p p' : Product.t) : Prop :=
  Product.artisan p' = Product.artisan p
  /\ Product.price p' = Product.price p
  /\ Product.rating p' = Product.rating p
  /\ Product.isActive p' = Product.isActive p
  /\ Product.lowStockThreshold (Product.inventory p')
     = Product.lowStockThreshold (Product.inventory p)
  /\ Product.trackInventory (Product.inventory p')
     = Product.trackInventory (Product.inventory p)
  /\ (Product.trackInventory (Product.inventory p) = false -> p' = p).

(** The catalogue [db'] holds the products of [db], each up to its stock
    figures. *)
Definition catalogue_kept (db db' : Db) : Prop :=
  forall pid,
    match products db !! pid, products db' !! pid with
    | Some p, Some p' => same_but_stock p p'
    | None, None => True
    | _, _ => False
    end.

(** The entry the [pre('save')] hook logs for status [s] at time [t]. *)
Definition hook_entry (s : Order.Status) (t : Z) : Order.TimelineEntry :=
  {| Order.entry_status := s;
     Order.timestamp := t;
     Order.note := "Order status changed to " ++ Order.Status_to_string s;
     Order.updatedBy := None |}.

(** Two orders that differ at most in their order number and timeline. *)
Definition same_but_log (o o' : Order.t) : Prop :=
  Order.customer o' = Order.customer o
  /\ Order.items o' = Order.items o
  /\ Order.pricing o' = Order.pricing o
  /\ Order.payment o' = Order.payment o
  /\ Order.status o' = Order.status o
  /\ Order.actualDelivery o' = Order.actualDelivery o
  /\ Order.cancellation o' = Order.cancellation o
  /\ Order.createdAt o' = Order.createdAt o.

(** Who may cancel an order: its buyer, or an administrator. *)
Definition may_cancel (user : Actor) (o : Order.t) : Prop :=
  Order.customer o = actor_id user \/ actor_role user = User.admin.

(** Who may update the status of an order: an artisan of one of its line
    items, or an administrator. *)
Definition may_update (user : Actor) (o : Order.t) : Prop :=
  (exists item, In item (Order.items o) /\ Order.artisan item = actor_id user)
  \/ actor_role user = User.admin.

(** The entry the handler itself pushes when the request carries a note. *)
Definition note_entry (s : Order.Status) (t : Z) (note : string) (user : Actor)
  : Order.TimelineEntry :=
  {| Order.entry_status := s;
     Order.timestamp := t;
     Order.note := note;
     Order.updatedBy := Some (actor_id user) |}.

(** The ratings of review [r]'s product and artisan, as stored in [db],
    agree with the approved reviews stored in [db]. *)
Definition ratings_in_sync (productId artisanId : ObjectId) (db : Db) : Prop :=
  (forall p, products db !! productId = Some p ->
     rating_agrees (overalls (approved_for_product productId) db) (Product.rating p))
  /\ (forall a, artisans db !! artisanId = Some a ->
     rating_agrees (overalls (approved_for_artisan artisanId) db) (Artisan.rating a)).

(** What the specification makes the rating of a catalogue item and of a
    seller from: the overall ratings of the stored reviews of that item,
    or of that seller, whose status is approved. *)
Definition approved_ratings_of_item (productId : ObjectId) (db : Db) : list Q :=
  map Review.overall
      (filter (fun r => Review.product r = productId
                        /\ Review.status r = Review.approved) (reviews db)).

Definition approved_ratings_of_seller (artisanId : ObjectId) (db : Db) : list Q :=
  map Review.overall
      (filter (fun r => Review.artisan r = artisanId
                        /\ Review.status r = Review.approved) (reviews db)).

(** [review.save()] puts [r] where the stored review with its [_id] was. *)
Definition put_review (r : Review.t) (rs : list Review.t) : list Review.t :=
  map (fun x => if has_id (Review._id r) x then r else x) rs.

(** An order on which the buyer may review the product. *)
Definition eligible (user : Actor) (productId : ObjectId) (o : Order.t) : bool :=
  Pos.eqb (Order.customer o) (actor_id user)
  && bool_decide (Order.status o = Order.delivered)
  && existsb (fun item => Pos.eqb (Order.product item) productId) (Order.items o).

(** [Review.findOne({ _id, customer })] as a function of the database. *)
Definition own_review (id : ObjectId) (user : Actor) (db : Db) : option Review.t :=
  List.find (fun r => has_id id r && Pos.eqb (Review.customer r) (actor_id user))
            (reviews db).

(** The flag a first vote is sent with, [true] when the body has none. *)
Definition flag_sent (body_helpful : JsValue) : JsValue :=
  match body_helpful with
  | JUndefined => JBool true
  | sent => sent
  end.

(** The review as a first vote of [userId], sent with [sent] and stored
    with the flag [flag], leaves it. *)
Definition voted (env : Env) (userId : ObjectId) (sent : JsValue)
    (flag : option bool) (r : Review.t) : Review.t :=
  Review.set_votes
    (if ToBoolean sent then Review.helpfulVotes r + 1 else Review.helpfulVotes r)
    (Review.votedBy r
     ++ [ {| Review.user := userId; Review.helpful := flag;
             Review.votedAt := now env |} ])
    r.

(** No two stored reviews share an [_id], nor a customer, product and
    order: what the two unique indexes of the collection guarantee. *)
Definition reviews_unique (db : Db) : Prop :=
  NoDup (map Review._id (reviews db)) /\ NoDup (map Review.key (reviews db)).


(** Why the creation loop turns a line down in the catalogue it meets: the
    item is missing or inactive, or it tracks inventory and has less in
    stock than the line asks for. *)
Definition refusal (db : Db) (line : OrderLine) : option error :=
  match products db !! line_product line with
  | None => Some ItemUnavailable
  | Some p =>
      if negb (Product.isActive p) then Some ItemUnavailable
      else if Product.trackInventory (Product.inventory p)
              && (Product.quantity (Product.inventory p) <? line_quantity line)
      then Some InsufficientStock
      else None
  end.

(** The product and the artisan of the review a request created, updated
    or deleted in [db]; nothing for any other request or for one that
    failed. *)
Definition review_changed (req : Request) (db : Db) : option (ObjectId * ObjectId) :=
  match req with
  | CreateReview env user body =>
      match fst (POST_reviews env user body db) with
      | Done r => Some (Review.product r, Review.artisan r)
      | Failed _ => None
      end
  | UpdateReview user id body =>
      match fst (update_review user id body db) with
      | Done r => Some (Review.product r, Review.artisan r)
      | Failed _ => None
      end
  | DeleteReview user id =>
      match fst (delete_review user id db), own_review id user db with
      | Done _, Some r => Some (Review.product r, Review.artisan r)
      | _, _ => None
      end
  | _ => None
  end.

(** ** A small shop to run the handlers on *)
Module Demo.

Definition vase : Product.t :=
  {| Product.artisan := 50%positive;
     Product.price := {| Product.amount := 200; Product.discount := Some 10%Q |};
     Product.inventory :=
       {| Product.quantity := 10; Product.lowStockThreshold := 5;
          Product.trackInventory := true |};
     Product.rating := {| average := 0; count := 0 |};
     Product.stats := {| Product.totalSold := 0 |};
     Product.isActive := true |}.

(** Made to order: stock is not tracked. *)
Definition scarf : Product.t :=
  {| Product.artisan := 50%positive;
     Product.price := {| Product.amount := 75; Product.discount := None |};
     Product.inventory :=
       {| Product.quantity := 0; Product.lowStockThreshold := 5;
          Product.trackInventory := false |};
     Product.rating := {| average := 0; count := 0 |};
     Product.stats := {| Product.totalSold := 0 |};
     Product.isActive := true |}.

(** Tracked and sold out. *)
Definition bowl : Product.t :=
  {| Product.artisan := 50%positive;
     Product.price := {| Product.amount := 40; Product.discount := None |};
     Product.inventory :=
       {| Product.quantity := 0; Product.lowStockThreshold := 5;
          Product.trackInventory := true |};
     Product.rating := {| average := 0; count := 0 |};
     Product.stats := {| Product.totalSold := 0 |};
     Product.isActive := true |}.

Definition buyer : Actor := {| actor_id := 7%positive; actor_role := User.customer |}.
Definition seller : Actor := {| actor_id := 50%positive; actor_role := User.artisan |}.
Definition other : Actor := {| actor_id := 8%positive; actor_role := User.customer |}.

Definition db0 : Db :=
  {| products := <[1%positive := vase]> (<[2%positive := scarf]> (<[3%positive := bowl]> ∅));
     artisans := <[50%positive := Artisan.mk {| average := 0; count := 0 |}]> ∅;
     users :=
       <[7%positive := User.mk User.customer
                         [ {| User.product := 1%positive; User.quantity := 3 |} ]]> ∅;
     orders := ∅;
     reviews := [] |}.

Definition env1 : Env := {| now := 1700000000000; new_id := 100%positive; random := 42 |}.
Definition env2 : Env := {| now := 1700000060000; new_id := 101%positive; random := 7 |}.
Definition env3 : Env := {| now := 1700000120000; new_id := 102%positive; random := 7 |}.

Definition env4 : Env := {| now := 1700000180000; new_id := 103%positive; random := 7 |}.

Definition address : ShippingAddress :=
  {| ship_name := JString "Asha Rao";
     ship_phone := MobilePhone;
     ship_street := JString "12 Temple Road";
     ship_city := JString "Pune";
     ship_state := JString "Maharashtra";
     ship_zipCode := JString "411001" |}.

Definition vase3 : OrderLine :=
  {| line_product_in := MongoId 1%positive; line_quantity_in := JNumber 3 |}.
Definition bowl1 : OrderLine :=
  {| line_product_in := MongoId 3%positive; line_quantity_in := JNumber 1 |}.

Definition order3 : CreateOrderBody :=
  {| body_items_in := Some [vase3];
     body_shippingAddress := address;
     body_payment_method_in := JString "upi" |}.

(** The buyer asks for three vases. *)
Definition created : outcome Order.t * Db := POST_orders env1 buyer order3 db0.

(** Three vases, the quantity sent as the string "3". *)
Definition vase3_text : OrderLine :=
  {| line_product_in := MongoId 1%positive; line_quantity_in := JString "3" |}.
Definition order3_text : CreateOrderBody :=
  {| body_items_in := Some [vase3_text];
     body_shippingAddress := address;
     body_payment_method_in := JString "upi" |}.

(** An order of three vases in the store: the document the handler builds
    for the request above, under the number the hook of the schema would
    give it, with the stock taken and the cart of the buyer empty. *)
Definition order1 : Order.t :=
  match fst (build_order env1 buyer order3 db0) with
  | Done o => Order.generate_orderNumber (now env1) (random env1) o
  | Failed _ => new_order env1 buyer order3 0 []
  end.
Definition db1 : Db :=
  let taken := snd (build_order env1 buyer order3 db0) in
  with_users (alter User.clear_cart 7%positive (users taken))
    (with_orders (<[100%positive := order1]> (orders taken)) taken).

(** The seller marks the order delivered, without a note. *)
Definition confirm : UpdateStatusBody :=
  {| body_status := "confirmed"; body_note := None |}.
Definition deliver : UpdateStatusBody :=
  {| body_status := "delivered"; body_note := None |}.
Definition db2 : Db := snd (update_status env2 seller 100%positive deliver db1).

(** Three vases and a bowl, which is sold out. *)
Definition order_vase_bowl : CreateOrderBody :=
  {| body_items_in := Some [vase3; bowl1];
     body_shippingAddress := address;
     body_payment_method_in := JString "cod" |}.
Definition db_vase_taken : Db := snd (order_lines [vase3] 0%Q [] db0).

(** Five scarves. *)
Definition order_scarves : CreateOrderBody :=
  {| body_items_in :=
       Some [ {| line_product_in := MongoId 2%positive;
                 line_quantity_in := JNumber 5 |} ];
     body_shippingAddress := address;
     body_payment_method_in := JString "card" |}.

(** The first order as delivered at the time of [env2]. *)
Definition order1_delivered : Order.t :=
  Order.set_actualDelivery (now env2) (Order.set_status Order.delivered order1).

(** The buyer reviews the vase. *)
Definition praise : CreateReviewBody :=
  {| body_productId := 1%positive; body_orderId := 100%positive; body_overall := 4 |}.
Definition db3 : Db := snd (POST_reviews env3 buyer praise db2).

(** Reviews of the vase by three other customers on orders of their own:
    two approved, with 5 stars each, one rejected, with 1 star; and an
    approved review of the scarf. *)
Definition review_of (id customer order product : ObjectId) (stars : Q)
    (status : Review.Status) : Review.t :=
  {| Review._id := id; Review.product := product; Review.artisan := 50%positive;
     Review.customer := customer; Review.order := order; Review.overall := stars;
     Review.helpfulVotes := 0; Review.votedBy := []; Review.status := status |}.

Definition db_reviewed : Db :=
  with_reviews
    [ review_of 201 21 301 1 5 Review.approved;
      review_of 202 22 302 1 5 Review.approved;
      review_of 203 23 303 1 1 Review.rejected;
      review_of 204 24 304 2 2 Review.approved ]
    db2.

End Demo.


(** * More of the back end *)

(** ** models/Order.js and models/Product.js: the remaining methods *)

(** Virtual [totalItems] of an order. *)
Definition Order_totalItems (this : Order.t) : Z :=
  foldl (fun total item => total + Order.quantity item) 0 (Order.items this).

(** Method [calculateRefundAmount] of an order. *)
Definition Order_calculateRefundAmount (this : Order.t) : Q :=
  if negb (bool_decide (Order.pay_status (Order.payment this) = Order.pay_completed))
  then 0%Q
  else
    let refundAmount := Order.totalAmount (Order.pricing this) in
    let refundAmount :=
      if bool_decide (Order.status this ∈ [Order.shipped; Order.delivered])
      then (refundAmount - Order.shippingCost (Order.pricing this))%Q
      else refundAmount in
    if Qle_bool 0 refundAmount then refundAmount else 0%Q.   (* Math.max(0, _) *)

Inductive StockStatus := in_stock | low_stock | out_of_stock.

(** Virtual [stockStatus] of a product. *)
Definition Product_stockStatus (this : Product.t) : StockStatus :=
  if negb (Product.trackInventory (Product.inventory this)) then in_stock
  else if Product.quantity (Product.inventory this) =? 0 then out_of_stock
  else if Product.quantity (Product.inventory this)
          <=? Product.lowStockThreshold (Product.inventory this)
  then low_stock
  else in_stock.

(** The schema validators of a product's price and stock: [price.amount]
    at least 0, [price.discount] from 0 to 100, [inventory.quantity] at
    least 0. *)
Definition Product_valid (p : Product.t) : Prop :=
  (0 <= Product.amount (Product.price p))%Q
  /\ (forall d, Product.discount (Product.price p) = Some d -> (0 <= d <= 100)%Q)
  /\ 0 <= Product.quantity (Product.inventory p).

(** ** routes/orders.js: reading one order *)

(** [order.items.some(item => item.artisan._id.toString() === userId)] on
    the populated order: a line whose artisan document is gone has
    [item.artisan === null], and reading its [_id] throws. *)
Fixpoint some_artisan (userId : ObjectId) (items : list Order.Item) : Handler bool :=
  match items with
  | [] => ret false
  | item :: rest =>
      let* populated := gets (fun db => artisans db !! Order.artisan item) in
      match populated with
      | None => throw
      | Some _ =>
          if Pos.eqb (Order.artisan item) userId then ret true
          else some_artisan userId rest
      end
  end.

(** The handler of [GET /api/orders/:id]. *)
Definition get_order (user : Actor) (id : ObjectId) : Handler Order.t :=
  let* found := Order_findById id in
  match found with
  | None => fail NotFound
  | Some order =>
      (* [.populate('customer')]: [order.customer._id] throws when the
         user document does not exist *)
      let* customer := gets (fun db => users db !! Order.customer order) in
      match customer with
      | None => throw
      | Some _ =>
          let isCustomer := Pos.eqb (Order.customer order) (actor_id user) in
          let* isArtisan := some_artisan (actor_id user) (Order.items order) in
          let isAdmin := bool_decide (actor_role user = User.admin) in
          if negb isCustomer && negb isArtisan && negb isAdmin
          then fail AccessDenied
          else ret order
      end
  end.

(** ** routes/users.js: the cart and the buyer's orders *)

Section Cart.

(** The validators [user.save()] runs on a user document.  The schema
    (models/User.js) is not among the sources. *)
Variable User_validate : User.t -> bool.

Definition User_findById (id : ObjectId) : Handler (option User.t) :=
  gets (fun db => users db !! id).

(** [user.save()] on a loaded user. *)
Definition User_save (id : ObjectId) (u : User.t) : Handler unit :=
  if User_validate u
  then modify (fun db => with_users (<[id := u]> (users db)) db)
  else throw.

Definition with_cart (c : list User.CartLine) (u : User.t) : User.t :=
  {| User.role := User.role u; User.cart := c |}.

(** [user.cart.find(item => item.product.toString() === productId)] *)
Definition cart_find (productId : ObjectId) (cart : list User.CartLine)
  : option User.CartLine :=
  List.find (fun item => Pos.eqb (User.product item) productId) cart.

(** Assignment to [quantity] of the line that [cart_find] returns. *)
Fixpoint cart_set (productId : ObjectId) (q : Z) (cart : list User.CartLine)
  : list User.CartLine :=
  match cart with
  | [] => []
  | item :: rest =>
      if Pos.eqb (User.product item) productId
      then {| User.product := User.product item; User.quantity := q |} :: rest
      else item :: cart_set productId q rest
  end.

(** [user.cart.reduce((total, item) => total + item.quantity, 0)] *)
Definition cartCount (cart : list User.CartLine) : Z :=
  foldl (fun total item => total + User.quantity item) 0 cart.

(** The handler of [PUT /api/users/cart/:productId]. *)
Definition update_cart_item (user : Actor) (productId : ObjectId) (quantity : Z)
  : Handler (list User.CartLine * Z) :=
  if quantity <? 1 then fail ValidationFailed   (* 400 'Quantity must be at least 1' *)
  else
    let* product := Product_findById productId in
    let available :=
      match product with
      | Some product => Product.isAvailable product quantity
      | None => false
      end in
    if negb available then fail InsufficientStock
    else
      let* found := User_findById (actor_id user) in
      match found with
      | None => throw
      | Some u =>
          match cart_find productId (User.cart u) with
          | None => fail NotFound   (* 404 'Product not found in cart' *)
          | Some _ =>
              let cart := cart_set productId quantity (User.cart u) in
              let* _ := User_save (actor_id user) (with_cart cart u) in
              ret (cart, cartCount cart)
          end
      end.

End Cart.

(** [$pull: { cart: { product: productId } }] *)
Definition cart_pull (productId : ObjectId) (cart : list User.CartLine)
  : list User.CartLine :=
  List.filter (fun item => negb (Pos.eqb (User.product item) productId)) cart.

(** The handler of [DELETE /api/users/cart/:productId]. *)
Definition remove_from_cart (user : Actor) (productId : ObjectId)
  : Handler (list User.CartLine * Z) :=
  let* _ := modify (fun db =>
    with_users
      (alter (fun u => with_cart (cart_pull productId (User.cart u)) u)
             (actor_id user) (users db)) db) in
  let* updated := User_findById (actor_id user) in
  match updated with
  | None => throw                   (* [user.cart] of [null] *)
  | Some u => ret (User.cart u, cartCount (User.cart u))
  end.

(** The handler of [DELETE /api/users/cart]. *)
Definition clear_cart (user : Actor) : Handler unit :=
  User_clear_cart (actor_id user).

Record CartSummary := mkCartSummary {
  itemCount : Z;
  cart_subtotal : Q;
  estimatedShipping : Q;
  cart_total : Q
}.

(** A product as [.populate({ path: 'cart.product', select: 'title images
    price inventory artisan category' })] puts it on a cart line: the
    selected paths only.  [isActive] is not selected, so the populated
    document has none. *)
Record CartProduct := mkCartProduct {
  cp_price : Product.Price;
  cp_inventory : Product.Inventory;
  cp_artisan : ObjectId;
  cp_isActive : option bool
}.

Definition populate_cart_product (p : Product.t) : CartProduct :=
  {| cp_price := Product.price p;
     cp_inventory := Product.inventory p;
     cp_artisan := Product.artisan p;
     cp_isActive := None |}.

(** The [filter] callback of the cart handler:
    [item.product && item.product.isActive]. *)
Definition cart_line_valid (db : Db) (item : User.CartLine) : bool :=
  match populate_cart_product <$> products db !! User.product item with
  | Some product => default false (cp_isActive product)
  | None => false
  end.

(** What a valid line adds to [subtotal]:
    [item.product.price.amount * item.quantity]. *)
Definition cart_line_amount (db : Db) (item : User.CartLine) : Q :=
  match populate_cart_product <$> products db !! User.product item with
  | Some product =>
      (Product.amount (cp_price product) * inject_Z (User.quantity item))%Q
  | None => 0%Q
  end.

(** The handler of [GET /api/users/cart]. *)
Definition get_cart (user : Actor) : Handler (list User.CartLine * CartSummary) :=
  let* found := User_findById (actor_id user) in
  match found with
  | None => throw
  | Some u =>
      let* validItems := gets (fun db => List.filter (cart_line_valid db) (User.cart u)) in
      let* subtotal := gets (fun db =>
        foldl (fun subtotal item => (subtotal + cart_line_amount db item)%Q)
              0%Q validItems) in
      ret (validItems,
           {| itemCount := cartCount validItems;
              cart_subtotal := subtotal;
              estimatedShipping := 0%Q;
              cart_total := subtotal |})
  end.

(** ** scripts/restock.js *)

(** [Product.updateMany({}, { $set: { 'inventory.quantity': 100,
    'inventory.trackInventory': true, isActive: true } })] *)
Definition restocked (p : Product.t) : Product.t :=
  {| Product.artisan := Product.artisan p;
     Product.price := Product.price p;
     Product.inventory :=
       {| Product.quantity := 100;
          Product.lowStockThreshold := Product.lowStockThreshold (Product.inventory p);
          Product.trackInventory := true |};
     Product.rating := Product.rating p;
     Product.stats := Product.stats p;
     Product.isActive := true |}.

Definition restock (db : Db) : Db := with_products (restocked <$> products db) db.

(** ** routes/users.js: the buyer's orders, a page at a time *)

Record Pagination := mkPagination {
  currentPage : Z;
  totalPages : Z;
  totalItems : Z;
  hasNext : bool;
  hasPrev : bool
}.

(** [validatePagination]: [page], when given, is an integer of at least 1;
    [limit], when given, is an integer from 1 to 100. *)
Definition validatePagination (page limit : option Z) : bool :=
  match page with Some p => 1 <=? p | None => true end
  && match limit with Some l => (1 <=? l) && (l <=? 100) | None => true end.

(** [.sort({ createdAt: -1 })]: newest first.  Among orders of one date
    the store may answer in any order; the model keeps the order in which
    it meets them. *)
Fixpoint insert_newest_first (x : ObjectId * Order.t)
    (l : list (ObjectId * Order.t)) : list (ObjectId * Order.t) :=
  match l with
  | [] => [x]
  | y :: rest =>
      if Order.createdAt (snd y) <=? Order.createdAt (snd x) then x :: l
      else y :: insert_newest_first x rest
  end.

Definition newest_first (l : list (ObjectId * Order.t)) : list (ObjectId * Order.t) :=
  foldr insert_newest_first [] l.

(** [Order.find({ customer })] *)
Definition orders_of (customerId : ObjectId) (db : Db) : list (ObjectId * Order.t) :=
  List.filter (fun io => Pos.eqb (Order.customer (snd io)) customerId)
              (map_to_list (orders db)).

(** The handler of [GET /api/users/orders];
    [parseInt(req.query.page) || 1], [parseInt(req.query.limit) || 10]. *)
Definition get_user_orders (user : Actor) (query_page query_limit : option Z)
  : Handler (list (ObjectId * Order.t) * Pagination) :=
  let page := default 1 query_page in
  let limit := default 10 query_limit in
  let skip := (page - 1) * limit in
  let* mine := gets (orders_of (actor_id user)) in
  let orders :=
    take (Z.to_nat limit) (drop (Z.to_nat skip) (newest_first mine)) in
  let totalOrders := Z.of_nat (length mine) in
  let totalPages := Qceiling (inject_Z totalOrders / inject_Z limit) in  (* Math.ceil *)
  ret (orders,
       {| currentPage := page;
          totalPages := totalPages;
          totalItems := totalOrders;
          hasNext := page <? totalPages;
          hasPrev := 1 <? page |}).

(** [GET /api/users/orders] behind its validation middleware. *)
Definition GET_users_orders (user : Actor) (query_page query_limit : option Z)
  : Handler (list (ObjectId * Order.t) * Pagination) :=
  if validatePagination query_page query_limit
  then get_user_orders user query_page query_limit
  else fail ValidationFailed.

(** ** Quantities the further properties are stated with *)

(** Units asked for by all the lines of a request. *)
Definition units_requested (lines : list OrderLine) : Z :=
  foldr (fun l acc => line_quantity l + acc) 0 lines.

(** Every order stored in [db] is still stored in [db'], for the same
    customer, with the same creation date and payment, and with the order
    number it had if it had one. *)
Definition identity_kept (db db' : Db) : Prop :=
  forall oid o, orders db !! oid = Some o ->
    exists o', orders db' !! oid = Some o'
               /\ Order.customer o' = Order.customer o
               /\ Order.createdAt o' = Order.createdAt o
               /\ Order.payment o' = Order.payment o
               /\ (is_Some (Order.orderNumber o) ->
                   Order.orderNumber o' = Order.orderNumber o).

(** Where a review stored after request [req] comes from: it was stored
    before, or it is the review [req] created, the stored review [req]
    re-rated, or the stored review [req] voted on. *)
Definition review_origin (db : Db) (req : Request) (x : Review.t) : Prop :=
  In x (reviews db)
  \/ (exists env user body,
        req = CreateReview env user body
        /\ validateReviewCreation body = true
        /\ Review.overall x = inject_Z (body_overall body)
        /\ Review.helpfulVotes x = 0 /\ Review.votedBy x = []
        /\ Review.status x = Review.approved)
  \/ (exists user id body r0 rating stars,
        req = UpdateReview user id body
        /\ In r0 (reviews db)
        /\ body_rating body = Some rating
        /\ in_overall rating = Some stars
        /\ x = Review.set_overall stars r0
        /\ Review.validate x = true)
  \/ (exists env user id helpful flag r0,
        req = VoteHelpful env user id helpful
        /\ In r0 (reviews db)
        /\ Review.canVote (actor_id user) r0 = true
        /\ castBoolean (flag_sent helpful) = Some flag
        /\ x = voted env (actor_id user) (flag_sent helpful) flag r0).

(** A score of an update is acceptable: absent, or from 1 to 5. *)
Definition score_in_range (x : option Q) : Prop :=
  match x with
  | Some q => (1 <= q <= 5)%Q
  | None => True
  end.

(** What the schema asks of an update of a review: a rating that is sent
    has an overall score and every score it has is from 1 to 5; a title
    that is sent has at most 100 characters once trimmed; a comment that is
    sent is not empty and has at most 1000 characters. *)
Definition update_accepted (body : UpdateReviewBody) : Prop :=
  (forall rating, body_rating body = Some rating ->
     is_Some (in_overall rating)
     /\ score_in_range (in_overall rating) /\ score_in_range (in_quality rating)
     /\ score_in_range (in_craftsmanship rating)
     /\ score_in_range (in_packaging rating)
     /\ score_in_range (in_shipping rating))
  /\ (forall s, body_title body = Some s -> (String.length (trim s) <= 100)%nat)
  /\ (forall s, body_comment body = Some s ->
        s <> ""%string /\ (String.length s <= 1000)%nat).

(** The review an accepted update leaves: the overall score of the rating
    that was sent, if one was, on the stored review. *)
Definition updated (body : UpdateReviewBody) (r : Review.t) : Review.t :=
  match body_rating body with
  | Some rating =>
      match in_overall rating with
      | Some x => Review.set_overall x r
      | None => r
      end
  | None => r
  end.

(** [a] may be listed before [b]: it is not the older of the two. *)
Definition not_older (a b : ObjectId * Order.t) : Prop :=
  Order.createdAt (snd b) <= Order.createdAt (snd a).

(** ** A longer session on the example data *)

Module Session.


(** After the order: delivery, the buyer's review, and a vote on it by
    another customer. *)
Definition later : list Request :=
  [ UpdateStatus Demo.env2 Demo.seller 100%positive Demo.deliver;
    CreateReview Demo.env3 Demo.buyer Demo.praise;
    VoteHelpful Demo.env4 Demo.other 102%positive (JBool true) ].

(** The same, with a further vote sent as the string "false". *)
Definition later_text_vote : list Request :=
  later ++ [ VoteHelpful Demo.env4 Demo.seller 102%positive (JString "false") ].

(** The order cancelled by the buyer, then confirmed again by the seller. *)
Definition db_cancelled : Db :=
  snd (cancel_order Demo.env2 Demo.buyer 100%positive None Demo.db1).
Definition db_reopened : Db :=
  snd (update_status Demo.env3 Demo.seller 100%positive Demo.confirm db_cancelled).

End Session.

(** * Properties *)

(** ** The handlers on the small shop *)

Example Math_round_tie_up : Math_round (5 # 2) = 3 /\ Math_round (- (5 # 2)) = -2.
Proof. split; reflexivity. Qed.

Example vase_discounted : (Product.discountedPrice Demo.vase == 180)%Q.
Proof. reflexivity. Qed.

Example order_request_fails :
  Demo.created = (Failed InternalError, Demo.db_vase_taken).
Proof. vm_compute. reflexivity. Qed.

Example order1_number : Order.orderNumber Demo.order1 = Some "LL000000042"%string.
Proof. vm_compute. reflexivity. Qed.

Example order1_total : (Order.totalAmount (Order.pricing Demo.order1) == 6372 # 10)%Q.
Proof. vm_compute. reflexivity. Qed.

Example vase_stock_after_order :
  Product.inventory <$> products Demo.db1 !! 1%positive
  = Some {| Product.quantity := 7; Product.lowStockThreshold := 5;
            Product.trackInventory := true |}.
Proof. vm_compute. reflexivity. Qed.

Example review_before_delivery :
  POST_reviews Demo.env3 Demo.buyer Demo.praise Demo.db1
  = (Failed NotEligible, Demo.db1).
Proof. vm_compute. reflexivity. Qed.

Example vase_rated :
  Product.rating <$> products Demo.db3 !! 1%positive
  = Some {| average := (inject_Z 40 / 10)%Q; count := 1 |}.
Proof. vm_compute. reflexivity. Qed.

Example rounding_of_a_mean :
  Qeq (average (rating_of_stats (Some (((4 + 5 + 5) / 3)%Q, 3)))) (47 # 10).
Proof. vm_compute. reflexivity. Qed.

Example stranger_cannot_update :
  update_status Demo.env2 Demo.other 100%positive Demo.confirm Demo.db1
  = (Failed AccessDenied, Demo.db1).
Proof. vm_compute. reflexivity. Qed.

Example numeral_appended :
  add_assign 3 (JNumber 3) = Some 6 /\ add_assign 3 (JString "3") = Some 33
  /\ add_assign 3 (JString "+3") = None.
Proof. vm_compute. auto. Qed.

(** ** Stepping through a handler *)

Ltac run :=
  repeat (progress (simpl in *;
                    unfold bind, gets, modify, ret, fail, throw,
                      Product_findById, Order_findById in *)).

Lemma bind_Done {A B} (m : Handler A) (k : A -> Handler B) db b db' :
  bind m k db = (Done b, db') ->
  exists a db1, m db = (Done a, db1) /\ k a db1 = (Done b, db').
Proof.
  unfold bind. destruct (m db) as [[a|e] db1]; intros H.
  - eauto.
  - discriminate.
Qed.

(** ** Stock bookkeeping *)

Lemma stock_after_0 p : stock_after 0 p = p.
Proof.
  unfold stock_after, Product.with_stock.
  destruct p as [a pr [q l tr] r [s] act]; simpl.
  destruct tr; [|reflexivity]. by rewrite Z.sub_0_r, Z.add_0_r.
Qed.

Lemma stock_after_take n m p :
  Product.trackInventory (Product.inventory p) = true ->
  stock_after n (Product.take_stock m p) = stock_after (m + n) p.
Proof.
  intros Htr. unfold stock_after, Product.take_stock, Product.with_stock.
  simpl. rewrite Htr. f_equal; [f_equal|f_equal]; lia.
Qed.

Lemma stock_after_restore n m p :
  Product.trackInventory (Product.inventory p) = true ->
  stock_after (- n) (Product.restore_stock m p) = stock_after (- (m + n)) p.
Proof.
  intros Htr. unfold stock_after, Product.restore_stock, Product.with_stock.
  simpl. rewrite Htr. f_equal; [f_equal|f_equal]; lia.
Qed.

Lemma stock_after_untracked n p :
  Product.trackInventory (Product.inventory p) = false -> stock_after n p = p.
Proof. intros H. unfold stock_after. by rewrite H. Qed.

Lemma stock_after_after n m p : stock_after n (stock_after m p) = stock_after (m + n) p.
Proof.
  destruct p as [a pr [q l tr] r [s] act].
  unfold stock_after, Product.with_stock; simpl.
  destruct tr; simpl; [|reflexivity].
  f_equal; [f_equal|f_equal]; lia.
Qed.

Lemma same_but_stock_refl p : same_but_stock p p.
Proof. by repeat split. Qed.

Lemma same_but_stock_trans p1 p2 p3 :
  same_but_stock p1 p2 -> same_but_stock p2 p3 -> same_but_stock p1 p3.
Proof.
  intros (Ha & Hp & Hr & Hact & Hl & Ht & Hu) (Ha' & Hp' & Hr' & Hact' & Hl' & Ht' & Hu').
  repeat split; try congruence.
  intros Hno. rewrite Hu' by congruence. by apply Hu.
Qed.

Lemma same_but_stock_with_stock q sold p :
  Product.trackInventory (Product.inventory p) = true ->
  same_but_stock p (Product.with_stock q sold p).
Proof. intros Htr. repeat split; simpl; congruence. Qed.

Lemma same_but_stock_after n p : same_but_stock p (stock_after n p).
Proof.
  unfold stock_after.
  destruct (Product.trackInventory (Product.inventory p)) eqn:Htr.
  - by apply same_but_stock_with_stock.
  - apply same_but_stock_refl.
Qed.

Lemma catalogue_kept_refl db db' : products db' = products db -> catalogue_kept db db'.
Proof.
  intros Heq pid. rewrite Heq.
  destruct (products db !! pid); [apply same_but_stock_refl|done].
Qed.

Lemma catalogue_kept_trans db1 db2 db3 :
  catalogue_kept db1 db2 -> catalogue_kept db2 db3 -> catalogue_kept db1 db3.
Proof.
  intros H12 H23 pid. specialize (H12 pid). specialize (H23 pid).
  destruct (products db1 !! pid), (products db2 !! pid), (products db3 !! pid);
    try done.
  by eapply same_but_stock_trans.
Qed.

Lemma catalogue_kept_put db db' id p p' :
  products db !! id = Some p ->
  same_but_stock p p' ->
  products db' = <[id := p']> (products db) ->
  catalogue_kept db db'.
Proof.
  intros Hp Hsame Heq pid. rewrite Heq.
  destruct (decide (id = pid)) as [<-|Hne].
  - by rewrite lookup_insert_eq, Hp.
  - rewrite lookup_insert_ne by done.
    destruct (products db !! pid); [apply same_but_stock_refl|done].
Qed.

Lemma catalogue_kept_untracked db db' pid p :
  catalogue_kept db db' ->
  products db !! pid = Some p ->
  Product.trackInventory (Product.inventory p) = false ->
  products db' !! pid = Some p.
Proof.
  intros Hkept Hp Htr. specialize (Hkept pid). rewrite Hp in Hkept.
  destruct (products db' !! pid) as [p'|]; [|done].
  destruct Hkept as (_ & _ & _ & _ & _ & _ & Hu). by rewrite Hu.
Qed.

(** ** The creation loop *)

(** What the loop leaves alone, however it ends. *)
Ltac ended H := inversion H; subst; clear H; repeat split; auto.

(** The line item the loop makes of a line for product [p]. *)
Lemma int_of_value_quantity line n :
  int_of_value (line_quantity_in line) = Some n -> line_quantity line = n.
Proof. unfold line_quantity. by intros ->. Qed.

Lemma MongoId_product line id :
  line_product_in line = MongoId id -> line_product line = id.
Proof. unfold line_product. by intros ->. Qed.

(** One turn of the loop: it ends the request with the database as it
    met it, or it goes on with the rest of the lines after writing at most
    the stock of the product of the line. *)
Lemma order_lines_step item s acc db :
  (exists e, forall rest, order_lines (item :: rest) s acc db = (Failed e, db))
  \/ (exists p db1 sold,
        line_product_in item = MongoId (line_product item)
        /\ int_of_value (line_quantity_in item) = Some (line_quantity item)
        /\ products db !! line_product item = Some p
        /\ Product.isActive p = true
        /\ Product.isAvailable p (line_quantity item) = true
        /\ is_Some (artisans db !! Product.artisan p)
        /\ (if Product.trackInventory (Product.inventory p)
            then add_assign (Product.totalSold (Product.stats p))
                            (line_quantity_in item) = Some sold
                 /\ db1 = with_products
                            (<[line_product item :=
                                 Product.with_stock
                                   (Product.quantity (Product.inventory p)
                                    - line_quantity item) sold p]> (products db)) db
            else db1 = db)
        /\ forall rest,
             order_lines (item :: rest) s acc db
             = order_lines rest
                 (s + Product.discountedPrice p * inject_Z (line_quantity item))%Q
                 (acc ++ [ {| Order.product := line_product item;
                              Order.artisan := Product.artisan p;
                              Order.quantity := line_quantity item;
                              Order.price := Product.discountedPrice p |} ]) db1).
Proof.
  simpl. destruct (line_product_in item) as [id|] eqn:Hid; [|left; by eexists].
  rewrite (MongoId_product _ _ Hid). run.
  destruct (products db !! id) as [p|] eqn:Hp; [|left; by eexists].
  destruct (Product.isActive p) eqn:Hact; simpl; [|left; by eexists].
  destruct (int_of_value (line_quantity_in item)) as [n|] eqn:Hn;
    [|left; by eexists].
  rewrite (int_of_value_quantity _ _ Hn).
  destruct (Product.isAvailable p n) eqn:Hav; simpl; [|left; by eexists].
  destruct (artisans db !! Product.artisan p) eqn:Har; [|left; by eexists].
  destruct (Product.trackInventory (Product.inventory p)) eqn:Htr.
  - destruct (add_assign _ _) as [sold|] eqn:Hsold; [|left; by eexists].
    unfold Product_save.
    match goal with |- context [if ?c then _ else _] => destruct c end;
      run; [left; by eexists|].
    right. eexists p, _, sold. rewrite Htr. by repeat split; eauto.
  - run. right. exists p, db, 0. rewrite Htr. by repeat split; eauto.
Qed.

Lemma order_lines_frame lines : forall s acc db res db',
  order_lines lines s acc db = (res, db') ->
  artisans db' = artisans db /\ users db' = users db
  /\ orders db' = orders db /\ reviews db' = reviews db.
Proof.
  induction lines as [|item rest IH]; intros s acc db res db' H.
  - run. ended H.
  - destruct (order_lines_step item s acc db)
      as [[e He]|(p & db1 & sold & _ & _ & _ & _ & _ & _ & Hdb1 & Hgo)].
    + rewrite He in H. ended H.
    + rewrite Hgo in H. apply IH in H.
      destruct (Product.trackInventory (Product.inventory p));
        [destruct Hdb1 as [_ ->]|subst db1]; exact H.
Qed.

(** However the loop ends, a product is where it was up to its stock
    figures. *)
Lemma order_lines_catalogue lines : forall s acc db res db',
  order_lines lines s acc db = (res, db') -> catalogue_kept db db'.
Proof.
  induction lines as [|item rest IH]; intros s acc db res db' H.
  - run. inversion H; subst. by apply catalogue_kept_refl.
  - destruct (order_lines_step item s acc db)
      as [[e He]|(p & db1 & sold & _ & _ & Hp & _ & _ & _ & Hdb1 & Hgo)].
    + rewrite He in H. inversion H; subst. by apply catalogue_kept_refl.
    + rewrite Hgo in H. apply IH in H.
      destruct (Product.trackInventory (Product.inventory p)) eqn:Htr.
      * destruct Hdb1 as [_ ->].
        eapply catalogue_kept_trans; [|exact H].
        eapply catalogue_kept_put; [exact Hp| |reflexivity].
        by apply same_but_stock_with_stock.
      * by subst db1.
Qed.

Lemma but_sold_stock_after n p :
  Product.trackInventory (Product.inventory p) = true ->
  but_sold (stock_after n p)
  = Product.with_stock (Product.quantity (Product.inventory p) - n) 0 p.
Proof. intros Htr. unfold stock_after. by rewrite Htr. Qed.

(** The catalogue after the loop went through: every tracked product is
    down by the units ordered of it, whatever became of its sales
    counter. *)
Lemma order_lines_quantity lines : forall s acc db res db',
  order_lines lines s acc db = (Done res, db') ->
  forall pid,
    but_sold <$> products db' !! pid
    = but_sold <$> (stock_after (ordered pid lines) <$> products db !! pid).
Proof.
  induction lines as [|item rest IH]; intros s acc db res db' H pid.
  - run. inversion H; subst. destruct (products db' !! pid); simpl; [|done].
    by rewrite stock_after_0.
  - destruct (order_lines_step item s acc db)
      as [[e He]|(p & db1 & sold & _ & _ & Hp & _ & _ & _ & Hdb1 & Hgo)].
    { rewrite He in H. discriminate. }
    rewrite Hgo in H. rewrite (IH _ _ _ _ _ H pid). simpl.
    destruct (Product.trackInventory (Product.inventory p)) eqn:Htr.
    + destruct Hdb1 as [_ ->]. simpl.
      destruct (Pos.eqb_spec (line_product item) pid) as [Heq|Hne].
      * rewrite Heq in *. rewrite lookup_insert_eq, Hp. simpl. f_equal.
        rewrite !but_sold_stock_after by done. simpl.
        unfold Product.with_stock. simpl. f_equal. f_equal. lia.
      * by rewrite lookup_insert_ne.
    + subst db1.
      destruct (Pos.eqb_spec (line_product item) pid) as [Heq|Hne]; [|done].
      rewrite Heq in *. rewrite Hp. simpl. by rewrite !stock_after_untracked.
Qed.

Lemma add_assign_number n x sold :
  add_assign n (JNumber x) = Some sold ->
  exists m, int_of_value (JNumber x) = Some m /\ sold = n + m.
Proof.
  simpl. destruct (Number_isInteger x); [|done]. intros [= <-]. eauto.
Qed.

(** The catalogue after the loop went through lines whose quantities were
    sent as numbers: every tracked product is down by the units ordered of
    it, and its sales counter up by as many. *)
Lemma order_lines_stock lines : forall s acc db res db',
  sent_as_numbers lines ->
  order_lines lines s acc db = (Done res, db') ->
  forall pid, products db' !! pid = stock_after (ordered pid lines) <$> products db !! pid.
Proof.
  induction lines as [|item rest IH]; intros s acc db res db' Hnum H pid.
  - run. inversion H; subst. destruct (products db' !! pid); simpl; [|done].
    by rewrite stock_after_0.
  - apply Forall_cons in Hnum as [[x Hx] Hnum].
    destruct (order_lines_step item s acc db)
      as [[e He]|(p & db1 & sold & _ & Hq & Hp & _ & _ & _ & Hdb1 & Hgo)].
    { rewrite He in H. discriminate. }
    rewrite Hgo in H. rewrite (IH _ _ _ _ _ Hnum H pid). simpl.
    destruct (Product.trackInventory (Product.inventory p)) eqn:Htr.
    + destruct Hdb1 as [Hsold ->]. simpl.
      rewrite Hx in Hsold, Hq.
      apply add_assign_number in Hsold as (m & Hm & ->).
      rewrite Hm in Hq. injection Hq as ->.
      destruct (Pos.eqb_spec (line_product item) pid) as [Heq|Hne].
      * rewrite Heq in *. rewrite lookup_insert_eq, Hp. simpl. f_equal.
        by apply (stock_after_take _ _ p).
      * by rewrite lookup_insert_ne.
    + subst db1.
      destruct (Pos.eqb_spec (line_product item) pid) as [Heq|Hne]; [|done].
      rewrite Heq in *. rewrite Hp. simpl. by rewrite !stock_after_untracked.
Qed.

Lemma line_item_stock db db1 line item :
  catalogue_kept db db1 ->
  line_item db1 line item -> line_item db line item.
Proof.
  intros Hcat (Hp & Hq & p1 & Hl & Hpr & Har).
  repeat split; auto.
  specialize (Hcat (line_product line)). rewrite Hl in Hcat.
  destruct (products db !! line_product line) as [p|]; [|done].
  exists p. split; [done|].
  destruct Hcat as (Ha & Hprice & _).
  unfold Product.discountedPrice in *. by rewrite Hpr, Har, Hprice, Ha.
Qed.

(** The accumulators after the loop went through. *)
Lemma order_lines_totals lines : forall s acc db s' acc' db',
  order_lines lines s acc db = (Done (s', acc'), db') ->
  exists new,
    acc' = acc ++ new
    /\ (s' == s + lines_total new)%Q
    /\ Forall2 (line_item db) lines new.
Proof.
  induction lines as [|item rest IH]; intros s acc db s' acc' db' H.
  - run. inversion H; subst. exists []. rewrite app_nil_r. simpl.
    split; [done|]. split; [ring|constructor].
  - destruct (order_lines_step item s acc db)
      as [[e He]|(p & db1 & sold & _ & _ & Hp & _ & _ & _ & Hdb1 & Hgo)].
    { rewrite He in H. discriminate. }
    rewrite Hgo in H.
    set (it := {| Order.product := line_product item;
                  Order.artisan := Product.artisan p;
                  Order.quantity := line_quantity item;
                  Order.price := Product.discountedPrice p |}) in *.
    assert (Hit : line_item db item it).
    { repeat split; auto. exists p. auto. }
    assert (Hcat : catalogue_kept db db1).
    { destruct (Product.trackInventory (Product.inventory p)) eqn:Htr.
      - destruct Hdb1 as [_ ->].
        eapply catalogue_kept_put; [exact Hp| |reflexivity].
        by apply same_but_stock_with_stock.
      - subst db1. by apply catalogue_kept_refl. }
    destruct (IH _ _ _ _ _ _ H) as (new & Hacc & Hs & Hall).
    exists (it :: new). split; [by rewrite Hacc, <- app_assoc|].
    split.
    + rewrite Hs. simpl. ring.
    + constructor; [done|].
      eapply Forall2_impl; [exact Hall|].
      intros l i Hli. by eapply line_item_stock.
Qed.

Lemma order_lines_app pre : forall post s acc db s1 acc1 db1,
  order_lines pre s acc db = (Done (s1, acc1), db1) ->
  order_lines (pre ++ post) s acc db = order_lines post s1 acc1 db1.
Proof.
  induction pre as [|item rest IH]; intros post s acc db s1 acc1 db1 H.
  - run. by inversion H; subst.
  - destruct (order_lines_step item s acc db)
      as [[e He]|(p & db2 & sold & _ & _ & _ & _ & _ & _ & _ & Hgo)].
    { rewrite He in H. discriminate. }
    rewrite Hgo in H. rewrite <- app_comm_cons, Hgo. by apply IH.
Qed.

(** ** Order creation, step by step *)

Lemma build_order_cases env user body db :
  (exists subtotal orderItems db1,
     order_lines (body_items body) 0%Q [] db = (Done (subtotal, orderItems), db1)
     /\ build_order env user body db
        = (Done (new_order env user body subtotal orderItems), db1))
  \/ (exists e db1,
        order_lines (body_items body) 0%Q [] db = (Failed e, db1)
        /\ build_order env user body db = (Failed e, db1)).
Proof.
  unfold build_order, bind, ret.
  destruct (order_lines (body_items body) 0%Q [] db) as [[[s its]|e] db1];
    [left|right]; eauto.
Qed.

(** A document without an order number does not get past [save()]. *)
Lemma Order_save_new_unnumbered env o db :
  Order.orderNumber o = None ->
  Order_save_new env o db = (Failed InternalError, db).
Proof.
  intros Hnone. unfold Order_save_new, Order.validate. rewrite Hnone.
  by rewrite bool_decide_eq_false_2 by (apply is_Some_None).
Qed.

(** The creation handler does not get past [order.save()]: it answers
    what the loop answers when the loop fails, and a server error
    otherwise, with the database as the loop left it. *)
Lemma create_order_cases env user body db :
  (exists totals db1,
     order_lines (body_items body) 0%Q [] db = (Done totals, db1)
     /\ create_order env user body db = (Failed InternalError, db1))
  \/ (exists e db1,
        order_lines (body_items body) 0%Q [] db = (Failed e, db1)
        /\ create_order env user body db = (Failed e, db1)).
Proof.
  destruct (build_order_cases env user body db)
    as [(s & its & db1 & Hloop & Hbuild)|(e & db1 & Hloop & Hbuild)].
  - left. exists (s, its), db1. split; [done|].
    unfold create_order. unfold bind at 1. rewrite Hbuild.
    unfold bind. by rewrite Order_save_new_unnumbered.
  - right. exists e, db1. split; [exact Hloop|].
    unfold create_order. unfold bind at 1. by rewrite Hbuild.
Qed.

(** [POST /api/orders] never answers success, and writes nothing but
    stock figures. *)
Lemma POST_orders_fails env user body db :
  exists e db',
    POST_orders env user body db = (Failed e, db')
    /\ users db' = users db /\ orders db' = orders db
    /\ reviews db' = reviews db /\ artisans db' = artisans db
    /\ catalogue_kept db db'.
Proof.
  unfold POST_orders. destruct (validateOrderCreation body).
  - destruct (create_order_cases env user body db)
      as [(t & db1 & Hloop & ->)|(e1 & db1 & Hloop & ->)];
      eexists _, db1; (split; [reflexivity|]);
      destruct (order_lines_frame _ _ _ _ _ _ Hloop) as (Ha & Hu & Ho & Hr);
      repeat split; auto; by eapply order_lines_catalogue.
  - exists ValidationFailed, db. repeat split; auto.
    by apply catalogue_kept_refl.
Qed.

(** ** The restore loop of a cancellation *)

Lemma restore_inventory_frame items : forall db res db',
  restore_inventory items db = (res, db') ->
  artisans db' = artisans db /\ users db' = users db
  /\ orders db' = orders db /\ reviews db' = reviews db.
Proof.
  induction items as [|item rest IH]; intros db res db' H; run.
  - ended H.
  - destruct (products db !! Order.product item) as [p|]; run;
      [|by apply IH in H].
    destruct (Product.trackInventory (Product.inventory p)); run;
      [|by apply IH in H].
    unfold Product_save in H.
    match type of H with context [if ?c then _ else _] => destruct c end;
      run; [ended H|].
    by apply IH in H.
Qed.

Lemma restore_inventory_catalogue items : forall db res db',
  restore_inventory items db = (res, db') -> catalogue_kept db db'.
Proof.
  induction items as [|item rest IH]; intros db res db' H; run.
  - inversion H; subst. by apply catalogue_kept_refl.
  - destruct (products db !! Order.product item) as [p|] eqn:Hp; run;
      [|exact (IH _ _ _ H)].
    destruct (Product.trackInventory (Product.inventory p)) eqn:Htr; run;
      [|exact (IH _ _ _ H)].
    unfold Product_save in H.
    match type of H with context [if ?c then _ else _] => destruct c end;
      run; [inversion H; subst; by apply catalogue_kept_refl|].
    eapply catalogue_kept_trans; [|exact (IH _ _ _ H)].
    eapply catalogue_kept_put; [exact Hp| |reflexivity].
    by apply same_but_stock_with_stock.
Qed.

(** The catalogue after the restore loop went through: every tracked
    product is up by the units the order held of it. *)
Lemma restore_inventory_stock items : forall db db',
  restore_inventory items db = (Done tt, db') ->
  forall pid,
    products db' !! pid = stock_after (- ordered_items pid items) <$> products db !! pid.
Proof.
  induction items as [|item rest IH]; intros db db' H pid; run.
  - inversion H; subst. destruct (products db' !! pid); simpl; [|done].
    by rewrite stock_after_0.
  - destruct (Pos.eqb_spec (Order.product item) pid) as [Heq|Hne].
    + rewrite Heq in *.
      destruct (products db !! pid) as [p|] eqn:Hp; run.
      * destruct (Product.trackInventory (Product.inventory p)) eqn:Htr; run.
        -- unfold Product_save in H.
           match type of H with context [if ?c then _ else _] => destruct c end;
             run; [by inversion H|].
           rewrite (IH _ _ H pid). simpl. rewrite lookup_insert_eq. simpl.
           f_equal. by rewrite stock_after_restore.
        -- rewrite (IH _ _ H pid), Hp. simpl.
           by rewrite !stock_after_untracked.
      * by rewrite (IH _ _ H pid), Hp.
    + destruct (products db !! Order.product item) as [p|] eqn:Hp; run;
        [|exact (IH _ _ H pid)].
      destruct (Product.trackInventory (Product.inventory p)); run;
        [|exact (IH _ _ H pid)].
      unfold Product_save in H.
      match type of H with context [if ?c then _ else _] => destruct c end;
        run; [by inversion H|].
      rewrite (IH _ _ H pid). simpl. by rewrite lookup_insert_ne.
Qed.

(** ** Saving a stored order *)

Lemma Order_save_spec env id loaded o db :
  exists o',
    Order_save env id loaded o db
      = (Done o', with_orders (<[id := o']> (orders db)) db)
    /\ same_but_log o o'
    /\ Order.timeline o'
       = Order.timeline o
         ++ (if bool_decide (Order.status o = Order.status loaded) then []
             else [hook_entry (Order.status o) (now env)]).
Proof.
  unfold Order_save. run. eexists. split; [reflexivity|].
  unfold Order.log_status_change, Order.generate_orderNumber, same_but_log.
  destruct (Order.orderNumber o); simpl;
    destruct (bool_decide (Order.status o = Order.status loaded));
    simpl; rewrite ?app_nil_r; auto 10.
Qed.

(** ** Cancellation, step by step *)

Lemma may_cancel_check user o :
  may_cancel user o <->
  negb (Pos.eqb (Order.customer o) (actor_id user))
  && negb (bool_decide (actor_role user = User.admin)) = false.
Proof.
  unfold may_cancel. rewrite andb_false_iff, !negb_false_iff.
  by rewrite Pos.eqb_eq, bool_decide_eq_true.
Qed.

Lemma canBeCancelled_iff o :
  Order.canBeCancelled o = true
  <-> Order.status o = Order.pending \/ Order.status o = Order.confirmed.
Proof.
  unfold Order.canBeCancelled. rewrite bool_decide_eq_true.
  rewrite !elem_of_cons, elem_of_nil. tauto.
Qed.

Lemma cancel_order_Done env user id reason db o db' :
  cancel_order env user id reason db = (Done o, db') ->
  exists loaded db1,
    orders db !! id = Some loaded
    /\ may_cancel user loaded
    /\ Order.canBeCancelled loaded = true
    /\ restore_inventory (Order.items loaded) db = (Done tt, db1)
    /\ db' = with_orders (<[id := o]> (orders db1)) db1
    /\ Order.status o = Order.cancelled
    /\ Order.cancellation o
       = Some {| Order.reason := reason;
                 Order.cancelledBy := actor_id user;
                 Order.cancelledAt := now env;
                 Order.refundStatus := Order.refund_pending |}
    /\ Order.items o = Order.items loaded
    /\ Order.pricing o = Order.pricing loaded
    /\ Order.timeline o
       = Order.timeline loaded ++ [hook_entry Order.cancelled (now env)].
Proof.
  unfold cancel_order. intros H.
  unfold bind at 1 in H. unfold Order_findById, gets in H.
  destruct (orders db !! id) as [loaded|] eqn:Hl; [|discriminate].
  destruct (negb (Pos.eqb _ _) && negb _) eqn:Hauth; [discriminate|].
  destruct (Order.canBeCancelled loaded) eqn:Hcan; simpl in H; [|discriminate].
  apply bind_Done in H as ([] & db1 & Hrest & H). simpl in Hrest.
  match type of H with Order_save _ _ _ ?x _ = _ =>
    destruct (Order_save_spec env id loaded x db1) as (o' & Hsave & Hsame & Htl) end.
  rewrite Hsave in H. inversion H; subst o' db'. clear H.
  destruct Hsame as (_ & Hit & Hpr & _ & Hst & _ & Hc & _). simpl in *.
  exists loaded, db1. rewrite Htl.
  pose proof (proj1 (canBeCancelled_iff loaded) Hcan) as Hst'.
  rewrite bool_decide_eq_false_2 by (destruct Hst' as [-> | ->]; discriminate).
  apply may_cancel_check in Hauth. repeat split; auto.
Qed.

(** The restore loop fails only by an exception. *)
Lemma restore_inventory_Failed items : forall db e db',
  restore_inventory items db = (Failed e, db') -> e = InternalError.
Proof.
  induction items as [|item rest IH]; intros db e db' H; run; [discriminate|].
  destruct (products db !! Order.product item) as [p|]; run;
    [|by apply IH in H].
  destruct (Product.trackInventory (Product.inventory p)); run;
    [|by apply IH in H].
  unfold Product_save in H.
  match type of H with context [if ?c then _ else _] => destruct c end;
    run; [by inversion H|].
  by apply IH in H.
Qed.

Lemma cancel_order_Failed env user id reason db e db' :
  cancel_order env user id reason db = (Failed e, db') ->
  orders db' = orders db /\ users db' = users db
  /\ reviews db' = reviews db /\ artisans db' = artisans db
  /\ (e <> InternalError -> db' = db).
Proof.
  unfold cancel_order. intros H.
  unfold bind at 1 in H. unfold Order_findById, gets in H.
  destruct (orders db !! id) as [loaded|] eqn:Hl; [|by inversion H; subst].
  destruct (negb (Pos.eqb _ _) && negb _) eqn:Hauth; [by inversion H; subst|].
  destruct (Order.canBeCancelled loaded) eqn:Hcan; simpl in H;
    [|by inversion H; subst].
  unfold bind at 1 in H.
  destruct (restore_inventory _ db) as [[[]|e1] db1] eqn:Hrest.
  - match type of H with Order_save _ _ _ ?x _ = _ =>
      destruct (Order_save_spec env id loaded x db1) as (o' & Hsave & _) end.
    rewrite Hsave in H. discriminate.
  - pose proof (restore_inventory_Failed _ _ _ _ Hrest) as ->.
    apply restore_inventory_frame in Hrest as (Ha & Hu & Ho & Hr).
    inversion H; subst. repeat split; auto. intros Hne. by destruct Hne.
Qed.

(** ** Status update, step by step *)

Lemma may_update_check user o :
  may_update user o <->
  negb (existsb (fun item => Pos.eqb (Order.artisan item) (actor_id user))
                (Order.items o))
  && negb (bool_decide (actor_role user = User.admin)) = false.
Proof.
  unfold may_update. rewrite andb_false_iff, !negb_false_iff.
  rewrite existsb_exists, bool_decide_eq_true.
  split; (intros [(i & Hi & Ha)|Hr]; [left; exists i|by right]).
  - by rewrite Pos.eqb_eq.
  - by rewrite <- Pos.eqb_eq.
Qed.

Lemma valid_status_parses s :
  existsb (String.eqb s) validStatuses = true ->
  exists st, Order.Status_of_string s = Some st
             /\ st <> Order.pending /\ st <> Order.returned.
Proof.
  unfold validStatuses. simpl. rewrite !orb_true_iff.
  intros [H|[H|[H|[H|[H|H]]]]]; try discriminate;
    apply String.eqb_eq in H; subst s; eexists; (split; [reflexivity|done]).
Qed.

(** What a status update that passes its three checks does. *)
Lemma update_status_run env user id body db loaded :
  existsb (String.eqb (body_status body)) validStatuses = true ->
  orders db !! id = Some loaded ->
  may_update user loaded ->
  exists status o,
    Order.Status_of_string (body_status body) = Some status
    /\ update_status env user id body db
       = (Done o, with_orders (<[id := o]> (orders db)) db)
    /\ Order.status o = status
    /\ Order.items o = Order.items loaded
    /\ Order.pricing o = Order.pricing loaded
    /\ Order.cancellation o = Order.cancellation loaded
    /\ Order.timeline o
       = Order.timeline loaded
         ++ (if truthy (body_note body)
             then [note_entry status (now env) (default "" (body_note body)) user]
             else [])
         ++ (if bool_decide (status = Order.status loaded) then []
             else [hook_entry status (now env)])
    /\ Order.actualDelivery o
       = if bool_decide (status = Order.delivered) then Some (now env)
         else Order.actualDelivery loaded.
Proof.
  intros Hvalid Hl Hmay.
  destruct (valid_status_parses _ Hvalid) as (status & Hparse & _).
  apply may_update_check in Hmay.
  unfold update_status. rewrite Hvalid. simpl.
  unfold bind at 1. unfold Order_findById, gets. rewrite Hl, Hparse, Hmay.
  match goal with |- context [Order_save _ _ _ ?x _] =>
    destruct (Order_save_spec env id loaded x db) as (o & Hsave & Hsame & Htl);
    set (x0 := x) in * end.
  exists status, o. split; [done|]. split; [exact Hsave|].
  destruct Hsame as (_ & Hit & Hpr & _ & Hst & Had & Hc & _).
  assert (Hx : Order.status x0 = status
               /\ Order.items x0 = Order.items loaded
               /\ Order.pricing x0 = Order.pricing loaded
               /\ Order.cancellation x0 = Order.cancellation loaded
               /\ Order.timeline x0
                  = Order.timeline loaded
                    ++ (if truthy (body_note body)
                        then [note_entry status (now env)
                                (default "" (body_note body)) user]
                        else [])
               /\ Order.actualDelivery x0
                  = if bool_decide (status = Order.delivered) then Some (now env)
                    else Order.actualDelivery loaded).
  { subst x0.
    destruct (truthy (body_note body)), (bool_decide (status = Order.delivered));
      simpl; rewrite ?app_nil_r; auto 10. }
  destruct Hx as (Hx1 & Hx2 & Hx3 & Hx4 & Hx5 & Hx6).
  rewrite Hst, Hit, Hpr, Hc, Htl, Had, Hx1, Hx2, Hx3, Hx4, Hx5, Hx6.
  rewrite <- app_assoc. auto 10.
Qed.

(** A status update that does not pass its checks writes nothing. *)
Lemma update_status_cases env user id body db :
  (exists e, update_status env user id body db = (Failed e, db))
  \/ (exists loaded,
        existsb (String.eqb (body_status body)) validStatuses = true
        /\ orders db !! id = Some loaded /\ may_update user loaded).
Proof.
  unfold update_status.
  destruct (existsb _ validStatuses) eqn:Hvalid; simpl; [|by left; eexists].
  unfold bind at 1. unfold Order_findById, gets.
  destruct (orders db !! id) as [loaded|] eqn:Hl; [|by left; eexists].
  match goal with |- context [if ?c then _ else _] => destruct c eqn:Hmay end.
  - left. destruct (Order.Status_of_string (body_status body)); by eexists.
  - right. exists loaded. by rewrite may_update_check.
Qed.

(** ** Rating aggregation *)

Lemma Math_round_bounds x :
  (x - (1 # 2) < inject_Z (Math_round x))%Q /\ (inject_Z (Math_round x) <= x + (1 # 2))%Q.
Proof.
  unfold Math_round.
  pose proof (Qfloor_le (x + (1 # 2))) as Hle.
  pose proof (Qlt_floor (x + (1 # 2))) as Hlt.
  rewrite inject_Z_plus in Hlt. change (inject_Z 1) with 1%Q in Hlt.
  split; lra.
Qed.

Lemma rating_of_stats_agrees matches rs :
  rating_agrees (map Review.overall (List.filter matches rs))
                (rating_of_stats (Review_aggregate matches rs)).
Proof.
  unfold Review_aggregate, rating_agrees.
  destruct (List.filter matches rs) as [|r m] eqn:Hm; simpl.
  - split; [done|]. split; [done|]. intros H. by destruct H.
  - split; [by rewrite length_map|]. split; [discriminate|]. intros _.
    unfold rounded_to_one_decimal, mean, Qsum. simpl. rewrite length_map.
    set (avg := ((Review.overall r + foldr Qplus 0 (map Review.overall m))
                 / inject_Z (Z.of_nat (S (length m))))%Q).
    destruct (Math_round_bounds (avg * 10)) as [Hlo Hhi].
    split; [eexists; reflexivity|].
    split.
    + apply Qlt_shift_div_l; [reflexivity|]. lra.
    + apply Qle_shift_div_r; [reflexivity|]. lra.
Qed.

Lemma Review_post_hook_spec r db :
  exists db',
    Review_post_hook r db = (Done tt, db')
    /\ reviews db' = reviews db /\ orders db' = orders db /\ users db' = users db
    /\ ratings_in_sync (Review.product r) (Review.artisan r) db'.
Proof.
  unfold Review_post_hook, updateProductRating, updateArtisanRating. run.
  eexists. split; [reflexivity|]. simpl.
  split; [done|]. split; [done|]. split; [done|]. split.
  - intros p. simpl. rewrite lookup_alter. rewrite decide_True by done.
    destruct (products db !! Review.product r); simpl; [|done].
    intros [= <-]. apply rating_of_stats_agrees.
  - intros a. simpl. rewrite lookup_alter. rewrite decide_True by done.
    destruct (artisans db !! Review.artisan r); simpl; [|done].
    intros [= <-]. apply rating_of_stats_agrees.
Qed.

(** ** Review documents *)

Lemma Review_save_new_cases r db :
  Review_save_new r db = (Failed InternalError, db)
  \/ (exists db',
        Review_save_new r db = (Done tt, db')
        /\ List.find (has_id (Review._id r)) (reviews db) = None
        /\ List.find (fun x => bool_decide (Review.key x = Review.key r)) (reviews db) = None
        /\ reviews db' = reviews db ++ [r]
        /\ orders db' = orders db /\ users db' = users db
        /\ ratings_in_sync (Review.product r) (Review.artisan r) db').
Proof.
  unfold Review_save_new.
  destruct (negb (Review.validate r)); [by left|].
  unfold Review_findById, Review_findByKey, bind, gets, modify, throw, fail.
  cbn beta iota.
  destruct (List.find (has_id _) _) eqn:Hid; [by left|].
  destruct (List.find (fun x => bool_decide _) _) eqn:Hkey; [by left|].
  right.
  destruct (Review_post_hook_spec r (with_reviews (reviews db ++ [r]) db))
    as (db' & Hhook & Hr & Ho & Hu & Hsync).
  exists db'. cbn beta iota. rewrite Hhook. auto 10.
Qed.

Lemma Review_save_cases b r db :
  Review_save b r db = (Failed InternalError, db)
  \/ (exists db',
        Review_save b r db = (Done tt, db')
        /\ reviews db' = put_review r (reviews db)
        /\ orders db' = orders db /\ users db' = users db
        /\ ratings_in_sync (Review.product r) (Review.artisan r) db').
Proof.
  unfold Review_save.
  destruct (b && negb (Review.validate r)); [by left|].
  right. unfold bind, modify. cbn beta iota.
  match goal with |- context [Review_post_hook r ?d] =>
    destruct (Review_post_hook_spec r d) as (db' & Hhook & Hr & Ho & Hu & Hsync) end.
  exists db'. cbn beta iota. rewrite Hhook. auto 10.
Qed.

Lemma Review_save_unvalidated r db :
  exists db',
    Review_save false r db = (Done tt, db')
    /\ reviews db' = put_review r (reviews db)
    /\ orders db' = orders db /\ users db' = users db
    /\ ratings_in_sync (Review.product r) (Review.artisan r) db'.
Proof.
  destruct (Review_save_cases false r db) as [H|H]; [|done].
  unfold Review_save in H. simpl in H. unfold bind, modify in H.
  cbn beta iota in H.
  destruct (Review_post_hook_spec r
              (with_reviews
                 (map (fun x => if has_id (Review._id r) x then r else x)
                      (reviews db)) db)) as (db' & Hhook & _).
  rewrite Hhook in H. discriminate.
Qed.

Lemma Review_remove_spec r db :
  exists db',
    Review_remove r db = (Done tt, db')
    /\ reviews db'
       = List.filter (fun x => negb (has_id (Review._id r) x)) (reviews db)
    /\ orders db' = orders db /\ users db' = users db
    /\ ratings_in_sync (Review.product r) (Review.artisan r) db'.
Proof.
  unfold Review_remove. unfold bind, modify. cbn beta iota.
  match goal with |- context [Review_post_hook r ?d] =>
    destruct (Review_post_hook_spec r d) as (db' & Hhook & Hr & Ho & Hu & Hsync) end.
  exists db'. cbn beta iota. rewrite Hhook. auto 10.
Qed.

(** ** Review handlers, step by step *)

Lemma find_orderItem_reads productId items : forall db res db',
  find_orderItem productId items db = (res, db') ->
  db' = db
  /\ (forall item, res = Done (Some item) ->
        In item items /\ Order.product item = productId).
Proof.
  induction items as [|item rest IH]; intros db res db' H; run.
  - inversion H; subst. split; [done|]. intros ? [=].
  - destruct (products db !! Order.product item); [|inversion H; subst].
    + destruct (Pos.eqb_spec (Order.product item) productId).
      * inversion H; subst. split; [done|]. intros ? [= <-]. auto.
      * apply IH in H as [-> H]. split; [done|].
        intros i Hi. destruct (H i Hi). auto.
    + split; [done|]. intros ? [=].
Qed.

Lemma create_review_cases env user body db :
  (exists e, create_review env user body db = (Failed e, db))
  \/ (exists r db' o,
        create_review env user body db = (Done r, db')
        /\ Review_save_new r db = (Done tt, db')
        /\ orders db !! body_orderId body = Some o
        /\ eligible user (body_productId body) o = true
        /\ Review.key r = (actor_id user, body_productId body, body_orderId body)
        /\ Review._id r = new_id env
        /\ Review.overall r = inject_Z (body_overall body)
        /\ Review.status r = Review.approved
        /\ Review.product r = body_productId body).
Proof.
  unfold create_review, Order_findById, Review_findByKey, bind, gets, ret,
    throw, fail.
  cbn beta iota zeta.
  destruct (orders db !! body_orderId body) as [o|] eqn:Ho; [|by left; eexists].
  fold (eligible user (body_productId body) o).
  destruct (eligible user (body_productId body) o) eqn:Hel; simpl;
    [|by left; eexists].
  destruct (List.find _ (reviews db)); [by left; eexists|].
  destruct (find_orderItem _ _ db) as [[[item|]|e] db1] eqn:Hfind;
    apply find_orderItem_reads in Hfind as [-> Hitem];
    [|by left; eexists|by left; eexists].
  destruct (artisans db !! Order.artisan item); [|by left; eexists].
  match goal with |- context [Review_save_new ?r db] =>
    destruct (Review_save_new_cases r db) as [H|(db' & H & _)]; rewrite H end.
  - left. by eexists.
  - right. eexists _, db', o. split; [reflexivity|]. auto 10.
Qed.

Lemma update_review_cases user id body db :
  (exists e, update_review user id body db = (Failed e, db))
  \/ (exists r0 r db' b,
        own_review id user db = Some r0
        /\ update_review user id body db = (Done r, db')
        /\ Review_save b r db = (Done tt, db')
        /\ Review._id r = Review._id r0
        /\ Review.key r = Review.key r0
        /\ Review.product r = Review.product r0
        /\ Review.artisan r = Review.artisan r0).
Proof.
  unfold update_review, Review_findOwn, bind, gets, ret, throw, fail.
  cbn beta iota zeta. fold (own_review id user db).
  destruct (own_review id user db) as [r0|] eqn:Hown; [|by left; eexists].
  destruct (updates_valid body); cbn [negb]; cbn beta iota;
    [|by left; eexists].
  destruct (body_rating body) as [rating|].
  - destruct (in_overall rating) as [x|]; [|by left; eexists].
    destruct (Review_save_cases true (Review.set_overall x r0) db)
      as [H|(db' & H & _)]; rewrite H; [by left; eexists|].
    right. eexists r0, _, db', true. auto 10.
  - destruct (Review_save_cases false r0 db)
      as [H|(db' & H & _)]; rewrite H; [by left; eexists|].
    right. eexists r0, _, db', false. auto 10.
Qed.

Lemma delete_review_cases user id db :
  (own_review id user db = None
   /\ delete_review user id db = (Failed NotFound, db))
  \/ (exists r0 db',
        own_review id user db = Some r0
        /\ delete_review user id db = (Done tt, db')
        /\ Review_remove r0 db = (Done tt, db')).
Proof.
  unfold delete_review, Review_findOwn, bind, gets, fail.
  cbn beta iota zeta. fold (own_review id user db).
  destruct (own_review id user db) as [r0|] eqn:Hown; [|by left].
  right. destruct (Review_remove_spec r0 db) as (db' & H & _).
  exists r0, db'. auto.
Qed.

Lemma Review_addVote_first env r userId sent flag db :
  Review.canVote userId r = true ->
  castBoolean sent = Some flag ->
  exists db',
    Review_addVote env r userId sent db
    = (Done (voted env userId sent flag r), db')
    /\ Review_save false (voted env userId sent flag r) db = (Done tt, db').
Proof.
  intros Hcan Hcast. unfold Review_addVote. rewrite Hcan, Hcast.
  fold (voted env userId sent flag r).
  destruct (Review_save_unvalidated (voted env userId sent flag r) db)
    as (db' & Hsave & _).
  exists db'. unfold bind, ret. by rewrite Hsave.
Qed.

Lemma Review_addVote_uncastable env r userId sent db :
  castBoolean sent = None ->
  Review_addVote env r userId sent db = (Failed InternalError, db).
Proof.
  intros Hcast. unfold Review_addVote. rewrite Hcast.
  by destruct (Review.canVote userId r).
Qed.

Lemma vote_helpful_cases env user id helpful db :
  match List.find (has_id id) (reviews db) with
  | None => vote_helpful env user id helpful db = (Failed NotFound, db)
  | Some r =>
      if Review.canVote (actor_id user) r
      then match castBoolean (flag_sent helpful) with
           | Some flag =>
               exists db',
                 let r' := voted env (actor_id user) (flag_sent helpful) flag r in
                 vote_helpful env user id helpful db
                 = (Done (Review.helpfulVotes r'), db')
                 /\ Review_save false r' db = (Done tt, db')
           | None =>
               vote_helpful env user id helpful db = (Failed InternalError, db)
           end
      else vote_helpful env user id helpful db = (Failed AlreadyVoted, db)
  end.
Proof.
  unfold vote_helpful, Review_findById, bind, gets, ret, fail.
  cbn beta iota zeta. fold (flag_sent helpful).
  destruct (List.find (has_id id) (reviews db)) as [r|]; [|done].
  destruct (Review.canVote (actor_id user) r) eqn:Hcan; simpl; [|done].
  destruct (castBoolean (flag_sent helpful)) as [flag|] eqn:Hcast.
  - destruct (Review_addVote_first env r (actor_id user) _ flag db Hcan Hcast)
      as (db' & Hvote & Hsave).
    exists db'. by rewrite Hvote.
  - by rewrite Review_addVote_uncastable.
Qed.

(** ** Lists of reviews *)

Lemma find_has_id id rs r :
  List.find (has_id id) rs = Some r -> In r rs /\ Review._id r = id.
Proof.
  intros H. apply find_some in H as [Hin Hid].
  split; [done|]. by apply Pos.eqb_eq.
Qed.

Lemma find_put_review r id rs r0 :
  List.find (has_id id) rs = Some r0 -> Review._id r = id ->
  List.find (has_id id) (put_review r rs) = Some r.
Proof.
  intros Hfind Hid. subst id.
  induction rs as [|x rs IH]; simpl in *; [discriminate|].
  destruct (has_id (Review._id r) x) eqn:Hx.
  - unfold has_id at 1. by rewrite Pos.eqb_refl.
  - rewrite Hx. apply IH. exact Hfind.
Qed.

Lemma NoDup_map_inj_on {A B} (f : A -> B) (l : list A) x y :
  NoDup (map f l) -> In x l -> In y l -> f x = f y -> x = y.
Proof.
  induction l as [|a l IH]; simpl; [done|].
  rewrite NoDup_cons. intros [Hnotin Hnd] [->|Hx] [->|Hy] Hf; auto.
  - exfalso. apply Hnotin. rewrite Hf. apply list_elem_of_In. by apply in_map.
  - exfalso. apply Hnotin. rewrite <- Hf. apply list_elem_of_In. by apply in_map.
Qed.

Lemma put_review_same_keys r r0 rs :
  NoDup (map Review._id rs) -> In r0 rs ->
  Review._id r = Review._id r0 -> Review.key r = Review.key r0 ->
  map Review._id (put_review r rs) = map Review._id rs
  /\ map Review.key (put_review r rs) = map Review.key rs.
Proof.
  intros Hnd Hin Hid Hkey. unfold put_review. rewrite !map_map.
  split; apply map_ext_in; intros x Hx; destruct (has_id (Review._id r) x) eqn:E;
    auto; apply Pos.eqb_eq in E.
  - done.
  - rewrite Hkey. f_equal. symmetry.
    eapply NoDup_map_inj_on; eauto. congruence.
Qed.

Lemma find_none_key k rs :
  List.find (fun x => bool_decide (Review.key x = k)) rs = None ->
  ~ In k (map Review.key rs).
Proof.
  intros Hnone Hin. apply in_map_iff in Hin as (x & Hk & Hx).
  pose proof (find_none _ _ Hnone x Hx) as H. simpl in H.
  by apply bool_decide_eq_false in H.
Qed.

Lemma find_none_id id rs :
  List.find (has_id id) rs = None -> ~ In id (map Review._id rs).
Proof.
  intros Hnone Hin. apply in_map_iff in Hin as (x & Hk & Hx).
  pose proof (find_none _ _ Hnone x Hx) as H. unfold has_id in H.
  apply Pos.eqb_neq in H. done.
Qed.

Lemma find_key_some k rs :
  In k (map Review.key rs) ->
  exists r, List.find (fun x => bool_decide (Review.key x = k)) rs = Some r.
Proof.
  intros Hin. destruct (List.find _ rs) eqn:E; [eauto|].
  by apply find_none_key in E.
Qed.

(** ** Cancellation and the catalogue *)

Lemma cancel_order_catalogue env user id reason db res db' :
  cancel_order env user id reason db = (res, db') -> catalogue_kept db db'.
Proof.
  intros H.
  unfold cancel_order, Order_findById, bind at 1, gets in H.
  destruct (orders db !! id) as [loaded|];
    [|inversion H; subst; by apply catalogue_kept_refl].
  destruct (negb (Pos.eqb _ _) && negb _);
    [inversion H; subst; by apply catalogue_kept_refl|].
  destruct (Order.canBeCancelled loaded); simpl in H;
    [|inversion H; subst; by apply catalogue_kept_refl].
  unfold bind at 1 in H.
  destruct (restore_inventory _ db) as [[[]|e1] db1] eqn:Hrest.
  - match type of H with Order_save _ _ _ ?x _ = _ =>
      destruct (Order_save_spec env id loaded x db1) as (o' & Hsave & _) end.
    rewrite Hsave in H. inversion H; subst.
    eapply catalogue_kept_trans; [by eapply restore_inventory_catalogue|].
    by apply catalogue_kept_refl.
  - inversion H; subst. by eapply restore_inventory_catalogue.
Qed.

Lemma POST_orders_catalogue env user body db res db' :
  POST_orders env user body db = (res, db') -> catalogue_kept db db'.
Proof.
  intros H.
  destruct (POST_orders_fails env user body db) as (e & db1 & Hrun & _ & _ & _ & _ & Hcat).
  rewrite Hrun in H. by inversion H; subst.
Qed.

(** ** What later requests leave of a stored order *)




Lemma Review_save_new_Done r db db' :
  Review_save_new r db = (Done tt, db') ->
  List.find (has_id (Review._id r)) (reviews db) = None
  /\ List.find (fun x => bool_decide (Review.key x = Review.key r)) (reviews db) = None
  /\ reviews db' = reviews db ++ [r]
  /\ orders db' = orders db /\ users db' = users db
  /\ ratings_in_sync (Review.product r) (Review.artisan r) db'.
Proof.
  intros H. destruct (Review_save_new_cases r db) as [H'|(db2 & H' & Hrest)];
    rewrite H' in H; [discriminate|].
  by inversion H; subst.
Qed.

Lemma Review_save_Done b r db db' :
  Review_save b r db = (Done tt, db') ->
  reviews db' = put_review r (reviews db)
  /\ orders db' = orders db /\ users db' = users db
  /\ ratings_in_sync (Review.product r) (Review.artisan r) db'.
Proof.
  intros H. destruct (Review_save_cases b r db) as [H'|(db2 & H' & Hrest)];
    rewrite H' in H; [discriminate|].
  by inversion H; subst.
Qed.

Lemma Review_remove_Done r db db' :
  Review_remove r db = (Done tt, db') ->
  reviews db' = List.filter (fun x => negb (has_id (Review._id r) x)) (reviews db)
  /\ orders db' = orders db /\ users db' = users db
  /\ ratings_in_sync (Review.product r) (Review.artisan r) db'.
Proof.
  intros H. destruct (Review_remove_spec r db) as (db2 & H' & Hrest).
  rewrite H' in H. by inversion H; subst.
Qed.



(** ** The properties of the specification *)




(** C2, as the code has it.  The request for three vases (10 in stock, none
    sold) takes the stock, counts the sale, and then fails at [save()]: it
    answers a server error and stores no order, so there is no order to
    cancel and the three vases stay out of stock.  And when a catalogue
    item has 3 sold and a request asks for "3" of it, in a string, the
    sales counter becomes 33. *)
Theorem order_request_takes_stock_for_good :
  POST_orders Demo.env1 Demo.buyer Demo.order3 Demo.db0
  = (Failed InternalError, Demo.db_vase_taken)
  /\ orders Demo.db_vase_taken = ∅
  /\ products Demo.db0 !! 1%positive = Some Demo.vase
  /\ products Demo.db_vase_taken !! 1%positive
     = Some (Product.with_stock 7 3 Demo.vase)
  /\ (forall env user id reason,
        cancel_order env user id reason Demo.db_vase_taken
        = (Failed NotFound, Demo.db_vase_taken))
  /\ Product.stats <$> products Demo.db1 !! 1%positive
     = Some {| Product.totalSold := 3 |}
  /\ Product.stats
       <$> products (snd (POST_orders Demo.env2 Demo.buyer Demo.order3_text Demo.db1))
           !! 1%positive
     = Some {| Product.totalSold := 33 |}.
Proof.
  assert (Hnone : orders Demo.db_vase_taken = ∅) by (vm_compute; reflexivity).
  split; [vm_compute; reflexivity|]. split; [exact Hnone|].
  split; [vm_compute; reflexivity|]. split; [vm_compute; reflexivity|].
  split; [|split; vm_compute; reflexivity].
  intros env user id reason.
  unfold cancel_order, Order_findById, bind, gets, fail.
  by rewrite Hnone, lookup_empty.
Qed.

(** C10. A catalogue item that does not track inventory is left as it is by
    order creation and by cancellation, whatever they answer, and while it
    is active it is available in any quantity. *)
Theorem untracked_item_untouched pid p db :
  products db !! pid = Some p ->
  Product.trackInventory (Product.inventory p) = false ->
  (forall env user body,
     products (snd (POST_orders env user body db)) !! pid = Some p)
  /\ (forall env user id reason,
     products (snd (cancel_order env user id reason db)) !! pid = Some p)
  /\ (Product.isActive p = true -> forall q, Product.isAvailable p q = true).
Proof.
  intros Hp Htr. split; [|split].
  - intros env user body.
    destruct (POST_orders env user body db) as [res db'] eqn:H.
    apply POST_orders_catalogue in H. simpl.
    by eapply catalogue_kept_untracked.
  - intros env user id reason.
    destruct (cancel_order env user id reason db) as [res db'] eqn:H.
    apply cancel_order_catalogue in H. simpl.
    by eapply catalogue_kept_untracked.
  - intros Hact q. unfold Product.isAvailable. by rewrite Hact, Htr.
Qed.

(** What the validation middleware lets through: at least one line, and
    on every line a product identifier and a whole number of units, at
    least 1. *)
Lemma validated_lines body :
  validateOrderCreation body = true ->
  body_items body <> []
  /\ forall line, In line (body_items body) ->
       line_product_in line = MongoId (line_product line)
       /\ int_of_value (line_quantity_in line) = Some (line_quantity line)
       /\ 1 <= line_quantity line.
Proof.
  unfold validateOrderCreation, body_items. intros H.
  repeat (apply andb_prop in H as [H _]).
  destruct (body_items_in body) as [[|l ls]|]; try discriminate. simpl.
  apply andb_prop in H as [Hid Hq]. rewrite forallb_forall in Hid, Hq.
  split; [done|]. intros line Hin.
  specialize (Hid line Hin). specialize (Hq line Hin).
  unfold line_product, line_quantity, isInt_min in *.
  destruct (line_product_in line); [|discriminate].
  destruct (int_of_value (line_quantity_in line)); [|discriminate].
  simpl. split; [done|]. split; [done|]. by apply Z.leb_le.
Qed.

(** C3. Order creation is not atomic on inventory: when the lines [pre] of
    a request go through and the next line [bad] is turned down (item
    missing, inactive, or short of stock), the request fails, and the
    database it leaves is the one the lines [pre] produced: no order is
    stored, no cart is cleared, and every tracked item stays down by the
    units [pre] took of it (with its sales counter up by as many when the
    quantities of [pre] were sent as numbers).  In particular a request for
    a single active tracked item with nothing in stock fails with
    [InsufficientStock] and leaves the database as it was. *)
Theorem create_order_not_atomic env user body db pre bad post totals db1 e :
  body_items body = pre ++ bad :: post ->
  validateOrderCreation body = true ->
  order_lines pre 0%Q [] db = (Done totals, db1) ->
  refusal db1 bad = Some e ->
  POST_orders env user body db = (Failed e, db1)
  /\ orders db1 = orders db
  /\ users db1 = users db
  /\ (forall pid,
        but_sold <$> products db1 !! pid
        = but_sold <$> (stock_after (ordered pid pre) <$> products db !! pid))
  /\ (sent_as_numbers pre ->
      forall pid,
        products db1 !! pid = stock_after (ordered pid pre) <$> products db !! pid)
  /\ (pre = [] -> db1 = db)
  /\ (forall p,
        products db1 !! line_product bad = Some p ->
        Product.isActive p = true ->
        Product.trackInventory (Product.inventory p) = true ->
        Product.quantity (Product.inventory p) = 0 ->
        e = InsufficientStock).
Proof.
  intros Hitems Hvalid Hpre Hbad.
  destruct (validated_lines body Hvalid) as [_ Hlines].
  destruct (Hlines bad) as (Hid & Hn & Hq).
  { rewrite Hitems. apply in_or_app. right. by left. }
  destruct totals as [s1 acc1].
  split; [|split; [|split; [|split; [|split; [|split]]]]].
  - unfold POST_orders. rewrite Hvalid.
    unfold create_order, build_order. unfold bind at 1 2.
    rewrite Hitems, (order_lines_app _ _ _ _ _ _ _ _ Hpre).
    unfold refusal in Hbad. simpl. rewrite Hid.
    unfold bind at 1, Product_findById, gets.
    destruct (products db1 !! line_product bad) as [p|];
      [|by inversion Hbad].
    destruct (Product.isActive p) eqn:Hact; simpl in *; [|by inversion Hbad].
    rewrite Hn.
    destruct (Product.trackInventory (Product.inventory p)) eqn:Htr;
      simpl in *; [|discriminate].
    destruct (Product.quantity (Product.inventory p) <? line_quantity bad) eqn:Hlt;
      [|discriminate].
    inversion Hbad; subst e.
    unfold Product.isAvailable. rewrite Hact, Htr. simpl.
    rewrite Z.geb_leb. apply Z.ltb_lt in Hlt.
    by rewrite (proj2 (Z.leb_gt _ _) Hlt).
  - by apply order_lines_frame in Hpre as (_ & _ & Ho & _).
  - by apply order_lines_frame in Hpre as (_ & Hu & _).
  - by apply (order_lines_quantity _ _ _ _ _ _ Hpre).
  - intros Hnum. by apply (order_lines_stock _ _ _ _ _ _ Hnum Hpre).
  - intros ->. simpl in Hpre. unfold ret in Hpre. by inversion Hpre.
  - intros p Hp Hact Htr Hzero. unfold refusal in Hbad.
    rewrite Hp, Hact, Htr, Hzero in Hbad. simpl in Hbad.
    rewrite (proj2 (Z.ltb_lt 0 (line_quantity bad))) in Hbad by lia.
    by inversion Hbad.
Qed.

(** C4. [canBeCancelled()] holds exactly for a pending or confirmed order.
    A cancellation asked by the buyer or an administrator for an order in
    any other status fails with [InvalidTransition] and leaves the whole
    database, orders and catalogue, as it was; a cancellation that succeeds
    stores the order with status cancelled and a cancellation record whose
    refund status is pending. *)
Theorem cancel_guarded_by_status env user id reason db loaded :
  orders db !! id = Some loaded ->
  may_cancel user loaded ->
  (Order.canBeCancelled loaded = true
   <-> Order.status loaded = Order.pending \/ Order.status loaded = Order.confirmed)
  /\ (Order.canBeCancelled loaded = false ->
      cancel_order env user id reason db = (Failed InvalidTransition, db))
  /\ (forall o db',
        cancel_order env user id reason db = (Done o, db') ->
        Order.canBeCancelled loaded = true
        /\ orders db' !! id = Some o
        /\ Order.status o = Order.cancelled
        /\ Order.cancellation o
           = Some {| Order.reason := reason;
                     Order.cancelledBy := actor_id user;
                     Order.cancelledAt := now env;
                     Order.refundStatus := Order.refund_pending |}).
Proof.
  intros Hl Hmay. split; [apply canBeCancelled_iff|]. split.
  - intros Hcan. apply may_cancel_check in Hmay.
    unfold cancel_order, Order_findById, bind, gets. by rewrite Hl, Hmay, Hcan.
  - intros o db' H.
    apply cancel_order_Done in H
      as (loaded' & db1 & Hl' & _ & Hcan & _ & -> & Hst & Hc & _).
    rewrite Hl in Hl'. inversion Hl'; subst loaded'.
    split; [done|]. split; [apply lookup_insert_eq|]. auto.
Qed.


(** C7. [canBeReturned()] holds exactly when the order is delivered and at
    most 7 days have passed since [actualDelivery], or since [createdAt]
    when there is no [actualDelivery]; 7 days and one second after, it does
    not hold. *)
Theorem canBeReturned_within_7_days now o :
  let elapsed := now - default (Order.createdAt o) (Order.actualDelivery o) in
  (Order.canBeReturned now o = true
   <-> Order.status o = Order.delivered /\ elapsed <= 7 * 24 * 60 * 60 * 1000)
  /\ (elapsed = 7 * 24 * 60 * 60 * 1000 + 1000 -> Order.canBeReturned now o = false).
Proof.
  intros elapsed.
  assert (Hwin : forall d,
    Qle_bool (inject_Z d / inject_Z (1000 * 60 * 60 * 24)) 7 = true
    <-> d <= 7 * 24 * 60 * 60 * 1000).
  { intros d. rewrite Qle_bool_iff. unfold Qle, Qdiv, Qmult, Qinv, inject_Z. simpl.
    lia. }
  assert (Hiff : Order.canBeReturned now o = true
     <-> Order.status o = Order.delivered /\ elapsed <= 7 * 24 * 60 * 60 * 1000).
  { unfold Order.canBeReturned.
    destruct (bool_decide (Order.status o = Order.delivered)) eqn:Hst; simpl.
    - apply bool_decide_eq_true in Hst. rewrite Hwin. subst elapsed. tauto.
    - apply bool_decide_eq_false in Hst. split; [discriminate|tauto]. }
  split; [exact Hiff|].
  intros Hlate. apply not_true_is_false. rewrite Hiff. lia.
Qed.

(** The ratings the hooks select are those the specification speaks of. *)
Lemma overalls_of_item productId db :
  overalls (approved_for_product productId) db
  = approved_ratings_of_item productId db.
Proof.
  unfold overalls, approved_ratings_of_item, approved_for_product. f_equal.
  induction (reviews db) as [|r rs IH]; simpl; [done|].
  rewrite filter_cons, IH.
  destruct (decide (Review.product r = productId /\ Review.status r = Review.approved))
    as [[Hp Hs]|Hno].
  - by rewrite (proj2 (Pos.eqb_eq _ _) Hp), bool_decide_eq_true_2.
  - destruct (Pos.eqb_spec (Review.product r) productId) as [Hp|Hp]; simpl; [|done].
    rewrite bool_decide_eq_false_2; [done|]. intros Hs. by apply Hno.
Qed.

Lemma overalls_of_seller artisanId db :
  overalls (approved_for_artisan artisanId) db
  = approved_ratings_of_seller artisanId db.
Proof.
  unfold overalls, approved_ratings_of_seller, approved_for_artisan. f_equal.
  induction (reviews db) as [|r rs IH]; simpl; [done|].
  rewrite filter_cons, IH.
  destruct (decide (Review.artisan r = artisanId /\ Review.status r = Review.approved))
    as [[Hp Hs]|Hno].
  - by rewrite (proj2 (Pos.eqb_eq _ _) Hp), bool_decide_eq_true_2.
  - destruct (Pos.eqb_spec (Review.artisan r) artisanId) as [Hp|Hp]; simpl; [|done].
    rewrite bool_decide_eq_false_2; [done|]. intros Hs. by apply Hno.
Qed.

Lemma ratings_in_sync_approved productId artisanId db :
  ratings_in_sync productId artisanId db ->
  (forall p, products db !! productId = Some p ->
     rating_agrees (approved_ratings_of_item productId db) (Product.rating p))
  /\ (forall a, artisans db !! artisanId = Some a ->
     rating_agrees (approved_ratings_of_seller artisanId db) (Artisan.rating a)).
Proof.
  intros [Hp Ha]. rewrite <- overalls_of_item, <- overalls_of_seller. auto.
Qed.

(** C5. After a review is created, updated or deleted, the rating stored on
    its catalogue item has, as [count], the number of stored reviews of
    that item whose status is approved and, as [average], the mean of
    their overall ratings rounded to one decimal place, or 0 when there is
    none; the rating stored on its seller is the same aggregate over the
    approved reviews of that seller. *)
Theorem ratings_follow_reviews req db productId artisanId :
  review_changed req db = Some (productId, artisanId) ->
  let db' := handle db req in
  (forall p, products db' !! productId = Some p ->
     rating_agrees (approved_ratings_of_item productId db') (Product.rating p))
  /\ (forall a, artisans db' !! artisanId = Some a ->
     rating_agrees (approved_ratings_of_seller artisanId db') (Artisan.rating a)).
Proof.
  intros Hch db'. subst db'. apply ratings_in_sync_approved.
  destruct req as [| | |env user body|user id body|user id|]; try discriminate;
    simpl in *.
  - unfold POST_reviews in *. destruct (validateReviewCreation body);
      [|discriminate].
    destruct (create_review_cases env user body db)
      as [[e H]|(r & db' & o & H & Hsave & _)]; rewrite H in *; [discriminate|].
    simpl in *. inversion Hch; subst.
    by apply Review_save_new_Done in Hsave as (_ & _ & _ & _ & _ & Hsync).
  - destruct (update_review_cases user id body db)
      as [[e H]|(r0 & r & db' & b & _ & H & Hsave & _)]; rewrite H in *;
      [discriminate|].
    simpl in *. inversion Hch; subst.
    by apply Review_save_Done in Hsave as (_ & _ & _ & Hsync).
  - destruct (delete_review_cases user id db)
      as [[_ H]|(r0 & db' & Hown & H & Hrem)]; rewrite H in *; [discriminate|].
    simpl in *. rewrite Hown in Hch. inversion Hch; subst.
    by apply Review_remove_Done in Hrem as (_ & _ & _ & Hsync).
Qed.

(** ** One review for each purchase *)

Lemma NoDup_map_filter {A B} (f : A -> B) (g : A -> bool) (l : list A) :
  NoDup (map f l) -> NoDup (map f (List.filter g l)).
Proof.
  induction l as [|a l IH]; simpl; [done|].
  rewrite NoDup_cons. intros [Hnot Hnd].
  destruct (g a); simpl; [|auto].
  apply NoDup_cons. split; [|auto].
  intros Hin. apply Hnot. apply list_elem_of_In in Hin. apply list_elem_of_In.
  apply in_map_iff in Hin as (x & Hfx & Hx). apply filter_In in Hx as [Hx _].
  apply in_map_iff. eauto.
Qed.

Lemma handle_reviews_unique req db :
  reviews_unique db -> reviews_unique (handle db req).
Proof.
  intros [Hid Hkey].
  destruct req as [env user body|env user id body|env user id reason
                  |env user body|user id body|user id|env user id helpful]; simpl.
  - destruct (POST_orders_fails env user body db) as (e & db' & -> & _ & _ & Hr & _).
    unfold reviews_unique. simpl. by rewrite Hr.
  - destruct (update_status_cases env user id body db)
      as [[e H]|(loaded & Hvalid & Hl & Hmay)].
    + by rewrite H.
    + destruct (update_status_run env user id body db loaded Hvalid Hl Hmay)
        as (st & o & _ & H & _).
      by rewrite H.
  - destruct (cancel_order env user id reason db) as [[o|e] db'] eqn:H; simpl.
    + apply cancel_order_Done in H as (loaded & db1 & _ & _ & _ & Hrest & -> & _).
      apply restore_inventory_frame in Hrest as (_ & _ & _ & Hr).
      unfold reviews_unique. simpl. by rewrite Hr.
    + apply cancel_order_Failed in H as (_ & _ & Hr & _).
      unfold reviews_unique. by rewrite Hr.
  - unfold POST_reviews. destruct (validateReviewCreation body); [|done].
    destruct (create_review_cases env user body db)
      as [[e H]|(r & db' & o & H & Hsave & _)]; rewrite H; simpl; [done|].
    apply Review_save_new_Done in Hsave as (Hnoid & Hnokey & Hr & _).
    unfold reviews_unique. rewrite Hr, !map_app. simpl.
    split; apply NoDup_app; (split; [done|]); (split; [|apply NoDup_singleton]);
      intros x Hx Hx'; apply list_elem_of_singleton in Hx'; subst x;
      apply list_elem_of_In in Hx.
    + by apply find_none_id in Hnoid.
    + by apply find_none_key in Hnokey.
  - destruct (update_review_cases user id body db)
      as [[e H]|(r0 & r & db' & b & Hown & H & Hsave & Hrid & Hrkey & _)];
      rewrite H; simpl; [done|].
    apply Review_save_Done in Hsave as (Hr & _).
    apply find_some in Hown as [Hin _].
    destruct (put_review_same_keys r r0 (reviews db) Hid Hin Hrid Hrkey) as [E1 E2].
    unfold reviews_unique. by rewrite Hr, E1, E2.
  - destruct (delete_review_cases user id db)
      as [[_ H]|(r0 & db' & _ & H & Hrem)]; rewrite H; simpl; [done|].
    apply Review_remove_Done in Hrem as (Hr & _).
    unfold reviews_unique. rewrite Hr.
    split; by apply NoDup_map_filter.
  - pose proof (vote_helpful_cases env user id helpful db) as H.
    destruct (List.find (has_id id) (reviews db)) as [r|] eqn:Hfind.
    + destruct (Review.canVote (actor_id user) r).
      * destruct (castBoolean (flag_sent helpful)) as [flag|]; [|by rewrite H].
        destruct H as (db' & H & Hsave). rewrite H. simpl.
        apply Review_save_Done in Hsave as (Hr & _).
        apply find_has_id in Hfind as [Hin _].
        destruct (put_review_same_keys
                    (voted env (actor_id user) (flag_sent helpful) flag r)
                    r (reviews db) Hid Hin eq_refl eq_refl) as [E1 E2].
        unfold reviews_unique. by rewrite Hr, E1, E2.
      * by rewrite H.
    + by rewrite H.
Qed.

Lemma handle_all_reviews_unique reqs : forall db,
  reviews_unique db -> reviews_unique (handle_all db reqs).
Proof.
  induction reqs as [|r reqs IH]; intros db H; simpl; [done|].
  by apply IH, handle_reviews_unique.
Qed.

(** C8. Once a buyer's review of an item bought on an order is stored, a
    second request of that buyer to review the same item on the same order
    fails with [DuplicateReview] and stores nothing; as long as that review
    is stored no such request succeeds; and no request of the API ever
    makes two stored reviews share buyer, item and order. *)
Theorem one_review_per_purchase env user body db r db1 :
  POST_reviews env user body db = (Done r, db1) ->
  Review.key r = (actor_id user, body_productId body, body_orderId body)
  /\ In r (reviews db1)
  /\ (forall env2 body2,
        body_productId body2 = body_productId body ->
        body_orderId body2 = body_orderId body ->
        validateReviewCreation body2 = true ->
        POST_reviews env2 user body2 db1 = (Failed DuplicateReview, db1))
  /\ (forall db2 env2 body2,
        In (Review.key r) (map Review.key (reviews db2)) ->
        body_productId body2 = body_productId body ->
        body_orderId body2 = body_orderId body ->
        exists e, POST_reviews env2 user body2 db2 = (Failed e, db2))
  /\ (forall later, reviews_unique db -> reviews_unique (handle_all db1 later)).
Proof.
  intros H. pose proof H as Hwhole. unfold POST_reviews in H.
  destruct (validateReviewCreation body); [|discriminate].
  destruct (create_review_cases env user body db)
    as [[e H']|(r' & db' & o & H' & Hsave & Ho & Hel & Hkey & _)];
    rewrite H' in H; [discriminate|].
  inversion H; subst r' db'. clear H.
  pose proof (Review_save_new_Done _ _ _ Hsave) as (_ & _ & Hr & Hord & _).
  assert (Hin : In r (reviews db1)).
  { rewrite Hr. apply in_or_app. right. by left. }
  assert (Hstop : forall db2 env2 body2,
    In (Review.key r) (map Review.key (reviews db2)) ->
    body_productId body2 = body_productId body ->
    body_orderId body2 = body_orderId body ->
    (exists e, create_review env2 user body2 db2 = (Failed e, db2))
    /\ (forall o2, orders db2 !! body_orderId body = Some o2 ->
          eligible user (body_productId body) o2 = true ->
          create_review env2 user body2 db2 = (Failed DuplicateReview, db2))).
  { intros db2 env2 body2 Hstored Hp2 Ho2.
    apply find_key_some in Hstored as [r2 Hfind]. rewrite Hkey in Hfind.
    unfold create_review, Order_findById, Review_findByKey, bind, gets, fail.
    cbn beta iota zeta. rewrite Hp2, Ho2.
    destruct (orders db2 !! body_orderId body) as [o2|];
      [|split; [eauto|intros ? [=]]].
    fold (eligible user (body_productId body) o2).
    destruct (eligible user (body_productId body) o2) eqn:Hel2; simpl.
    - rewrite Hfind. split; [eauto|]. by intros ? [= <-] _.
    - split; [eauto|]. intros ? [= <-] Hyes. congruence. }
  split; [done|]. split; [done|]. split; [|split].
  - intros env2 body2 Hp2 Ho2 Hvalid2. unfold POST_reviews. rewrite Hvalid2.
    destruct (Hstop db1 env2 body2) as [_ Hdup]; auto.
    + by apply in_map.
    + apply (Hdup o); [by rewrite Hord|done].
  - intros db2 env2 body2 Hstored Hp2 Ho2. unfold POST_reviews.
    destruct (validateReviewCreation body2); [|by eexists].
    by destruct (Hstop db2 env2 body2) as [Hfail _].
  - intros later Huniq. apply handle_all_reviews_unique.
    assert (E : db1 = handle db (CreateReview env user body)).
    { simpl. by rewrite Hwhole. }
    rewrite E. by apply handle_reviews_unique.
Qed.

(** ** One vote for each user *)

Lemma canVote_false_iff userId r :
  Review.canVote userId r = false
  <-> exists vote, In vote (Review.votedBy r) /\ Review.user vote = userId.
Proof.
  unfold Review.canVote. rewrite negb_false_iff, existsb_exists.
  split; intros (v & Hin & Hv); exists v; (split; [done|]).
  - by apply Pos.eqb_eq.
  - by apply Pos.eqb_eq.
Qed.

(** C9, as the code has it.  A first vote sent with the string "false"
    is stored with the flag [false] and still adds one to the helpful
    counter, while the same vote sent with the boolean [false] adds
    nothing; a second vote of the same user is turned down either way. *)
Theorem text_false_vote_is_counted :
  (exists db',
     vote_helpful Demo.env4 Demo.seller 102%positive (JString "false") Demo.db3
     = (Done 1, db')
     /\ (Review.helpfulVotes <$> List.find (has_id 102%positive) (reviews db')) = Some 1
     /\ (map Review.helpful
          <$> (Review.votedBy <$> List.find (has_id 102%positive) (reviews db')))
        = Some [Some false]
     /\ vote_helpful Demo.env4 Demo.seller 102%positive (JBool true) db'
        = (Failed AlreadyVoted, db'))
  /\ (exists db',
        vote_helpful Demo.env4 Demo.seller 102%positive (JBool false) Demo.db3
        = (Done 0, db')
        /\ (map Review.helpful
             <$> (Review.votedBy <$> List.find (has_id 102%positive) (reviews db')))
           = Some [Some false]).
Proof.
  split; eexists; (split; [vm_compute; reflexivity|]);
    repeat split; vm_compute; reflexivity.
Qed.

(** ** The properties at work on the small shop *)


Lemma create_order_not_atomic_witness :
  POST_orders Demo.env1 Demo.buyer Demo.order_vase_bowl Demo.db0
  = (Failed InsufficientStock, Demo.db_vase_taken)
  /\ orders Demo.db_vase_taken = orders Demo.db0
  /\ users Demo.db_vase_taken = users Demo.db0
  /\ (Product.quantity <$>
        (Product.inventory <$> products Demo.db_vase_taken !! 1%positive)) = Some 7
  /\ products Demo.db_vase_taken <> products Demo.db0.
Proof.
  assert (Hpre : order_lines [Demo.vase3] 0%Q [] Demo.db0
                 = (Done (match fst (order_lines [Demo.vase3] 0%Q [] Demo.db0) with
                          | Done t => t
                          | Failed _ => (0%Q, [])
                          end), Demo.db_vase_taken))
    by (vm_compute; reflexivity).
  assert (Hbad : refusal Demo.db_vase_taken Demo.bowl1 = Some InsufficientStock)
    by (vm_compute; reflexivity).
  destruct (create_order_not_atomic Demo.env1 Demo.buyer Demo.order_vase_bowl
              Demo.db0 [Demo.vase3] Demo.bowl1 [] _ Demo.db_vase_taken
              InsufficientStock eq_refl eq_refl Hpre Hbad)
    as (Hfail & Hord & Husr & _).
  split; [exact Hfail|]. split; [exact Hord|]. split; [exact Husr|].
  split; [vm_compute; reflexivity|].
  intros Heq.
  assert (Hq : Product.quantity <$>
                 (Product.inventory <$> products Demo.db_vase_taken !! 1%positive)
               = Product.quantity <$>
                   (Product.inventory <$> products Demo.db0 !! 1%positive))
    by (by rewrite Heq).
  vm_compute in Hq. discriminate.
Defined.

Lemma cancel_guarded_by_status_witness :
  orders Demo.db2 !! 100%positive <> None
  /\ cancel_order Demo.env3 Demo.buyer 100%positive None Demo.db2
     = (Failed InvalidTransition, Demo.db2)
  /\ exists o db',
       cancel_order Demo.env2 Demo.buyer 100%positive (Some "late"%string) Demo.db1
       = (Done o, db')
       /\ orders db' !! 100%positive = Some o
       /\ Order.status o = Order.cancelled
       /\ (Order.refundStatus <$> Order.cancellation o) = Some Order.refund_pending.
Proof.
  split; [vm_compute; discriminate|]. split.
  - destruct (orders Demo.db2 !! 100%positive) as [loaded|] eqn:Hl;
      [|vm_compute in Hl; discriminate].
    assert (Hmay : may_cancel Demo.buyer loaded).
    { left. vm_compute in Hl. inversion Hl. reflexivity. }
    destruct (cancel_guarded_by_status Demo.env3 Demo.buyer 100%positive None
                Demo.db2 loaded Hl Hmay) as (_ & Hno & _).
    apply Hno. vm_compute in Hl. inversion Hl. reflexivity.
  - assert (Hl : orders Demo.db1 !! 100%positive = Some Demo.order1)
      by (vm_compute; reflexivity).
    assert (Hmay : may_cancel Demo.buyer Demo.order1) by (left; reflexivity).
    destruct (cancel_guarded_by_status Demo.env2 Demo.buyer 100%positive
                (Some "late"%string) Demo.db1 Demo.order1 Hl Hmay) as (_ & _ & Hyes).
    destruct (cancel_order Demo.env2 Demo.buyer 100%positive (Some "late"%string)
                Demo.db1) as [[o|e] db'] eqn:H; [|vm_compute in H; discriminate].
    exists o, db'. split; [reflexivity|].
    destruct (Hyes o db' eq_refl) as (_ & Hst & Hs & Hc).
    split; [exact Hst|]. split; [exact Hs|]. by rewrite Hc.
Defined.



Lemma canBeReturned_within_7_days_witness :
  Order.canBeReturned (now Demo.env2 + 7 * 24 * 60 * 60 * 1000)
                      Demo.order1_delivered = true
  /\ Order.canBeReturned (now Demo.env2 + 7 * 24 * 60 * 60 * 1000 + 1000)
                         Demo.order1_delivered = false.
Proof.
  split.
  - apply (proj1 (canBeReturned_within_7_days _ Demo.order1_delivered)).
    split; [reflexivity|]. vm_compute. discriminate.
  - apply (proj2 (canBeReturned_within_7_days _ Demo.order1_delivered)).
    reflexivity.
Defined.

Lemma ratings_follow_reviews_witness :
  review_changed (CreateReview Demo.env3 Demo.buyer Demo.praise) Demo.db_reviewed
  = Some (1%positive, 50%positive)
  /\ approved_ratings_of_item 1%positive
       (handle Demo.db_reviewed (CreateReview Demo.env3 Demo.buyer Demo.praise))
     = [5; 5; 4]%Q
  /\ exists p,
       products (handle Demo.db_reviewed
                   (CreateReview Demo.env3 Demo.buyer Demo.praise)) !! 1%positive
       = Some p
       /\ rating_agrees [5; 5; 4]%Q (Product.rating p)
       /\ count (Product.rating p) = 3
       /\ (average (Product.rating p) == 47 # 10)%Q.
Proof.
  assert (H : review_changed (CreateReview Demo.env3 Demo.buyer Demo.praise)
                Demo.db_reviewed = Some (1%positive, 50%positive))
    by (vm_compute; reflexivity).
  assert (Hl : approved_ratings_of_item 1%positive
                 (handle Demo.db_reviewed
                    (CreateReview Demo.env3 Demo.buyer Demo.praise))
               = [5; 5; 4]%Q)
    by (vm_compute; reflexivity).
  split; [exact H|]. split; [exact Hl|].
  destruct (products (handle Demo.db_reviewed
                        (CreateReview Demo.env3 Demo.buyer Demo.praise))
              !! 1%positive) as [p|] eqn:Hp; [|vm_compute in Hp; discriminate].
  exists p. split; [reflexivity|].
  destruct (ratings_follow_reviews _ Demo.db_reviewed 1%positive 50%positive H)
    as [Hitem _].
  specialize (Hitem p Hp). rewrite Hl in Hitem.
  split; [exact Hitem|]. split; [exact (proj1 Hitem)|].
  vm_compute in Hp. injection Hp as <-. reflexivity.
Defined.

Lemma one_review_per_purchase_witness :
  exists r db3,
    POST_reviews Demo.env3 Demo.buyer Demo.praise Demo.db2 = (Done r, db3)
    /\ In r (reviews db3)
    /\ POST_reviews Demo.env4 Demo.buyer Demo.praise db3
       = (Failed DuplicateReview, db3).
Proof.
  destruct (POST_reviews Demo.env3 Demo.buyer Demo.praise Demo.db2)
    as [[r|e] db3] eqn:H; [|vm_compute in H; discriminate].
  exists r, db3. split; [reflexivity|].
  destruct (one_review_per_purchase _ _ _ _ _ _ H) as (_ & Hin & Hdup & _).
  split; [exact Hin|].
  apply Hdup; reflexivity.
Defined.

Lemma untracked_item_untouched_witness :
  products Demo.db0 !! 2%positive = Some Demo.scarf
  /\ Product.trackInventory (Product.inventory Demo.scarf) = false
  /\ products (snd (POST_orders Demo.env1 Demo.buyer Demo.order_scarves Demo.db0))
       !! 2%positive = Some Demo.scarf
  /\ Product.isAvailable Demo.scarf 1000000 = true.
Proof.
  assert (Hp : products Demo.db0 !! 2%positive = Some Demo.scarf)
    by (vm_compute; reflexivity).
  assert (Htr : Product.trackInventory (Product.inventory Demo.scarf) = false)
    by reflexivity.
  destruct (untracked_item_untouched 2%positive Demo.scarf Demo.db0 Hp Htr)
    as (Hcreate & _ & Havail).
  split; [exact Hp|]. split; [exact Htr|]. split; [apply Hcreate|].
  apply Havail. reflexivity.
Defined.


(** * Further properties of the code *)

(** ** Methods of orders and products *)

(** X1. [calculateRefundAmount()] is never negative, is 0 unless the
    payment is completed, and for a completed payment is the total, less
    the shipping cost once the order is shipped or delivered, floored at
    0; with a shipping cost and a total that are not negative it never
    exceeds the total. *)
Theorem refund_amount_cases (o : Order.t) :
  let r := Order_calculateRefundAmount o in
  let total := Order.totalAmount (Order.pricing o) in
  let shipping := Order.shippingCost (Order.pricing o) in
  (0 <= r)%Q
  /\ (Order.pay_status (Order.payment o) <> Order.pay_completed -> r = 0%Q)
  /\ (Order.pay_status (Order.payment o) = Order.pay_completed ->
      (Order.status o = Order.shipped \/ Order.status o = Order.delivered ->
         (0 <= total - shipping -> r == total - shipping)%Q
         /\ (total - shipping < 0 -> r == 0)%Q)
      /\ (Order.status o <> Order.shipped -> Order.status o <> Order.delivered ->
         (0 <= total -> r == total)%Q /\ (total < 0 -> r == 0)%Q))
  /\ (0 <= shipping -> 0 <= total -> r <= total)%Q.
Proof.
  intros r total shipping. subst r. unfold Order_calculateRefundAmount.
  fold total shipping.
  destruct (bool_decide (Order.pay_status (Order.payment o) = Order.pay_completed))
    eqn:Hpay; simpl.
  - apply bool_decide_eq_true in Hpay.
    destruct (bool_decide (Order.status o ∈ [Order.shipped; Order.delivered]))
      eqn:Hst.
    + apply bool_decide_eq_true in Hst.
      destruct (Qle_bool 0 (total - shipping)) eqn:Hle.
      * apply Qle_bool_iff in Hle.
        split; [done|]. split; [done|]. split.
        -- intros _. split.
           ++ intros _. split; [intros _; reflexivity|intros Hneg; lra].
           ++ intros H1 H2. rewrite !elem_of_cons, elem_of_nil in Hst. tauto.
        -- intros Hs Ht. lra.
      * assert (Hneg : (total - shipping < 0)%Q).
        { apply Qnot_le_lt. intros H. apply Qle_bool_iff in H. congruence. }
        split; [lra|]. split; [done|]. split.
        -- intros _. split.
           ++ intros _. split; [intros; lra|intros _; reflexivity].
           ++ intros H1 H2. rewrite !elem_of_cons, elem_of_nil in Hst. tauto.
        -- intros Hs Ht. lra.
    + apply bool_decide_eq_false in Hst.
      rewrite !elem_of_cons, elem_of_nil in Hst.
      destruct (Qle_bool 0 total) eqn:Hle.
      * apply Qle_bool_iff in Hle.
        split; [done|]. split; [done|]. split.
        -- intros _. split.
           ++ intros Hs. tauto.
           ++ intros _ _. split; [intros _; reflexivity|intros; lra].
        -- intros Hs Ht. lra.
      * assert (Hneg : (total < 0)%Q).
        { apply Qnot_le_lt. intros H. apply Qle_bool_iff in H. congruence. }
        split; [lra|]. split; [done|]. split.
        -- intros _. split.
           ++ intros Hs. tauto.
           ++ intros _ _. split; [intros; lra|intros _; reflexivity].
        -- intros Hs Ht. lra.
  - apply bool_decide_eq_false in Hpay.
    split; [lra|]. split; [done|]. split; [done|]. intros; lra.
Qed.

Lemma foldl_sum_shift {A} (f : A -> Z) (l : list A) : forall a,
  foldl (fun t x => t + f x) a l = a + foldr (fun x acc => f x + acc) 0 l.
Proof.
  induction l as [|x l IH]; intros a; simpl; [lia|].
  rewrite IH. lia.
Qed.

(** X2. The [totalItems] of the order document that order creation
    builds for a request the middleware let through is the sum of the units
    its lines ask for, and counts at least one unit for each line. *)
Theorem totalItems_of_built_order env user body db o db1 :
  validateOrderCreation body = true ->
  build_order env user body db = (Done o, db1) ->
  Order_totalItems o = units_requested (body_items body)
  /\ Z.of_nat (length (body_items body)) <= Order_totalItems o
  /\ 1 <= Order_totalItems o.
Proof.
  intros Hvalid H.
  destruct (build_order_cases env user body db)
    as [(s & its & db2 & Hloop & Hrun)|(e & db2 & _ & Hrun)];
    rewrite Hrun in H; [|discriminate].
  inversion H; subst o db2. clear H Hrun.
  apply order_lines_totals in Hloop as (new & Hits & _ & Hall).
  simpl in Hits. subst its.
  unfold Order_totalItems. simpl. rewrite foldl_sum_shift. simpl.
  destruct (validated_lines body Hvalid) as [Hne Hq].
  assert (Hsum : foldr (fun x acc => Order.quantity x + acc) 0 new
                 = units_requested (body_items body)).
  { clear -Hall. induction Hall as [|l i ls its (_ & Hq & _) _ IH]; simpl; [done|].
    by rewrite Hq, IH. }
  rewrite Hsum.
  assert (Hlen : Z.of_nat (length (body_items body))
                 <= units_requested (body_items body)).
  { clear -Hq. induction (body_items body) as [|l ls IH]; simpl; [lia|].
    assert (1 <= line_quantity l) by (apply Hq; by left).
    assert (Z.of_nat (length ls) <= units_requested ls).
    { apply IH. intros x Hx. apply Hq. by right. }
    unfold units_requested in *. lia. }
  split; [done|]. split; [done|].
  destruct (body_items body) as [|l ls]; [done|].
  change (length (l :: ls)) with (S (length ls)) in Hlen. lia.
Qed.

(** X3. For a product whose stock is not negative: it is out of stock
    exactly when it tracks inventory and has nothing left; while it is
    active, one unit is available exactly when it is not out of stock; an
    out-of-stock product is available in no quantity of 1 or more; and a
    quantity that is available stays available when less is asked for. *)
Theorem stockStatus_and_availability (p : Product.t) :
  0 <= Product.quantity (Product.inventory p) ->
  (Product_stockStatus p = out_of_stock
   <-> Product.trackInventory (Product.inventory p) = true
       /\ Product.quantity (Product.inventory p) = 0)
  /\ (Product.isActive p = true ->
      (Product.isAvailable p 1 = true <-> Product_stockStatus p <> out_of_stock))
  /\ (Product_stockStatus p = out_of_stock ->
      forall q, 1 <= q -> Product.isAvailable p q = false)
  /\ (forall q q', Product.isAvailable p q = true -> q' <= q ->
      Product.isAvailable p q' = true).
Proof.
  intros Hq. unfold Product_stockStatus, Product.isAvailable.
  destruct (Product.trackInventory (Product.inventory p)) eqn:Htr; simpl.
  - destruct (Z.eqb_spec (Product.quantity (Product.inventory p)) 0) as [Hz|Hnz].
    + split; [tauto|]. split.
      * intros ->. simpl. rewrite Z.geb_leb, Hz. simpl. split; [discriminate|done].
      * split.
        -- intros _ q Hq1. destruct (Product.isActive p); simpl; [|done].
           rewrite Z.geb_leb. apply Z.leb_gt. lia.
        -- intros q q'. destruct (Product.isActive p); simpl; [|done].
           rewrite !Z.geb_leb, !Z.leb_le. lia.
    + assert (Hne : forall s, (if Product.quantity (Product.inventory p)
                                  <=? Product.lowStockThreshold (Product.inventory p)
                               then low_stock else in_stock) = s -> s <> out_of_stock).
      { intros s <-. by destruct (_ <=? _). }
      split; [split; [intros H; by apply Hne in H|intros [_ H]; done]|].
      split.
      * intros ->. simpl. rewrite Z.geb_leb, Z.leb_le. split; [|lia].
        intros _. by apply (Hne _ eq_refl).
      * split.
        -- intros H. by apply Hne in H.
        -- intros q q'. destruct (Product.isActive p); simpl; [|done].
           rewrite !Z.geb_leb, !Z.leb_le. lia.
  - split; [split; [discriminate|intros [H _]; discriminate]|].
    split; [intros ->; simpl; split; [discriminate|done]|].
    split; [discriminate|].
    intros q q'. by destruct (Product.isActive p).
Qed.

(** X4. For a product that passes its schema validators, the discounted
    price lies between 0 and the listed amount; it is the listed amount
    when there is no discount or a discount of 0, and 0 for a discount of
    100. *)
Theorem discountedPrice_bounds (p : Product.t) :
  Product_valid p ->
  (0 <= Product.discountedPrice p)%Q
  /\ (Product.discountedPrice p <= Product.amount (Product.price p))%Q
  /\ (Product.discount (Product.price p) = None ->
      Product.discountedPrice p = Product.amount (Product.price p))
  /\ (forall d, Product.discount (Product.price p) = Some d -> (d == 0)%Q ->
      Product.discountedPrice p = Product.amount (Product.price p))
  /\ (forall d, Product.discount (Product.price p) = Some d -> (d == 100)%Q ->
      (Product.discountedPrice p == 0)%Q).
Proof.
  intros (Ha & Hd & _). unfold Product.discountedPrice.
  destruct (Product.discount (Product.price p)) as [d|] eqn:Hdisc.
  - destruct (Hd d eq_refl) as [Hd0 Hd100].
    destruct (Qle_bool d 0) eqn:Hle; simpl.
    + apply Qle_bool_iff in Hle.
      split; [done|]. split; [lra|]. split; [discriminate|].
      split; [done|]. intros d' [= <-] H100. lra.
    + assert (Hpos : (0 < d)%Q).
      { apply Qnot_le_lt. intros H. apply Qle_bool_iff in H. congruence. }
      set (a := Product.amount (Product.price p)) in *.
      assert (Hf : (0 <= 1 - d / 100 <= 1)%Q).
      { assert (Hq : (d / 100 == d * (1 # 100))%Q) by (field).
        rewrite Hq. split; lra. }
      destruct Hf as [Hf0 Hf1].
      set (f := (1 - d / 100)%Q) in *.
      split; [nra|]. split; [nra|].
      subst f. split; [discriminate|]. split.
      -- intros d' [= <-] H0. lra.
      -- intros d' [= <-] H100. rewrite H100. field.
  - split; [done|]. split; [lra|]. split; [done|].
    split; discriminate.
Qed.


(** ** Order creation *)

Lemma order_lines_errors lines : forall s acc db e db',
  order_lines lines s acc db = (Failed e, db') ->
  e = ItemUnavailable \/ e = InsufficientStock \/ e = InternalError.
Proof.
  induction lines as [|item rest IH]; intros s acc db e db' H.
  { run. discriminate. }
  revert H. simpl.
  destruct (line_product_in item) as [id|]; [|intros [= <- _]; auto].
  run.
  destruct (products db !! id) as [p|]; [|intros [= <- _]; auto].
  destruct (Product.isActive p); simpl; [|intros [= <- _]; auto].
  destruct (int_of_value (line_quantity_in item)) as [n|];
    [|intros [= <- _]; auto].
  destruct (Product.isAvailable p n); simpl; [|intros [= <- _]; auto].
  destruct (artisans db !! Product.artisan p); [|intros [= <- _]; auto].
  destruct (Product.trackInventory (Product.inventory p)).
  - destruct (add_assign _ _); [|intros [= <- _]; auto].
    unfold Product_save.
    match goal with |- context [if ?c then _ else _] => destruct c end;
      run; [intros [= <- _]; auto|].
    apply IH.
  - run. apply IH.
Qed.

(** X5. A request to create an order never answers success and never
    stores an order: it fails with a validation error, [ItemUnavailable],
    [InsufficientStock] or a server error, and leaves orders, users,
    reviews and artisans as they were.  It is the middleware that turned it
    down exactly when the answer is the validation error, and then nothing
    at all was written; when the middleware let it through and every line
    went through, the answer is the server error and the database is the
    one the lines left. *)
Theorem POST_orders_never_succeeds env user body db :
  exists e db',
    POST_orders env user body db = (Failed e, db')
    /\ (e = ValidationFailed \/ e = ItemUnavailable
        \/ e = InsufficientStock \/ e = InternalError)
    /\ orders db' = orders db /\ users db' = users db
    /\ reviews db' = reviews db /\ artisans db' = artisans db
    /\ (e = ValidationFailed <-> validateOrderCreation body = false)
    /\ (e = ValidationFailed -> db' = db)
    /\ (forall totals db1,
          validateOrderCreation body = true ->
          order_lines (body_items body) 0%Q [] db = (Done totals, db1) ->
          e = InternalError /\ db' = db1).
Proof.
  unfold POST_orders. destruct (validateOrderCreation body) eqn:Hvalid.
  - destruct (create_order_cases env user body db)
      as [(t & db1 & Hloop & Hrun)|(e1 & db1 & Hloop & Hrun)];
      rewrite Hrun;
      destruct (order_lines_frame _ _ _ _ _ _ Hloop) as (Ha & Hu & Ho & Hr).
    + exists InternalError, db1.
      do 6 (split; [by auto|]). split; [by split|]. split; [done|].
      intros t' db2 _ Hloop'. rewrite Hloop in Hloop'. by inversion Hloop'.
    + apply order_lines_errors in Hloop as Herr.
      assert (Hne : e1 <> ValidationFailed).
      { intros ->. destruct Herr as [|[|]]; discriminate. }
      exists e1, db1.
      split; [done|]. split; [tauto|]. do 4 (split; [done|]).
      split; [by split|]. split; [done|].
      intros t' db2 _ Hloop'. rewrite Hloop in Hloop'. discriminate.
  - exists ValidationFailed, db.
    do 6 (split; [by auto|]). split; [by split|]. split; [done|].
    intros ? ? ?. discriminate.
Qed.


(** X7. When every line of a request goes through, the request still
    fails with a server error, at [order.save()], and leaves the database
    the lines produced: no order is stored, the cart is not cleared, and
    every tracked item is down by the units ordered of it (with its sales
    counter up by as many when the quantities were sent as numbers). *)
Theorem order_refused_after_stock_taken env user body db totals db1 :
  validateOrderCreation body = true ->
  order_lines (body_items body) 0%Q [] db = (Done totals, db1) ->
  POST_orders env user body db = (Failed InternalError, db1)
  /\ orders db1 = orders db
  /\ users db1 = users db
  /\ (forall pid,
        but_sold <$> products db1 !! pid
        = but_sold
            <$> (stock_after (ordered pid (body_items body)) <$> products db !! pid))
  /\ (sent_as_numbers (body_items body) ->
      forall pid,
        products db1 !! pid
        = stock_after (ordered pid (body_items body)) <$> products db !! pid).
Proof.
  intros Hvalid Hloop.
  pose proof (order_lines_frame _ _ _ _ _ _ Hloop) as (_ & Hu & Hord & _).
  split; [|split; [done|split; [done|split]]].
  - unfold POST_orders. rewrite Hvalid.
    destruct (create_order_cases env user body db)
      as [(t & db2 & Hloop' & ->)|(e1 & db2 & Hloop' & _)];
      rewrite Hloop in Hloop'; [|discriminate].
    by inversion Hloop'.
  - by apply (order_lines_quantity _ _ _ _ _ _ Hloop).
  - intros Hnum. by apply (order_lines_stock _ _ _ _ _ _ Hnum Hloop).
Qed.

(** ** Status updates and cancellations *)


Lemma cancel_order_refused env user id reason db o :
  orders db !! id = Some o ->
  Order.canBeCancelled o = false ->
  exists e, cancel_order env user id reason db = (Failed e, db)
            /\ (may_cancel user o -> e = InvalidTransition)
            /\ (~ may_cancel user o -> e = AccessDenied).
Proof.
  intros Hl Hcan. unfold cancel_order, Order_findById, bind, gets.
  rewrite Hl, Hcan. simpl.
  destruct (negb (Pos.eqb _ _) && negb _) eqn:Hauth.
  - exists AccessDenied. split; [done|]. split; [|done].
    intros Hmay. apply may_cancel_check in Hmay. congruence.
  - exists InvalidTransition. split; [done|]. split; [done|].
    intros Hno. apply may_cancel_check in Hauth. done.
Qed.


(** X10. A cancellation that succeeded is not repeated: any further
    cancellation request for that order is refused and writes nothing, so
    the stock of an order comes back once. *)
Theorem cancel_is_not_repeated env user id reason db o db' :
  cancel_order env user id reason db = (Done o, db') ->
  forall env' user' reason',
    exists e, cancel_order env' user' id reason' db' = (Failed e, db')
              /\ (may_cancel user' o -> e = InvalidTransition).
Proof.
  intros H env' user' reason'.
  apply cancel_order_Done in H as (loaded & db1 & _ & _ & _ & _ & -> & Hst & _).
  assert (Hstored : orders (with_orders (<[id:=o]> (orders db1)) db1) !! id = Some o)
    by apply lookup_insert_eq.
  destruct (cancel_order_refused env' user' id reason' _ o Hstored) as (e & He & Hyes & _).
  { unfold Order.canBeCancelled. rewrite Hst. reflexivity. }
  eauto.
Qed.

(** X11. The status update has no guard on the current status: a cancelled
    order can be set back to confirmed and cancelled again, and each
    cancellation adds the order's units to the stock.  After cancel,
    confirm, cancel, every tracked item of the order is up by twice the
    units the order held of it. *)
Theorem reopened_order_restores_stock_twice
    env1 user1 reason1 env2 user2 body env3 user3 reason3
    id db loaded o1 db1 o2 db2 o3 db3 :
  orders db !! id = Some loaded ->
  cancel_order env1 user1 id reason1 db = (Done o1, db1) ->
  body_status body = "confirmed"%string ->
  update_status env2 user2 id body db1 = (Done o2, db2) ->
  cancel_order env3 user3 id reason3 db2 = (Done o3, db3) ->
  Order.status o2 = Order.confirmed
  /\ forall pid,
       products db3 !! pid
       = stock_after (- (2 * ordered_items pid (Order.items loaded)))
           <$> products db !! pid.
Proof.
  intros Hl H1 Hbody H2 H3.
  apply cancel_order_Done in H1
    as (l1 & d1 & Hl1 & _ & _ & Hrest1 & -> & _ & _ & Hit1 & _).
  rewrite Hl in Hl1. injection Hl1 as <-.
  assert (Hstored1 : orders (with_orders (<[id:=o1]> (orders d1)) d1) !! id = Some o1)
    by apply lookup_insert_eq.
  assert (Hvalid : existsb (String.eqb (body_status body)) validStatuses = true)
    by (by rewrite Hbody).
  destruct (update_status_cases env2 user2 id body
              (with_orders (<[id:=o1]> (orders d1)) d1))
    as [[e He]|(l2 & _ & Hl2 & Hmay)]; [rewrite He in H2; discriminate|].
  rewrite Hstored1 in Hl2. injection Hl2 as <-.
  destruct (update_status_run env2 user2 id body _ o1 Hvalid Hstored1 Hmay)
    as (st & o2' & Hparse & Hrun & Hst & Hit2 & _).
  rewrite Hrun in H2. inversion H2; subst o2' db2. clear H2.
  rewrite Hbody in Hparse. injection Hparse as <-.
  split; [done|].
  apply cancel_order_Done in H3
    as (l3 & d3 & Hl3 & _ & _ & Hrest3 & -> & _ & _ & _ & _).
  simpl in Hl3. rewrite lookup_insert_eq in Hl3. injection Hl3 as <-.
  intros pid. simpl.
  pose proof (restore_inventory_stock _ _ _ Hrest1 pid) as Hs1.
  assert (Hs3 : products d3 !! pid
                = stock_after (- ordered_items pid (Order.items o2))
                    <$> products d1 !! pid).
  { (* the second restore ran on the catalogue the first one left *)
    clear -Hrest3.
    revert Hrest3. generalize (Order.items o2). intros items Hrest3.
    assert (Hgen : forall items db db',
      restore_inventory items db = (Done tt, db') ->
      forall dbx, products dbx = products db ->
      exists dbx', restore_inventory items dbx = (Done tt, dbx')
                   /\ products dbx' = products db').
    { clear. induction items as [|item rest IH]; intros db db' H dbx Hx; run.
      - inversion H; subst. by eexists.
      - rewrite Hx.
        destruct (products db !! Order.product item) as [p|]; run; [|eauto].
        destruct (Product.trackInventory (Product.inventory p)); run; [|eauto].
        unfold Product_save in *.
        match type of H with context [if ?c then _ else _] => destruct c end;
          run; [discriminate|].
        eapply IH; [exact H|]. simpl. by rewrite Hx. }
    destruct (Hgen _ _ _ Hrest3 d1 eq_refl) as (dx & Hrun & Hp).
    rewrite <- Hp. by apply restore_inventory_stock. }
  rewrite Hs3, Hs1. rewrite Hit2, Hit1.
  destruct (products db !! pid) as [p|]; simpl; [|done].
  f_equal. rewrite stock_after_after. f_equal. lia.
Qed.

(** ** Reading an order *)

Lemma some_artisan_reads userId items : forall db res db',
  some_artisan userId items db = (res, db') -> db' = db.
Proof.
  induction items as [|item rest IH]; intros db res db' H; run.
  - by inversion H.
  - destruct (artisans db !! Order.artisan item); [|by inversion H].
    destruct (Pos.eqb (Order.artisan item) userId); [by inversion H|].
    by apply IH in H.
Qed.

Lemma some_artisan_populated userId items db :
  (forall item, In item items -> is_Some (artisans db !! Order.artisan item)) ->
  some_artisan userId items db
  = (Done (existsb (fun item => Pos.eqb (Order.artisan item) userId) items), db).
Proof.
  induction items as [|item rest IH]; intros Hpop; run; [done|].
  destruct (Hpop item (or_introl eq_refl)) as [a Ha]. rewrite Ha.
  destruct (Pos.eqb (Order.artisan item) userId); simpl; [done|].
  apply IH. intros i Hi. apply Hpop. by right.
Qed.

(** X12. Reading an order never writes.  It answers [NotFound] when there
    is no such order; when the buyer and the artisans the order refers to
    exist, it returns the order to its buyer, to an artisan of one of its
    lines and to an administrator, and answers [AccessDenied] to anyone
    else. *)
Theorem get_order_access user id db :
  (forall res db', get_order user id db = (res, db') -> db' = db)
  /\ (orders db !! id = None -> get_order user id db = (Failed NotFound, db))
  /\ (forall o,
        orders db !! id = Some o ->
        is_Some (users db !! Order.customer o) ->
        (forall item, In item (Order.items o) ->
           is_Some (artisans db !! Order.artisan item)) ->
        (Order.customer o = actor_id user \/ may_update user o ->
           get_order user id db = (Done o, db))
        /\ (Order.customer o <> actor_id user -> ~ may_update user o ->
           get_order user id db = (Failed AccessDenied, db))).
Proof.
  split; [|split].
  - intros res db' H. unfold get_order, Order_findById, bind at 1, gets in H.
    destruct (orders db !! id) as [o|]; [|by inversion H].
    unfold bind at 1, gets in H.
    destruct (users db !! Order.customer o); [|by inversion H].
    unfold bind at 1 in H.
    destruct (some_artisan (actor_id user) (Order.items o) db) as [[b|e] db1] eqn:Hs;
      apply some_artisan_reads in Hs as ->; [|by inversion H].
    match type of H with context [if ?c then _ else _] => destruct c end;
      by inversion H.
  - intros Hl. unfold get_order, Order_findById, bind, gets. by rewrite Hl.
  - intros o Hl [c Hc] Hpop.
    assert (Hrun : get_order user id db
              = if negb (Pos.eqb (Order.customer o) (actor_id user))
                   && negb (existsb (fun item => Pos.eqb (Order.artisan item) (actor_id user))
                                    (Order.items o))
                   && negb (bool_decide (actor_role user = User.admin))
                then (Failed AccessDenied, db) else (Done o, db)).
    { unfold get_order, Order_findById, bind at 1, gets. rewrite Hl.
      unfold bind at 1, gets. rewrite Hc. unfold bind at 1.
      rewrite (some_artisan_populated _ _ _ Hpop).
      by destruct (_ && _ && _). }
    rewrite Hrun. rewrite <- andb_assoc. split.
    + intros [Hbuyer|Hmay].
      * apply Pos.eqb_eq in Hbuyer. by rewrite Hbuyer.
      * apply may_update_check in Hmay. rewrite Hmay. by rewrite andb_false_r.
    + intros Hbuyer Hmay. apply Pos.eqb_neq in Hbuyer. rewrite Hbuyer. simpl.
      rewrite may_update_check in Hmay. apply not_false_is_true in Hmay.
      by rewrite Hmay.
Qed.

(** ** What an order keeps for good *)

Lemma identity_kept_same db db' : orders db' = orders db -> identity_kept db db'.
Proof. intros H oid o Ho. exists o. by rewrite H. Qed.

Lemma identity_kept_trans db1 db2 db3 :
  identity_kept db1 db2 -> identity_kept db2 db3 -> identity_kept db1 db3.
Proof.
  intros H12 H23 oid o Ho.
  destruct (H12 _ _ Ho) as (o2 & Ho2 & Hc2 & Hd2 & Hp2 & Hn2).
  destruct (H23 _ _ Ho2) as (o3 & Ho3 & Hc3 & Hd3 & Hp3 & Hn3).
  exists o3. split; [done|]. repeat split; try congruence.
  intros Hsome. rewrite Hn3; [by apply Hn2|]. by rewrite Hn2.
Qed.

Lemma Order_save_identity env id loaded o db :
  exists o',
    Order_save env id loaded o db
      = (Done o', with_orders (<[id := o']> (orders db)) db)
    /\ Order.customer o' = Order.customer o
    /\ Order.createdAt o' = Order.createdAt o
    /\ Order.payment o' = Order.payment o
    /\ (is_Some (Order.orderNumber o) -> Order.orderNumber o' = Order.orderNumber o).
Proof.
  unfold Order_save. run. eexists. split; [reflexivity|].
  unfold Order.log_status_change, Order.generate_orderNumber.
  destruct (Order.orderNumber o) eqn:Hn; simpl;
    destruct (bool_decide (Order.status o = Order.status loaded));
    simpl; rewrite ?Hn; repeat split; auto; intros [? [=]].
Qed.

Lemma identity_kept_put db db' id loaded o :
  orders db !! id = Some loaded ->
  orders db' = <[id := o]> (orders db) ->
  Order.customer o = Order.customer loaded ->
  Order.createdAt o = Order.createdAt loaded ->
  Order.payment o = Order.payment loaded ->
  (is_Some (Order.orderNumber loaded) -> Order.orderNumber o = Order.orderNumber loaded) ->
  identity_kept db db'.
Proof.
  intros Hl Hdb Hc Hd Hp Hn oid x Hx. rewrite Hdb.
  destruct (Pos.eq_dec id oid) as [<-|Hne].
  - exists o. rewrite lookup_insert_eq. rewrite Hl in Hx. inversion Hx; subst. auto.
  - exists x. by rewrite lookup_insert_ne.
Qed.

Lemma update_status_identity env user id body db :
  identity_kept db (snd (update_status env user id body db)).
Proof.
  destruct (update_status_cases env user id body db)
    as [[e H]|(loaded & Hvalid & Hl & Hmay)].
  - rewrite H. by apply identity_kept_same.
  - destruct (valid_status_parses _ Hvalid) as (st & Hparse & _).
    apply may_update_check in Hmay.
    unfold update_status, Order_findById, bind at 1, gets.
    rewrite Hvalid. simpl. rewrite Hl, Hparse, Hmay.
    match goal with |- context [Order_save _ _ _ ?x _] =>
      destruct (Order_save_identity env id loaded x db)
        as (o & Hsave & Hc & Hd & Hp & Hn);
      set (x0 := x) in * end.
    rewrite Hsave. simpl.
    assert (Hx : Order.customer x0 = Order.customer loaded
                 /\ Order.createdAt x0 = Order.createdAt loaded
                 /\ Order.payment x0 = Order.payment loaded
                 /\ Order.orderNumber x0 = Order.orderNumber loaded).
    { subst x0.
      destruct (truthy (body_note body)), (bool_decide (st = Order.delivered));
        simpl; auto. }
    destruct Hx as (Hx1 & Hx2 & Hx3 & Hx4).
    eapply identity_kept_put; eauto; try congruence.
    intros Hsome. rewrite Hn; [done|]. by rewrite Hx4.
Qed.

Lemma cancel_order_identity env user id reason db :
  identity_kept db (snd (cancel_order env user id reason db)).
Proof.
  destruct (cancel_order env user id reason db) as [[o|e] db'] eqn:H; simpl.
  - pose proof H as H0.
    apply cancel_order_Done in H0 as (loaded & db1 & Hl & Hmay & Hcan & Hrest & _).
    apply may_cancel_check in Hmay.
    unfold cancel_order, Order_findById, bind at 1, gets in H.
    rewrite Hl, Hmay, Hcan in H. simpl in H. unfold bind at 1 in H.
    rewrite Hrest in H.
    match type of H with context [Order_save _ _ _ ?x _] =>
      destruct (Order_save_identity env id loaded x db1)
        as (o' & Hsave & Hc & Hd & Hp & Hn) end.
    rewrite Hsave in H. inversion H; subst o' db'. clear H.
    apply restore_inventory_frame in Hrest as (_ & _ & Ho & _).
    simpl in *. eapply identity_kept_put; eauto. simpl. by rewrite Ho.
  - apply cancel_order_Failed in H as (Ho & _). by apply identity_kept_same.
Qed.

(** The review requests write neither orders nor users. *)
Lemma review_requests_frame db r :
  match r with
  | CreateOrder _ _ _ | UpdateStatus _ _ _ _ | CancelOrder _ _ _ _ => True
  | _ => orders (handle db r) = orders db /\ users (handle db r) = users db
  end.
Proof.
  destruct r as [env user body|env user id body|env user id reason
                |env user body|user id body|user id|env user id helpful];
    simpl; try done.
  - unfold POST_reviews. destruct (validateReviewCreation body); [|done].
    destruct (create_review_cases env user body db)
      as [[e H]|(r & db' & o & H & Hsave & _)]; rewrite H; simpl; [done|].
    by apply Review_save_new_Done in Hsave as (_ & _ & _ & Ho & Hu & _).
  - destruct (update_review_cases user id body db)
      as [[e H]|(r0 & r & db' & b & _ & H & Hsave & _)]; rewrite H; simpl; [done|].
    by apply Review_save_Done in Hsave as (_ & Ho & Hu & _).
  - destruct (delete_review_cases user id db)
      as [[_ H]|(r0 & db' & _ & H & Hrem)]; rewrite H; simpl; [done|].
    by apply Review_remove_Done in Hrem as (_ & Ho & Hu & _).
  - pose proof (vote_helpful_cases env user id helpful db) as H.
    destruct (List.find (has_id id) (reviews db)) as [r|].
    + destruct (Review.canVote (actor_id user) r).
      * destruct (castBoolean (flag_sent helpful)); [|by rewrite H].
        destruct H as (db' & H & Hsave). rewrite H. simpl.
        by apply Review_save_Done in Hsave as (_ & Ho & Hu & _).
      * by rewrite H.
    + by rewrite H.
Qed.

Lemma handle_keeps_identity db r : identity_kept db (handle db r).
Proof.
  destruct r as [env user body|env user id body|env user id reason
                |env user body|user id body|user id|env user id helpful].
  - simpl.
    destruct (POST_orders_fails env user body db)
      as (e & db' & -> & _ & Ho & _).
    by apply identity_kept_same.
  - apply update_status_identity.
  - apply cancel_order_identity.
  - apply identity_kept_same.
    by destruct (review_requests_frame db (CreateReview env user body)).
  - apply identity_kept_same.
    by destruct (review_requests_frame db (UpdateReview user id body)).
  - apply identity_kept_same.
    by destruct (review_requests_frame db (DeleteReview user id)).
  - apply identity_kept_same.
    by destruct (review_requests_frame db (VoteHelpful env user id helpful)).
Qed.

Lemma handle_all_keeps_identity rs : forall db, identity_kept db (handle_all db rs).
Proof.
  induction rs as [|r rs IH]; intros db; simpl.
  - by apply identity_kept_same.
  - eapply identity_kept_trans; [apply handle_keeps_identity|apply IH].
Qed.

(** X13. Whatever order and review requests are served, an order that is
    stored stays stored under its [_id] with its customer, its creation
    date and its payment method and status, and with its order number if it
    had one; no request ever completes a payment, so the refund amount of an
    order whose payment was not completed stays 0. *)
Theorem order_identity_is_permanent db oid o later :
  orders db !! oid = Some o ->
  exists o',
    orders (handle_all db later) !! oid = Some o'
    /\ Order.customer o' = Order.customer o
    /\ Order.createdAt o' = Order.createdAt o
    /\ Order.method (Order.payment o') = Order.method (Order.payment o)
    /\ Order.pay_status (Order.payment o') = Order.pay_status (Order.payment o)
    /\ (forall number, Order.orderNumber o = Some number ->
                       Order.orderNumber o' = Some number)
    /\ (Order.pay_status (Order.payment o) <> Order.pay_completed ->
        Order_calculateRefundAmount o' = 0%Q).
Proof.
  intros Hstored.
  destruct (handle_all_keeps_identity later db _ _ Hstored)
    as (o' & Ho' & Hc & Hd & Hp & Hn).
  exists o'. rewrite Hp. do 5 (split; [done|]). split.
  - intros number Hnum. rewrite Hn; [done|]. by rewrite Hnum.
  - intros Hpay. unfold Order_calculateRefundAmount. rewrite Hp.
    by rewrite bool_decide_eq_false_2.
Qed.

(** ** Invariants of the stored reviews *)

Lemma In_put_review r rs x : In x (put_review r rs) -> x = r \/ In x rs.
Proof.
  unfold put_review. rewrite in_map_iff. intros (y & Hy & Hin).
  destruct (has_id (Review._id r) y); [by left|right; by subst].
Qed.

Lemma Review_save_validated r db :
  (Review.validate r = false /\ Review_save true r db = (Failed InternalError, db))
  \/ (Review.validate r = true
      /\ exists db', Review_save true r db = (Done tt, db')
                     /\ reviews db' = put_review r (reviews db)).
Proof.
  destruct (Review.validate r) eqn:Hval.
  - right. split; [done|].
    destruct (Review_save_unvalidated r db) as (db' & Hsave & Hr & _).
    exists db'. split; [|done]. rewrite <- Hsave. unfold Review_save.
    by rewrite Hval.
  - left. split; [done|]. unfold Review_save. by rewrite Hval.
Qed.

Lemma handle_reviews_origin db req x :
  In x (reviews (handle db req)) -> review_origin db req x.
Proof.
  destruct req as [env user body|env user id body|env user id reason
                  |env user body|user id body|user id|env user id helpful]; simpl.
  - intros Hx. left. revert Hx.
    destruct (POST_orders_fails env user body db)
      as (e & db' & -> & _ & _ & Hr & _).
    simpl. by rewrite Hr.
  - intros Hx. left. revert Hx.
    destruct (update_status_cases env user id body db)
      as [[e H]|(loaded & Hvalid & Hl & Hmay)].
    + by rewrite H.
    + destruct (update_status_run env user id body db loaded Hvalid Hl Hmay)
        as (st & o & _ & H & _).
      by rewrite H.
  - intros Hx. left. revert Hx.
    destruct (cancel_order env user id reason db) as [[o|e] db'] eqn:H; simpl.
    + apply cancel_order_Done in H as (loaded & db1 & _ & _ & _ & Hrest & -> & _).
      apply restore_inventory_frame in Hrest as (_ & _ & _ & Hr). simpl.
      by rewrite Hr.
    + apply cancel_order_Failed in H as (_ & _ & Hr & _). by rewrite Hr.
  - unfold POST_reviews.
    destruct (validateReviewCreation body) eqn:Hvalid; [|by left].
    destruct (create_review_cases env user body db)
      as [[e H]|(r & db' & o & H & Hsave & _ & _ & _ & _ & Hov & Hst & _)];
      rewrite H; simpl; [by left|].
    pose proof H as Hwhole.
    apply Review_save_new_Done in Hsave as (_ & _ & Hr & _).
    rewrite Hr, in_app_iff. intros [Hx|[<-|[]]]; [by left|].
    right. left. exists env, user, body.
    (* the new review has no vote yet *)
    assert (Hvotes : Review.helpfulVotes r = 0 /\ Review.votedBy r = []).
    { revert Hwhole.
      unfold create_review, Order_findById, Review_findByKey, bind, gets, ret,
        throw, fail. cbn beta iota zeta.
      destruct (orders db !! body_orderId body); [|discriminate].
      match goal with |- context [if ?c then _ else _] => destruct c end;
        [discriminate|].
      destruct (List.find _ (reviews db)); [discriminate|].
      destruct (find_orderItem _ _ db) as [[[item|]|e] db1]; try discriminate.
      destruct (artisans db1 !! Order.artisan item); [|discriminate].
      match goal with |- context [Review_save_new ?r0 db1] =>
        destruct (Review_save_new r0 db1) as [[[]|e] db2] end; [|discriminate].
      by intros [= <- _]. }
    destruct Hvotes. auto 10.
  - unfold update_review, Review_findOwn, bind, gets, ret, throw, fail.
    cbn beta iota zeta. fold (own_review id user db).
    destruct (own_review id user db) as [r0|] eqn:Hown; [|by left].
    apply find_some in Hown as [Hin _].
    destruct (updates_valid body); cbn [negb]; cbn beta iota; [|by left].
    destruct (body_rating body) as [rating|] eqn:Hbody.
    + destruct (in_overall rating) as [stars|] eqn:Hstars; [|by left].
      destruct (Review_save_validated (Review.set_overall stars r0) db)
        as [[_ Hsave]|(Hval & db' & Hsave & Hr)]; rewrite Hsave; simpl;
        [by left|].
      rewrite Hr. intros Hx. apply In_put_review in Hx as [->|Hx]; [|by left].
      right. right. left. exists user, id, body, r0, rating, stars. auto 10.
    + destruct (Review_save_unvalidated r0 db) as (db' & Hsave & Hr & _).
      rewrite Hsave. simpl. rewrite Hr. intros Hx.
      apply In_put_review in Hx as [->|Hx]; by left.
  - destruct (delete_review_cases user id db)
      as [[_ H]|(r0 & db' & _ & H & Hrem)]; rewrite H; simpl; [by left|].
    apply Review_remove_Done in Hrem as (Hr & _). rewrite Hr.
    intros Hx. apply filter_In in Hx as [Hx _]. by left.
  - pose proof (vote_helpful_cases env user id helpful db) as H.
    destruct (List.find (has_id id) (reviews db)) as [r0|] eqn:Hfind.
    + destruct (Review.canVote (actor_id user) r0) eqn:Hcan.
      * destruct (castBoolean (flag_sent helpful)) as [flag|] eqn:Hcast;
          [|rewrite H; by left].
        destruct H as (db' & H & Hsave). rewrite H. simpl.
        apply Review_save_Done in Hsave as (Hr & _). rewrite Hr.
        apply find_has_id in Hfind as [Hin _].
        intros Hx. apply In_put_review in Hx as [->|Hx]; [|by left].
        right. right. right. exists env, user, id, helpful, flag, r0. auto 10.
      * rewrite H. by left.
    + rewrite H. by left.
Qed.

(** A value that Mongoose casts to [true] is truthy. *)
Lemma cast_true_truthy v : castBoolean v = Some (Some true) -> ToBoolean v = true.
Proof.
  destruct v as [| |b|x|s|]; simpl; try discriminate.
  - by intros [= ->].
  - destruct (Qeq_bool x 1) eqn:H1.
    + intros _. apply Qeq_bool_eq in H1.
      destruct (Qeq_bool x 0) eqn:H0; [|done].
      apply Qeq_bool_eq in H0. rewrite H1 in H0. discriminate.
    + by destruct (Qeq_bool x 0).
  - destruct (String.eqb_spec s ""); [by subst|done].
Qed.

(** X14. The vote bookkeeping is an invariant of the API: if on every
    stored review the helpful counter lies between the number of its votes
    stored with the flag [true] and the number of all its votes, and no
    user has two votes on it, the same holds after any sequence of order
    and review requests. *)
Theorem vote_tally_invariant db later :
  (forall r, In r (reviews db) ->
     Z.of_nat (length (List.filter
                         (fun vote => bool_decide (Review.helpful vote = Some true))
                         (Review.votedBy r)))
       <= Review.helpfulVotes r <= Z.of_nat (length (Review.votedBy r))
     /\ NoDup (map Review.user (Review.votedBy r))) ->
  forall r, In r (reviews (handle_all db later)) ->
    Z.of_nat (length (List.filter
                        (fun vote => bool_decide (Review.helpful vote = Some true))
                        (Review.votedBy r)))
      <= Review.helpfulVotes r <= Z.of_nat (length (Review.votedBy r))
    /\ NoDup (map Review.user (Review.votedBy r)).
Proof.
  revert db. induction later as [|req later IH]; intros db Hinv; [done|].
  simpl. apply IH. intros x Hx.
  apply handle_reviews_origin in Hx
    as [Hx|[(env & user & body & _ & _ & _ & Hv & Hl & _)
           |[(user & id & body & r0 & rating & stars & _ & Hin & _ & _ & -> & _)
            |(env & user & id & helpful & flag & r0 & _ & Hin & Hcan & Hcast & ->)]]].
  - by apply Hinv.
  - rewrite Hv, Hl. simpl. split; [lia|constructor].
  - exact (Hinv r0 Hin).
  - destruct (Hinv r0 Hin) as [[Hlow Hhigh] Hnodup]. unfold voted. simpl.
    rewrite List.filter_app, !length_app, map_app. simpl. split.
    + destruct (ToBoolean (flag_sent helpful)) eqn:Htruthy.
      * case_bool_decide; simpl; lia.
      * rewrite bool_decide_eq_false_2; [simpl; lia|].
        intros ->. apply cast_true_truthy in Hcast. congruence.
    + apply NoDup_app. split; [done|]. split; [|apply NoDup_singleton].
      intros u Hu Hu'. apply list_elem_of_singleton in Hu'. subst u.
      apply list_elem_of_In, in_map_iff in Hu as (v & Hv & Hin').
      apply not_false_iff_true in Hcan. apply Hcan.
      apply canVote_false_iff. eauto.
Qed.

Lemma validate_range r :
  Review.validate r = true <-> (1 <= Review.overall r <= 5)%Q.
Proof.
  unfold Review.validate. rewrite andb_true_iff, !Qle_bool_iff. tauto.
Qed.

Lemma Qsum_range (l : list Q) :
  (forall x, In x l -> (1 <= x <= 5)%Q) ->
  (inject_Z (Z.of_nat (length l)) <= Qsum l
   /\ Qsum l <= 5 * inject_Z (Z.of_nat (length l)))%Q.
Proof.
  induction l as [|x l IH]; intros H.
  - split; unfold Qle; simpl; lia.
  - destruct IH as [IH1 IH2]; [intros y Hy; apply H; by right|].
    destruct (H x (or_introl eq_refl)) as [Hx1 Hx5].
    change (length (x :: l)) with (S (length l)).
    rewrite Nat2Z.inj_succ, <- Z.add_1_r, inject_Z_plus.
    change (inject_Z 1) with 1%Q. unfold Qsum in *. simpl. split; lra.
Qed.

(** X15. Ratings stay in range: if every stored review has an overall
    rating from 1 to 5, so has every review stored after any sequence of
    order and review requests; and the aggregate the rating hook then
    writes for a product or an artisan is either no rating (average 0,
    count 0) or an average from 1 to 5 over at least one review. *)
Theorem ratings_stay_in_range db later :
  (forall r, In r (reviews db) -> (1 <= Review.overall r <= 5)%Q) ->
  (forall r, In r (reviews (handle_all db later)) -> (1 <= Review.overall r <= 5)%Q)
  /\ forall matches,
       let rt := rating_of_stats
                   (Review_aggregate matches (reviews (handle_all db later))) in
       (average rt = 0%Q /\ count rt = 0)
       \/ ((1 <= average rt <= 5)%Q /\ 1 <= count rt).
Proof.
  intros Hinv.
  assert (Hkept : forall r, In r (reviews (handle_all db later)) ->
                    (1 <= Review.overall r <= 5)%Q).
  { revert db Hinv. induction later as [|req later IH]; intros db Hinv; [done|].
    simpl. apply IH. intros x Hx.
    apply handle_reviews_origin in Hx
      as [Hx|[(env & user & body & _ & Hvalid & Hov & _)
             |[(user & id & body & r0 & rating & stars & _ & Hin & _ & _ & -> & Hval)
              |(env & user & id & helpful & flag & r0 & _ & Hin & Hcan & _ & ->)]]].
    - by apply Hinv.
    - rewrite Hov. unfold validateReviewCreation in Hvalid.
      apply andb_prop in Hvalid as [H1 H5].
      apply Z.leb_le in H1, H5. split.
      + change 1%Q with (inject_Z 1). by rewrite <- Zle_Qle.
      + change 5%Q with (inject_Z 5). by rewrite <- Zle_Qle.
    - by apply validate_range.
    - exact (Hinv r0 Hin). }
  split; [exact Hkept|].
  intros matches rt. subst rt. unfold Review_aggregate.
  set (rs := reviews (handle_all db later)) in *.
  destruct (List.filter matches rs) as [|r m] eqn:Hm; [by left|right].
  assert (Hall : forall x, In x (map Review.overall (r :: m)) -> (1 <= x <= 5)%Q).
  { intros x Hx. apply in_map_iff in Hx as (y & <- & Hy).
    apply Hkept. rewrite <- Hm in Hy. by apply filter_In in Hy as [Hy _]. }
  apply Qsum_range in Hall. rewrite length_map in Hall.
  set (n := inject_Z (Z.of_nat (length (r :: m)))) in *.
  assert (Hn : (1 <= n)%Q).
  { subst n. change 1%Q with (inject_Z 1). rewrite <- Zle_Qle. simpl. lia. }
  unfold rating_of_stats. cbn [average count].
  change (foldr Qplus 0%Q (map Review.overall (r :: m)))
    with (Qsum (map Review.overall (r :: m))).
  set (s := Qsum (map Review.overall (r :: m))) in *.
  assert (Havg : (1 <= s / n <= 5)%Q).
  { split.
    - apply Qle_shift_div_l; lra.
    - apply Qle_shift_div_r; lra. }
  split; [|simpl; lia].
  set (avg := (s / n)%Q) in *.
  (* rounding a number of tenths between 10 and 50 stays between 10 and 50 *)
  assert (Hk : 10 <= Math_round (avg * 10) <= 50).
  { unfold Math_round. split.
    - assert (H10 : Qfloor (inject_Z 10) <= Qfloor (avg * 10 + (1 # 2))).
      { apply Qfloor_resp_le. change (inject_Z 10) with 10%Q. lra. }
      by rewrite Qfloor_Z in H10.
    - apply Z.lt_succ_r. rewrite Zlt_Qlt.
      eapply Qle_lt_trans; [apply Qfloor_le|].
      change (inject_Z (Z.succ 50)) with 51%Q. lra. }
  destruct Hk as [Hk1 Hk2]. rewrite Zle_Qle in Hk1, Hk2.
  change (inject_Z 10) with 10%Q in Hk1. change (inject_Z 50) with 50%Q in Hk2.
  split.
  - apply Qle_shift_div_l; lra.
  - apply Qle_shift_div_r; lra.
Qed.

(** ** Who may change a review, and what a change does *)

(** X16. Only its author can update or delete a review: for anyone else,
    administrators included, both requests answer [NotFound] and write
    nothing, as they do for a review that does not exist. *)
Theorem review_changes_need_the_author user id db :
  (forall r, In r (reviews db) -> Review._id r = id ->
     Review.customer r <> actor_id user) ->
  (forall body, update_review user id body db = (Failed NotFound, db))
  /\ delete_review user id db = (Failed NotFound, db).
Proof.
  intros Hother.
  assert (Hown : own_review id user db = None).
  { unfold own_review.
    destruct (List.find _ (reviews db)) as [r|] eqn:Hfind; [|done].
    apply find_some in Hfind as [Hin Hr]. apply andb_prop in Hr as [Hid Hc].
    apply Pos.eqb_eq in Hid, Hc. by destruct (Hother r Hin Hid). }
  split.
  - intros body. unfold update_review, Review_findOwn, bind, gets, fail.
    cbn beta iota zeta. fold (own_review id user db). by rewrite Hown.
  - destruct (delete_review_cases user id db) as [[_ H]|(r0 & db' & H & _)];
      [done|congruence].
Qed.

(** X17. A review request is answered [NotEligible], with nothing written,
    unless the order exists, belongs to the requester, is delivered and
    holds the product.  When it succeeds, the stored review is approved,
    has no votes, carries the rating of the request, and names as its
    artisan the artisan of the first line of the order that holds the
    product. *)
Theorem review_needs_a_delivered_purchase env user body db :
  (orders db !! body_orderId body = None ->
     create_review env user body db = (Failed NotEligible, db))
  /\ (forall o, orders db !! body_orderId body = Some o ->
        (Order.customer o <> actor_id user
         \/ Order.status o <> Order.delivered
         \/ (forall item, In item (Order.items o) ->
               Order.product item <> body_productId body)) ->
        create_review env user body db = (Failed NotEligible, db))
  /\ (forall r db', create_review env user body db = (Done r, db') ->
        exists o item,
          orders db !! body_orderId body = Some o
          /\ Order.customer o = actor_id user
          /\ Order.status o = Order.delivered
          /\ List.find (fun item => Pos.eqb (Order.product item) (body_productId body))
                       (Order.items o) = Some item
          /\ Review.artisan r = Order.artisan item
          /\ Review.product r = body_productId body
          /\ Review.customer r = actor_id user
          /\ Review.order r = body_orderId body
          /\ Review.overall r = inject_Z (body_overall body)
          /\ Review.status r = Review.approved
          /\ Review.helpfulVotes r = 0
          /\ Review.votedBy r = []
          /\ In r (reviews db')).
Proof.
  split; [|split].
  - intros Hl. unfold create_review, Order_findById, bind, gets, fail.
    cbn beta iota zeta. by rewrite Hl.
  - intros o Hl Hno. unfold create_review, Order_findById, bind, gets, fail.
    cbn beta iota zeta. rewrite Hl.
    fold (eligible user (body_productId body) o).
    assert (Hel : eligible user (body_productId body) o = false).
    { unfold eligible. apply not_true_is_false. rewrite !andb_true_iff.
      rewrite Pos.eqb_eq, bool_decide_eq_true, existsb_exists.
      intros [[Hc Hs] (item & Hin & Hp)]. apply Pos.eqb_eq in Hp.
      destruct Hno as [H|[H|H]]; [done|done|]. by apply (H item). }
    by rewrite Hel.
  - intros r db' H. pose proof H as Hwhole. revert H.
    unfold create_review, Order_findById, Review_findByKey, bind, gets, ret,
      throw, fail. cbn beta iota zeta.
    destruct (orders db !! body_orderId body) as [o|] eqn:Hl; [|discriminate].
    fold (eligible user (body_productId body) o).
    destruct (eligible user (body_productId body) o) eqn:Hel; simpl;
      [|discriminate].
    destruct (List.find _ (reviews db)); [discriminate|].
    destruct (find_orderItem _ _ db) as [[[item|]|e] db1] eqn:Hfind;
      try discriminate.
    assert (Hfirst : db1 = db
      /\ List.find (fun item => Pos.eqb (Order.product item) (body_productId body))
                   (Order.items o) = Some item).
    { clear -Hfind. revert db Hfind.
      induction (Order.items o) as [|i rest IH]; intros db Hfind; run;
        [discriminate|].
      destruct (products db !! Order.product i); [|discriminate].
      destruct (Pos.eqb (Order.product i) (body_productId body));
        [by inversion Hfind|].
      by apply IH. }
    destruct Hfirst as [-> Hfirst].
    destruct (artisans db !! Order.artisan item); [|discriminate].
    match goal with |- context [Review_save_new ?r0 db] =>
      destruct (Review_save_new r0 db) as [[[]|e] db2] eqn:Hsave end;
      [|discriminate].
    intros [= <- <-].
    apply Review_save_new_Done in Hsave as (_ & _ & Hr & _).
    unfold eligible in Hel. apply andb_prop in Hel as [Hel _].
    apply andb_prop in Hel as [Hc Hs].
    apply Pos.eqb_eq in Hc. apply bool_decide_eq_true in Hs.
    exists o, item. simpl. repeat split; auto.
    rewrite Hr. apply in_or_app. right. by left.
Qed.

(** X18. A successful delete removes every stored review with that [_id]
    and nothing else, in place: the reviews left are the others, in their
    order.  With reviews unique by customer, product and order, no review
    of the deleted one's purchase is left, so that purchase is no longer
    reported as already reviewed. *)
Theorem delete_review_removes_exactly user id db db' :
  delete_review user id db = (Done tt, db') ->
  exists r0,
    own_review id user db = Some r0
    /\ Review._id r0 = id
    /\ Review.customer r0 = actor_id user
    /\ reviews db' = List.filter (fun x => negb (has_id id x)) (reviews db)
    /\ List.find (has_id id) (reviews db') = None
    /\ (reviews_unique db ->
        List.find (fun x => bool_decide (Review.key x = Review.key r0)) (reviews db')
        = None).
Proof.
  intros H.
  destruct (delete_review_cases user id db) as [[_ H']|(r0 & db2 & Hown & H' & Hrem)];
    rewrite H' in H; [discriminate|].
  inversion H; subst db2. clear H.
  apply Review_remove_Done in Hrem as (Hr & _).
  pose proof Hown as Hown'. unfold own_review in Hown'.
  apply find_some in Hown' as [Hin Hr0]. apply andb_prop in Hr0 as [Hid Hc].
  apply Pos.eqb_eq in Hid, Hc. rewrite Hid in Hr.
  exists r0. split; [done|]. split; [done|]. split; [done|]. split; [done|].
  split.
  - rewrite Hr. destruct (List.find _ _) as [x|] eqn:Hfind; [|done].
    apply find_some in Hfind as [Hx Hx']. apply filter_In in Hx as [_ Hx].
    by rewrite Hx' in Hx.
  - intros [Hids Hkeys]. rewrite Hr.
    destruct (List.find _ _) as [x|] eqn:Hfind; [|done]. exfalso.
    apply find_some in Hfind as [Hx Hk]. apply filter_In in Hx as [Hx Hnot].
    apply bool_decide_eq_true in Hk.
    assert (x = r0) by (eapply NoDup_map_inj_on; eauto). subst x.
    unfold has_id in Hnot. rewrite Hid, Pos.eqb_refl in Hnot. discriminate.
Qed.

Lemma score_valid_iff x : score_valid x = true <-> score_in_range x.
Proof.
  destruct x as [q|]; simpl; [|tauto].
  by rewrite andb_true_iff, !Qle_bool_iff.
Qed.

Lemma updates_valid_iff body : updates_valid body = true <-> update_accepted body.
Proof.
  unfold updates_valid, update_accepted. rewrite !andb_true_iff.
  assert (Hr : match body_rating body with
               | Some r => rating_valid r
               | None => true
               end = true
               <-> forall rating, body_rating body = Some rating ->
                     is_Some (in_overall rating)
                     /\ score_in_range (in_overall rating)
                     /\ score_in_range (in_quality rating)
                     /\ score_in_range (in_craftsmanship rating)
                     /\ score_in_range (in_packaging rating)
                     /\ score_in_range (in_shipping rating)).
  { destruct (body_rating body) as [r|].
    - unfold rating_valid. rewrite !andb_true_iff, bool_decide_eq_true,
        !score_valid_iff. split.
      + intros H rating [= <-]. tauto.
      + intros H. specialize (H r eq_refl). tauto.
    - split; [by intros _ ? [=]|done]. }
  assert (Ht : match body_title body with
               | Some s => title_valid s
               | None => true
               end = true
               <-> forall s, body_title body = Some s ->
                     (String.length (trim s) <= 100)%nat).
  { destruct (body_title body) as [s|].
    - unfold title_valid. rewrite Nat.leb_le. split.
      + by intros H ? [= <-].
      + intros H. by apply H.
    - split; [by intros _ ? [=]|done]. }
  assert (Hc : match body_comment body with
               | Some s => comment_valid s
               | None => true
               end = true
               <-> forall s, body_comment body = Some s ->
                     s <> ""%string /\ (String.length s <= 1000)%nat).
  { destruct (body_comment body) as [s|].
    - unfold comment_valid. rewrite andb_true_iff, negb_true_iff, Nat.leb_le.
      split.
      + intros [Hne Hlen] ? [= <-]. split; [|done].
        intros ->. discriminate.
      + intros H. destruct (H s eq_refl) as [Hne Hlen]. split; [|done].
        by apply String.eqb_neq.
    - split; [by intros _ ? [=]|done]. }
  tauto.
Qed.

(** X19. An update by the author that the schema accepts (a rating, if
    sent, with an overall score and every score from 1 to 5; a title of at
    most 100 characters once trimmed; a comment that is not empty and of
    at most 1000 characters) succeeds: it stores the overall score that
    was sent on the review, leaves its votes, status and keys as they
    were, and stores no other review.  An update the schema does not
    accept fails with a server error and writes nothing. *)
Theorem update_review_rating user id db r0 body :
  own_review id user db = Some r0 ->
  (update_accepted body ->
     exists db',
       update_review user id body db = (Done (updated body r0), db')
       /\ List.find (has_id id) (reviews db') = Some (updated body r0)
       /\ length (reviews db') = length (reviews db)
       /\ Review.votedBy (updated body r0) = Review.votedBy r0
       /\ Review.helpfulVotes (updated body r0) = Review.helpfulVotes r0
       /\ Review.status (updated body r0) = Review.status r0
       /\ Review.key (updated body r0) = Review.key r0)
  /\ (~ update_accepted body ->
      update_review user id body db = (Failed InternalError, db)).
Proof.
  intros Hown.
  pose proof Hown as Hown'. unfold own_review in Hown'.
  apply find_some in Hown' as [Hin Hr0]. apply andb_prop in Hr0 as [Hid _].
  apply Pos.eqb_eq in Hid.
  assert (Hfound : exists r1, List.find (has_id id) (reviews db) = Some r1).
  { destruct (List.find (has_id id) (reviews db)) eqn:E; [eauto|].
    pose proof (find_none _ _ E r0 Hin) as Hn. unfold has_id in Hn.
    rewrite Hid, Pos.eqb_refl in Hn. discriminate. }
  destruct Hfound as [r1 Hr1].
  split.
  - intros Hok. pose proof Hok as Hvalid. apply updates_valid_iff in Hvalid.
    unfold update_review, Review_findOwn, bind, gets, ret, throw, fail.
    cbn beta iota zeta. fold (own_review id user db). rewrite Hown, Hvalid.
    cbn [negb]. cbn beta iota. unfold updated.
    destruct (body_rating body) as [rating|] eqn:Hbody.
    + destruct Hok as (Hscores & _).
      destruct (Hscores rating Hbody) as ([x Hx] & Hrange & _).
      rewrite Hx in *. simpl in Hrange.
      destruct (Review_save_validated (Review.set_overall x r0) db)
        as [[Hval _]|(_ & db' & Hsave & Hr)].
      * apply not_true_iff_false in Hval. rewrite validate_range in Hval. done.
      * rewrite Hsave. exists db'. split; [done|]. rewrite Hr.
        split; [eapply find_put_review; eauto|].
        split; [unfold put_review; by rewrite length_map|done].
    + destruct (Review_save_unvalidated r0 db) as (db' & Hsave & Hr & _).
      rewrite Hsave. exists db'. split; [done|]. rewrite Hr.
      split; [eapply find_put_review; eauto|].
      split; [unfold put_review; by rewrite length_map|done].
  - intros Hbad. rewrite <- updates_valid_iff in Hbad.
    apply not_true_is_false in Hbad.
    unfold update_review, Review_findOwn, bind, gets, ret, throw, fail.
    cbn beta iota zeta. fold (own_review id user db). by rewrite Hown, Hbad.
Qed.

(** ** The cart *)

Lemma cart_find_set pid q cart old :
  cart_find pid cart = Some old ->
  cart_find pid (cart_set pid q cart)
  = Some {| User.product := User.product old; User.quantity := q |}
  /\ map User.product (cart_set pid q cart) = map User.product cart
  /\ length (cart_set pid q cart) = length cart
  /\ (forall other, other <> pid ->
        cart_find other (cart_set pid q cart) = cart_find other cart).
Proof.
  unfold cart_find. induction cart as [|item rest IH]; simpl; [discriminate|].
  destruct (Pos.eqb_spec (User.product item) pid) as [Heq|Hne].
  - intros [= <-]. simpl. rewrite !Heq, Pos.eqb_refl.
    split; [done|]. split; [done|]. split; [done|].
    intros other Ho.
    destruct (Pos.eqb_spec pid other); [congruence|done].
  - intros Hfind. destruct (IH Hfind) as (H1 & H2 & H3 & H4). simpl.
    destruct (Pos.eqb_spec (User.product item) pid); [done|].
    split; [done|]. split; [by rewrite H2|]. split; [by rewrite H3|].
    intros other Ho. destruct (Pos.eqb (User.product item) other); [done|].
    by apply H4.
Qed.

Lemma cart_find_none pid cart :
  cart_find pid cart = None <-> ~ In pid (map User.product cart).
Proof.
  unfold cart_find. split.
  - intros Hnone Hin. apply in_map_iff in Hin as (x & Hx & Hin).
    pose proof (find_none _ _ Hnone x Hin) as H. simpl in H.
    apply Pos.eqb_neq in H. done.
  - intros Hnot. destruct (List.find _ cart) as [x|] eqn:E; [|done].
    apply find_some in E as [Hin Hx]. apply Pos.eqb_eq in Hx.
    exfalso. apply Hnot. apply in_map_iff. eauto.
Qed.


Section CartProperties.

Variable User_validate : User.t -> bool.

(** X21. Changing the quantity of a cart line is refused, with nothing
    written, for a quantity below 1 ([ValidationFailed]), then for a
    product that is missing, inactive or not available in that quantity
    ([InsufficientStock]), then for a product that is not in the cart
    ([NotFound]).  When it succeeds, the line of the product holds exactly
    the new quantity, which is available, and no other line and no other
    user is changed. *)
Theorem update_cart_item_effect user productId quantity db :
  (forall e db', update_cart_item User_validate user productId quantity db
                 = (Failed e, db') -> db' = db)
  /\ (quantity < 1 ->
      update_cart_item User_validate user productId quantity db
      = (Failed ValidationFailed, db))
  /\ (1 <= quantity ->
      (forall p, products db !! productId = Some p ->
                 Product.isAvailable p quantity = true -> False) ->
      update_cart_item User_validate user productId quantity db
      = (Failed InsufficientStock, db))
  /\ (forall cart n db',
        update_cart_item User_validate user productId quantity db
        = (Done (cart, n), db') ->
        exists p u old,
          1 <= quantity
          /\ products db !! productId = Some p
          /\ Product.isAvailable p quantity = true
          /\ users db !! actor_id user = Some u
          /\ cart_find productId (User.cart u) = Some old
          /\ db' = with_users (<[actor_id user := with_cart cart u]> (users db)) db
          /\ cart_find productId cart
             = Some {| User.product := User.product old; User.quantity := quantity |}
          /\ (forall other, other <> productId ->
                cart_find other cart = cart_find other (User.cart u))
          /\ length cart = length (User.cart u)).
Proof.
  unfold update_cart_item, Product_findById, User_findById, User_save, bind, gets,
    modify, ret, throw, fail. cbn beta iota zeta.
  destruct (Z.ltb_spec quantity 1) as [Hlt|Hge].
  { split; [by intros ? ? [= _ <-]|]. split; [done|].
    split; [lia|discriminate]. }
  split; [|split; [lia|]].
  - destruct (products db !! productId) as [p|]; simpl; [|by intros ? ? [= _ <-]].
    destruct (Product.isAvailable p quantity); simpl; [|by intros ? ? [= _ <-]].
    destruct (users db !! actor_id user) as [u|]; [|by intros ? ? [= _ <-]].
    destruct (cart_find productId (User.cart u)); [|by intros ? ? [= _ <-]].
    destruct (User_validate _); [discriminate|by intros ? ? [= _ <-]].
  - split.
    + intros _ Hno.
      destruct (products db !! productId) as [p|]; simpl; [|done].
      destruct (Product.isAvailable p quantity) eqn:Hav; simpl; [|done].
      by destruct (Hno p eq_refl).
    + intros cart n db'.
      destruct (products db !! productId) as [p|]; simpl; [|discriminate].
      destruct (Product.isAvailable p quantity) eqn:Hav; simpl; [|discriminate].
      destruct (users db !! actor_id user) as [u|]; [|discriminate].
      destruct (cart_find productId (User.cart u)) as [old|] eqn:Hfind;
        [|discriminate].
      destruct (User_validate _); [|discriminate].
      intros [= <- <- <-].
      destruct (cart_find_set productId quantity _ _ Hfind) as (Hset & _ & Hlen & Hoth).
      exists p, u, old. repeat split; auto.
Qed.

End CartProperties.

Lemma with_users_same db : with_users (users db) db = db.
Proof. by destruct db. Qed.

Lemma cart_pull_spec pid cart :
  cart_find pid (cart_pull pid cart) = None
  /\ (forall other, other <> pid ->
        cart_find other (cart_pull pid cart) = cart_find other cart)
  /\ (forall line, In line (cart_pull pid cart)
                   <-> In line cart /\ User.product line <> pid)
  /\ cart_pull pid (cart_pull pid cart) = cart_pull pid cart.
Proof.
  split; [|split; [|split]].
  - apply cart_find_none. intros Hin. apply in_map_iff in Hin as (x & Hx & Hin).
    apply filter_In in Hin as [_ Hne]. apply negb_true_iff, Pos.eqb_neq in Hne.
    done.
  - intros other Hne. unfold cart_find, cart_pull.
    induction cart as [|item rest IH]; simpl; [done|].
    destruct (Pos.eqb_spec (User.product item) pid) as [Heq|Hn]; simpl.
    + rewrite IH. destruct (Pos.eqb_spec (User.product item) other); [congruence|done].
    + by rewrite IH.
  - intros line. unfold cart_pull. rewrite filter_In, negb_true_iff, Pos.eqb_neq.
    tauto.
  - unfold cart_pull. induction cart as [|item rest IH]; simpl; [done|].
    destruct (negb (Pos.eqb (User.product item) pid)) eqn:E; simpl; [|done].
    by rewrite E, IH.
Qed.

(** X22. Removing a product from the cart leaves the requester's cart
    without any line for it and with every other line as it was, in order;
    no one else's cart, and nothing else, is written; removing it again
    changes nothing.  For a requester without a user document the request
    fails with a server error and writes nothing. *)
Theorem remove_from_cart_effect user productId db :
  (users db !! actor_id user = None ->
     remove_from_cart user productId db = (Failed InternalError, db))
  /\ (forall u, users db !! actor_id user = Some u ->
        exists cart db',
          remove_from_cart user productId db = (Done (cart, cartCount cart), db')
          /\ cart = cart_pull productId (User.cart u)
          /\ db' = with_users (<[actor_id user := with_cart cart u]> (users db)) db
          /\ cart_find productId cart = None
          /\ (forall other, other <> productId ->
                cart_find other cart = cart_find other (User.cart u))
          /\ (forall line, In line cart
                           <-> In line (User.cart u) /\ User.product line <> productId)
          /\ remove_from_cart user productId db'
             = (Done (cart, cartCount cart), db')).
Proof.
  assert (Hrun : forall d u, users d !! actor_id user = Some u ->
    remove_from_cart user productId d
    = (Done (cart_pull productId (User.cart u),
             cartCount (cart_pull productId (User.cart u))),
       with_users (<[actor_id user :=
                       with_cart (cart_pull productId (User.cart u)) u]> (users d)) d)).
  { intros d u Hu.
    unfold remove_from_cart, User_findById, bind, gets, modify, ret.
    cbn beta iota zeta. simpl.
    assert (Halter : alter (fun u0 => with_cart (cart_pull productId (User.cart u0)) u0)
                       (actor_id user) (users d)
                     = <[actor_id user := with_cart (cart_pull productId (User.cart u)) u]>
                         (users d)).
    { apply map_eq. intros k. rewrite lookup_alter, lookup_insert.
      case_decide; [subst; by rewrite Hu|done]. }
    rewrite Halter, lookup_insert_eq. reflexivity. }
  split.
  - intros Hu. unfold remove_from_cart, User_findById, bind, gets, modify, throw, fail.
    cbn beta iota zeta. simpl.
    assert (Halter : alter (fun u0 => with_cart (cart_pull productId (User.cart u0)) u0)
                       (actor_id user) (users db) = users db).
    { apply map_eq. intros k. rewrite lookup_alter.
      case_decide; [subst; by rewrite Hu|done]. }
    by rewrite Halter, Hu, with_users_same.
  - intros u Hu.
    destruct (cart_pull_spec productId (User.cart u)) as (H1 & H2 & H3 & H4).
    eexists _, _. split; [exact (Hrun db u Hu)|].
    split; [done|]. split; [done|]. split; [done|]. split; [done|].
    split; [done|].
    rewrite (Hrun _ (with_cart (cart_pull productId (User.cart u)) u));
      [|simpl; apply lookup_insert_eq].
    simpl. rewrite H4. f_equal. unfold with_users. simpl.
    by rewrite insert_insert_eq.
Qed.

(** ** The cart page *)

(** X23. The cart page never lists a line.  The product of a line is
    populated with the paths [title images price inventory artisan
    category], so the [isActive] that the filter reads is not there and
    the filter keeps no line: for a stored user the request answers an
    empty cart with item count 0, subtotal 0 and total 0, whatever the
    user's cart holds, and writes nothing; for a user that is not stored it
    fails with a server error. *)
Theorem get_cart_lists_nothing user db :
  (forall u, users db !! actor_id user = Some u ->
     get_cart user db
     = (Done ([], {| itemCount := 0; cart_subtotal := 0%Q;
                     estimatedShipping := 0%Q; cart_total := 0%Q |}), db))
  /\ (users db !! actor_id user = None ->
      get_cart user db = (Failed InternalError, db)).
Proof.
  assert (Hnone : forall cart, List.filter (cart_line_valid db) cart = []).
  { induction cart as [|item rest IH]; [done|]. simpl.
    unfold cart_line_valid at 1.
    by destruct (products db !! User.product item). }
  unfold get_cart, User_findById, bind, gets, ret, throw, fail.
  cbn beta iota zeta. split.
  - intros u ->. by rewrite Hnone.
  - by intros ->.
Qed.

(** ** Restocking *)

(** X24. The restock script keeps every product and adds none.  After it
    a product is active, tracks inventory and has 100 in stock, so it is
    available in a quantity exactly when the quantity is at most 100; its
    price, rating, sales figures, artisan and low-stock threshold are as
    before.  So a line for an existing product is turned down exactly when
    it asks for more than 100.  Running the script twice is the same as
    running it once, and it writes nothing but products. *)
Theorem restock_makes_products_orderable db :
  (forall pid, products db !! pid = None -> products (restock db) !! pid = None)
  /\ (forall pid p, products db !! pid = Some p ->
        exists p',
          products (restock db) !! pid = Some p'
          /\ Product.isActive p' = true
          /\ Product.trackInventory (Product.inventory p') = true
          /\ Product.quantity (Product.inventory p') = 100
          /\ Product.lowStockThreshold (Product.inventory p')
             = Product.lowStockThreshold (Product.inventory p)
          /\ Product.price p' = Product.price p
          /\ Product.rating p' = Product.rating p
          /\ Product.stats p' = Product.stats p
          /\ Product.artisan p' = Product.artisan p
          /\ (forall n, Product.isAvailable p' n = true <-> n <= 100))
  /\ (forall line, is_Some (products db !! line_product line) ->
        refusal (restock db) line
        = if 100 <? line_quantity line then Some InsufficientStock else None)
  /\ (forall line, products db !! line_product line = None ->
        refusal (restock db) line = Some ItemUnavailable)
  /\ restock (restock db) = restock db
  /\ orders (restock db) = orders db /\ users (restock db) = users db
  /\ reviews (restock db) = reviews db /\ artisans (restock db) = artisans db.
Proof.
  assert (Hl : forall pid, products (restock db) !! pid = restocked <$> products db !! pid).
  { intros pid. unfold restock. simpl. apply lookup_fmap. }
  split; [|split; [|split; [|split; [|split]]]].
  - intros pid Hp. by rewrite Hl, Hp.
  - intros pid p Hp. exists (restocked p). rewrite Hl, Hp.
    do 9 (split; [done|]). intros n. unfold Product.isAvailable. simpl.
    rewrite Z.geb_le. done.
  - intros line [p Hp]. unfold refusal. rewrite Hl, Hp. reflexivity.
  - intros line Hp. unfold refusal. by rewrite Hl, Hp.
  - unfold restock. simpl. unfold with_products. simpl. f_equal.
    rewrite <- map_fmap_compose. apply map_fmap_ext. intros pid p _. reflexivity.
  - done.
Qed.

(** ** The buyer's orders, a page at a time *)

Lemma insert_newest_first_perm x l : insert_newest_first x l ≡ₚ x :: l.
Proof.
  induction l as [|y l IH]; simpl; [done|].
  destruct (_ <=? _); [done|]. rewrite IH. apply Permutation_swap.
Qed.

Lemma newest_first_perm l : newest_first l ≡ₚ l.
Proof.
  induction l as [|x l IH]; simpl; [done|].
  by rewrite insert_newest_first_perm, IH.
Qed.

Lemma insert_newest_first_sorted x l :
  StronglySorted not_older l -> StronglySorted not_older (insert_newest_first x l).
Proof.
  induction 1 as [|y l Hsorted IH Hall]; simpl.
  - repeat constructor.
  - destruct (Z.leb_spec (Order.createdAt (snd y)) (Order.createdAt (snd x))) as [Hle|Hgt].
    + constructor; [by constructor|]. constructor; [done|].
      eapply Forall_impl; [exact Hall|]. intros z Hz. unfold not_older in *. lia.
    + constructor; [done|].
      rewrite insert_newest_first_perm. constructor; [|done].
      unfold not_older. lia.
Qed.

Lemma newest_first_sorted l : StronglySorted not_older (newest_first l).
Proof.
  induction l as [|x l IH]; simpl; [constructor|].
  by apply insert_newest_first_sorted.
Qed.

Lemma StronglySorted_drop {A} (R : A -> A -> Prop) n (l : list A) :
  StronglySorted R l -> StronglySorted R (drop n l).
Proof.
  intros H. revert n. induction H as [|x l Hs IH Hall]; intros [|n]; simpl;
    try constructor; auto.
Qed.

Lemma StronglySorted_take {A} (R : A -> A -> Prop) n (l : list A) :
  StronglySorted R l -> StronglySorted R (take n l).
Proof.
  intros H. revert n. induction H as [|x l Hs IH Hall]; intros [|n]; simpl;
    try constructor; auto.
  by apply Forall_take.
Qed.

Lemma pages_before (page limit total : Z) :
  0 < limit -> 0 <= total ->
  (page <? Qceiling (inject_Z total / inject_Z limit)) = (page * limit <? total).
Proof.
  intros Hlimit Htotal.
  set (x := (inject_Z total / inject_Z limit)%Q).
  assert (Hq : (0 < inject_Z limit)%Q) by (unfold Qlt; simpl; lia).
  assert (Hx : (x * inject_Z limit == inject_Z total)%Q).
  { unfold x. field. intros H0. rewrite H0 in Hq. by apply Qlt_irrefl in Hq. }
  pose proof (Qle_ceiling x) as Hup.
  pose proof (Qceiling_lt x) as Hlow.
  destruct (Z.ltb_spec page (Qceiling x)) as [Hlt|Hge];
    destruct (Z.ltb_spec (page * limit) total) as [Hlt'|Hge']; try reflexivity; exfalso.
  - assert (Hp : (inject_Z page <= inject_Z (Qceiling x - 1))%Q)
      by (rewrite <- Zle_Qle; lia).
    assert (Hpl : (inject_Z total <= inject_Z page * inject_Z limit)%Q)
      by (rewrite <- inject_Z_mult, <- Zle_Qle; lia).
    nra.
  - assert (Hp : (inject_Z (Qceiling x) <= inject_Z page)%Q)
      by (rewrite <- Zle_Qle; lia).
    assert (Hpl : (inject_Z page * inject_Z limit < inject_Z total)%Q)
      by (rewrite <- inject_Z_mult, <- Zlt_Qlt; lia).
    nra.
Qed.

Lemma filter_sublist {A} (f : A -> bool) (l : list A) : List.filter f l `sublist_of` l.
Proof.
  induction l as [|a l IH]; simpl; [constructor|].
  destruct (f a); by constructor.
Qed.

(** X25. A page of the buyer's orders: the request reads and never writes;
    every order on the page is a stored order of the requester, none is
    listed twice, and newer orders come first; the page holds [limit]
    orders or what is left after the pages before it; [totalItems] counts
    the requester's orders, [hasNext] tells whether orders remain after
    this page, [hasPrev] whether the page is not the first, and the page is
    non-empty exactly up to [totalPages]. *)
Theorem user_orders_page user query_page query_limit db :
  validatePagination query_page query_limit = true ->
  let page := default 1 query_page in
  let limit := default 10 query_limit in
  exists items pg,
    GET_users_orders user query_page query_limit db = (Done (items, pg), db)
    /\ (forall io, In io items ->
          orders db !! fst io = Some (snd io)
          /\ Order.customer (snd io) = actor_id user)
    /\ NoDup items
    /\ StronglySorted not_older items
    /\ totalItems pg = Z.of_nat (length (orders_of (actor_id user) db))
    /\ Z.of_nat (length items)
       = Z.min limit (Z.max 0 (totalItems pg - (page - 1) * limit))
    /\ currentPage pg = page
    /\ (hasNext pg = true <-> page * limit < totalItems pg)
    /\ (hasPrev pg = true <-> 1 < page)
    /\ (items <> [] <-> page <= totalPages pg).
Proof.
  intros Hvalid page limit.
  assert (Hpage : 1 <= page).
  { unfold page, validatePagination in *. destruct query_page; simpl in *; lia. }
  assert (Hlimit : 1 <= limit <= 100).
  { unfold limit, validatePagination in *.
    destruct query_page, query_limit; simpl in *; lia. }
  unfold GET_users_orders. rewrite Hvalid. unfold get_user_orders. run.
  fold page limit.
  set (mine := orders_of (actor_id user) db).
  set (sorted := newest_first mine).
  set (items := take (Z.to_nat limit) (drop (Z.to_nat ((page - 1) * limit)) sorted)).
  assert (Hsub : items ⊆ sorted).
  { unfold items. etrans; [apply subseteq_take|apply subseteq_drop]. }
  assert (Hlen : length sorted = length mine).
  { unfold sorted. by rewrite newest_first_perm. }
  assert (Hitems : Z.of_nat (length items)
                   = Z.min limit (Z.max 0 (Z.of_nat (length mine) - (page - 1) * limit))).
  { unfold items. rewrite length_take, length_drop, Hlen. nia. }
  eexists items, _. split; [reflexivity|]. simpl.
  split; [|split; [|split; [|split; [|split; [|split; [|split; [|split]]]]]]].
  - intros io Hin. apply list_elem_of_In in Hin. apply Hsub in Hin.
    unfold sorted in Hin. rewrite newest_first_perm in Hin.
    apply list_elem_of_In in Hin. unfold mine, orders_of in Hin.
    apply List.filter_In in Hin as [Hin Hmine].
    apply list_elem_of_In in Hin. destruct io as [i o].
    apply elem_of_map_to_list in Hin. simpl in *.
    split; [done|]. by apply Pos.eqb_eq.
  - unfold items. eapply sublist_NoDup; [|apply sublist_take].
    eapply sublist_NoDup; [|apply sublist_drop].
    unfold sorted. rewrite newest_first_perm. unfold mine, orders_of.
    eapply sublist_NoDup; [apply NoDup_map_to_list|apply filter_sublist].
  - unfold items. apply StronglySorted_take, StronglySorted_drop, newest_first_sorted.
  - reflexivity.
  - exact Hitems.
  - reflexivity.
  - rewrite pages_before by lia. apply Z.ltb_lt.
  - apply Z.ltb_lt.
  - assert (Hpages := pages_before (page - 1) limit (Z.of_nat (length mine))).
    destruct (Z.ltb_spec (page - 1) (Qceiling (inject_Z (Z.of_nat (length mine)) / inject_Z limit)));
      destruct (Z.ltb_spec ((page - 1) * limit) (Z.of_nat (length mine)));
      try (specialize (Hpages ltac:(lia) ltac:(lia)); discriminate).
    + split; [lia|]. intros _ Hnil. rewrite Hnil in Hitems. simpl in Hitems. lia.
    + split; [|lia]. intros Hne. destruct items; [done|]. simpl length in Hitems. lia.
Qed.

(** ** Clearing the cart *)

(** X26. Clearing the cart always answers success.  It empties the
    requester's cart, keeps the requester's role, and touches no other
    user, product, order or review; when the requester is not stored
    nothing changes at all.  Afterwards the cart page of the requester
    shows no line, a count of 0 and a subtotal of 0, and clearing again
    changes nothing. *)
Theorem clear_cart_effect user db :
  exists db',
    clear_cart user db = (Done tt, db')
    /\ products db' = products db /\ orders db' = orders db
    /\ reviews db' = reviews db /\ artisans db' = artisans db
    /\ (forall other, other <> actor_id user ->
          users db' !! other = users db !! other)
    /\ users db' !! actor_id user
       = (fun u => {| User.role := User.role u; User.cart := [] |})
           <$> users db !! actor_id user
    /\ (users db !! actor_id user = None -> db' = db)
    /\ (is_Some (users db !! actor_id user) ->
        get_cart user db'
        = (Done ([], {| itemCount := 0; cart_subtotal := 0%Q;
                        estimatedShipping := 0%Q; cart_total := 0%Q |}), db'))
    /\ clear_cart user db' = (Done tt, db').
Proof.
  unfold clear_cart, User_clear_cart. run.
  eexists. split; [reflexivity|]. simpl.
  assert (Hme : alter User.clear_cart (actor_id user) (users db) !! actor_id user
                = (fun u => {| User.role := User.role u; User.cart := [] |})
                    <$> users db !! actor_id user).
  { rewrite lookup_alter. rewrite decide_True by done. reflexivity. }
  repeat split; try reflexivity.
  - intros other Hother. rewrite lookup_alter. by rewrite decide_False by done.
  - exact Hme.
  - intros Hnone.
    assert (Hsame : alter User.clear_cart (actor_id user) (users db) = users db).
    { apply map_eq. intros i. rewrite lookup_alter.
      destruct (decide (actor_id user = i)) as [<-|]; [by rewrite Hnone|done]. }
    rewrite Hsame. apply with_users_same.
  - intros [u Hu]. unfold get_cart, User_findById. run.
    rewrite Hme, Hu. reflexivity.
  - unfold with_users. simpl. do 2 f_equal.
    apply map_eq. intros i. rewrite !lookup_alter.
    destruct (decide (actor_id user = i)); [|done].
    rewrite decide_True by done.
    by destruct (users db !! actor_id user).
Qed.

(** ** Votes, for whatever value is sent *)

(** A value that casts to a flag is truthy exactly when the flag is [true],
    but for the three strings that cast to [false]. *)
Lemma cast_and_truthiness v flag :
  castBoolean v = Some flag ->
  ToBoolean v = bool_decide (flag = Some true)
  \/ (flag = Some false
      /\ (v = JString "false" \/ v = JString "0" \/ v = JString "no")).
Proof.
  destruct v as [| |b|x|s|]; simpl; try discriminate.
  - intros [= <-]. by left.
  - intros [= <-]. by left.
  - intros [= <-]. left. by destruct b.
  - destruct (Qeq_bool x 1) eqn:H1.
    + intros [= <-]. left. apply Qeq_bool_eq in H1.
      destruct (Qeq_bool x 0) eqn:H0; [|done].
      apply Qeq_bool_eq in H0. rewrite H1 in H0. discriminate.
    + destruct (Qeq_bool x 0); [|discriminate]. intros [= <-]. by left.
  - destruct (String.eqb_spec s "true") as [->|_]; [intros [= <-]; by left|].
    destruct (String.eqb_spec s "1") as [->|_]; [intros [= <-]; by left|].
    destruct (String.eqb_spec s "yes") as [->|_]; [intros [= <-]; by left|].
    simpl.
    destruct (String.eqb_spec s "false") as [->|_]; [intros [= <-]; auto|].
    destruct (String.eqb_spec s "0") as [->|_]; [intros [= <-]; auto|].
    destruct (String.eqb_spec s "no") as [->|_]; [intros [= <-]; auto 6|].
    discriminate.
Qed.

(** X20. One vote for each user, whatever is sent as [helpful].  A request
    of a user who already voted on the review fails with [AlreadyVoted]
    and writes nothing (the method [addVote] itself throws).  A first vote
    whose value does not cast to a boolean fails with a server error and
    writes nothing.  Any other first vote appends exactly one vote record,
    holding the cast of the value, and adds one to the helpful counter
    exactly when the value is truthy; after it every further vote of that
    user is turned down.  Counter and stored flag agree (one is added
    exactly when the stored flag is [true]) but for the strings "false",
    "0" and "no", which are stored as [false] and counted; in particular
    they agree for every boolean. *)
Theorem one_vote_per_user env user id helpful db r :
  List.find (has_id id) (reviews db) = Some r ->
  let userId := actor_id user in
  let sent := match helpful with JUndefined => JBool true | v => v end in
  ((exists vote, In vote (Review.votedBy r) /\ Review.user vote = userId) ->
     vote_helpful env user id helpful db = (Failed AlreadyVoted, db)
     /\ Review_addVote env r userId sent db = (Failed InternalError, db))
  /\ ((forall vote, In vote (Review.votedBy r) -> Review.user vote <> userId) ->
      (castBoolean sent = None ->
         vote_helpful env user id helpful db = (Failed InternalError, db))
      /\ (forall flag, castBoolean sent = Some flag ->
           exists r' db',
             vote_helpful env user id helpful db
             = (Done (Review.helpfulVotes r'), db')
             /\ List.find (has_id id) (reviews db') = Some r'
             /\ Review.votedBy r'
                = Review.votedBy r
                  ++ [ {| Review.user := userId; Review.helpful := flag;
                          Review.votedAt := now env |} ]
             /\ Review.helpfulVotes r'
                = Review.helpfulVotes r + (if ToBoolean sent then 1 else 0)
             /\ (Review.helpfulVotes r'
                 = Review.helpfulVotes r
                   + (if bool_decide (flag = Some true) then 1 else 0)
                 \/ (flag = Some false
                     /\ (sent = JString "false" \/ sent = JString "0"
                         \/ sent = JString "no")))
             /\ (forall b, sent = JBool b ->
                   flag = Some b
                   /\ Review.helpfulVotes r'
                      = Review.helpfulVotes r + (if b then 1 else 0))
             /\ forall env2 helpful2,
                  vote_helpful env2 user id helpful2 db'
                  = (Failed AlreadyVoted, db'))).
Proof.
  intros Hfind userId sent.
  pose proof (vote_helpful_cases env user id helpful db) as Hcases.
  rewrite Hfind in Hcases. fold userId in Hcases.
  change (flag_sent helpful) with sent in Hcases. split.
  - intros Hvoted. apply canVote_false_iff in Hvoted.
    rewrite Hvoted in Hcases. split; [done|].
    unfold Review_addVote. rewrite Hvoted. by destruct (castBoolean sent).
  - intros Hnew.
    assert (Hcan : Review.canVote userId r = true).
    { apply not_false_iff_true. rewrite canVote_false_iff.
      intros (v & Hin & Hv). by apply (Hnew v). }
    rewrite Hcan in Hcases. split.
    + intros Hcast. by rewrite Hcast in Hcases.
    + intros flag Hcast. rewrite Hcast in Hcases.
      destruct Hcases as (db' & Hvote & Hsave).
      set (r' := voted env userId sent flag r) in *.
      apply Review_save_Done in Hsave as (Hr & _).
      assert (Hfind' : List.find (has_id id) (reviews db') = Some r').
      { rewrite Hr. eapply find_put_review; [exact Hfind|].
        by apply find_has_id in Hfind as [_ <-]. }
      assert (Hcount : Review.helpfulVotes r'
                       = Review.helpfulVotes r + (if ToBoolean sent then 1 else 0)).
      { subst r'. simpl. destruct (ToBoolean sent); lia. }
      exists r', db'. do 4 (split; [done|]). split; [|split].
      * destruct (cast_and_truthiness sent flag Hcast) as [Hsame|Hdiff];
          [left|by right].
        by rewrite Hcount, Hsame.
      * intros b Hb. rewrite Hb in Hcast, Hcount. simpl in Hcast, Hcount.
        inversion Hcast. by split.
      * intros env2 helpful2.
        pose proof (vote_helpful_cases env2 user id helpful2 db') as Hagain.
        rewrite Hfind' in Hagain.
        assert (Hno : Review.canVote (actor_id user) r' = false).
        { apply canVote_false_iff.
          exists {| Review.user := userId; Review.helpful := flag;
                    Review.votedAt := now env |}.
          split; [|reflexivity].
          subst r'. simpl. apply in_or_app. right. by left. }
        by rewrite Hno in Hagain.
Qed.

(** ** What a cancellation gives back *)

(** X27. A cancellation that succeeds gives back the units of the order it
    cancels, whether or not the products were ever taken for it: every
    product that tracks inventory has its quantity up, and its sales
    counter down, by the units the stored order holds of it, and every
    other product is as it was; no product is added or removed. *)
Theorem cancel_restores_order_units env user id reason db o db' :
  cancel_order env user id reason db = (Done o, db') ->
  exists loaded,
    orders db !! id = Some loaded
    /\ Order.items o = Order.items loaded
    /\ forall pid,
         match products db !! pid with
         | None => products db' !! pid = None
         | Some p =>
             exists p',
               products db' !! pid = Some p'
               /\ same_but_stock p p'
               /\ if Product.trackInventory (Product.inventory p)
                  then Product.quantity (Product.inventory p')
                       = Product.quantity (Product.inventory p)
                         + ordered_items pid (Order.items loaded)
                       /\ Product.totalSold (Product.stats p')
                          = Product.totalSold (Product.stats p)
                            - ordered_items pid (Order.items loaded)
                  else p' = p
         end.
Proof.
  intros H.
  apply cancel_order_Done in H
    as (loaded & db1 & Hl & _ & _ & Hrest & -> & _ & _ & Hitems & _).
  exists loaded. split; [done|]. split; [done|]. intros pid. simpl.
  rewrite (restore_inventory_stock _ _ _ Hrest pid).
  destruct (products db !! pid) as [p|]; simpl; [|done].
  eexists. split; [reflexivity|]. split; [apply same_but_stock_after|].
  unfold stock_after.
  destruct (Product.trackInventory (Product.inventory p)); simpl; [lia|done].
Qed.

(** ** The further properties on the example data *)

Lemma totalItems_of_built_order_witness :
  exists o db1,
    validateOrderCreation Demo.order3 = true
    /\ build_order Demo.env1 Demo.buyer Demo.order3 Demo.db0 = (Done o, db1)
    /\ Order_totalItems o = 3.
Proof.
  destruct (build_order Demo.env1 Demo.buyer Demo.order3 Demo.db0)
    as [[o|e] db1] eqn:H; [|vm_compute in H; discriminate].
  exists o, db1. split; [reflexivity|]. split; [reflexivity|].
  destruct (totalItems_of_built_order Demo.env1 Demo.buyer Demo.order3 Demo.db0
              o db1 eq_refl H) as (Hn & _).
  rewrite Hn. reflexivity.
Defined.

Lemma stockStatus_and_availability_witness :
  0 <= Product.quantity (Product.inventory Demo.bowl)
  /\ Product_stockStatus Demo.bowl = out_of_stock
  /\ forall q, 1 <= q -> Product.isAvailable Demo.bowl q = false.
Proof.
  assert (H0 : 0 <= Product.quantity (Product.inventory Demo.bowl)) by (simpl; lia).
  split; [exact H0|]. split; [reflexivity|].
  destruct (stockStatus_and_availability Demo.bowl H0) as (_ & _ & Hout & _).
  apply Hout. reflexivity.
Defined.

Lemma vase_valid : Product_valid Demo.vase.
Proof.
  split; [|split].
  - unfold Qle; simpl; lia.
  - intros d Hd. injection Hd as <-. split; unfold Qle; simpl; lia.
  - simpl; lia.
Defined.

Lemma discountedPrice_bounds_witness :
  Product_valid Demo.vase
  /\ (0 <= Product.discountedPrice Demo.vase)%Q
  /\ (Product.discountedPrice Demo.vase <= 200)%Q.
Proof.
  split; [exact vase_valid|].
  destruct (discountedPrice_bounds Demo.vase vase_valid) as (Hlow & Hhigh & _).
  split; [exact Hlow|exact Hhigh].
Defined.


Lemma order_refused_after_stock_taken_witness :
  exists db',
    validateOrderCreation Demo.order3 = true
    /\ POST_orders Demo.env1 Demo.buyer Demo.order3 Demo.db0
       = (Failed InternalError, db')
    /\ orders db' = orders Demo.db0
    /\ products db' !! 1%positive
       = stock_after 3 <$> products Demo.db0 !! 1%positive.
Proof.
  destruct (order_lines (body_items Demo.order3) 0%Q [] Demo.db0)
    as [[totals|e] db'] eqn:H; [|vm_compute in H; discriminate].
  exists db'.
  assert (Hv : validateOrderCreation Demo.order3 = true) by reflexivity.
  split; [exact Hv|].
  destruct (order_refused_after_stock_taken Demo.env1 Demo.buyer Demo.order3
              Demo.db0 totals db' Hv H)
    as (Hfail & Horders & _ & _ & Hstock).
  split; [exact Hfail|]. split; [exact Horders|].
  apply Hstock. constructor; [by exists 3%Q|constructor].
Defined.



Lemma cancel_is_not_repeated_witness :
  exists o db',
    cancel_order Demo.env2 Demo.buyer 100%positive None Demo.db1 = (Done o, db')
    /\ cancel_order Demo.env3 Demo.buyer 100%positive None db'
       = (Failed InvalidTransition, db').
Proof.
  destruct (cancel_order Demo.env2 Demo.buyer 100%positive None Demo.db1)
    as [[o|e] db'] eqn:H; [|vm_compute in H; discriminate].
  exists o, db'. split; [reflexivity|].
  destruct (cancel_is_not_repeated _ _ _ _ _ _ _ H Demo.env3 Demo.buyer None)
    as (e & He & Hwhy).
  rewrite He. f_equal. f_equal. apply Hwhy. left.
  assert (Hc : Order.customer o = 7%positive).
  { vm_compute in H. injection H as <- _. reflexivity. }
  exact Hc.
Defined.

Lemma reopened_order_restores_stock_twice_witness :
  exists o1 o2 o3 db3,
    cancel_order Demo.env2 Demo.buyer 100%positive None Demo.db1
    = (Done o1, Session.db_cancelled)
    /\ update_status Demo.env3 Demo.seller 100%positive Demo.confirm Session.db_cancelled
       = (Done o2, Session.db_reopened)
    /\ cancel_order Demo.env4 Demo.buyer 100%positive None Session.db_reopened
       = (Done o3, db3)
    /\ Product.quantity <$> (Product.inventory <$> products Demo.db0 !! 1%positive)
       = Some 10
    /\ Product.quantity <$> (Product.inventory <$> products Demo.db1 !! 1%positive)
       = Some 7
    /\ Product.quantity <$> (Product.inventory <$> products db3 !! 1%positive)
       = Some 13.
Proof.
  destruct (cancel_order Demo.env2 Demo.buyer 100%positive None Demo.db1)
    as [[o1|e] db1'] eqn:H1; [|vm_compute in H1; discriminate].
  assert (E1 : db1' = Session.db_cancelled).
  { unfold Session.db_cancelled. rewrite H1. reflexivity. }
  subst db1'.
  destruct (update_status Demo.env3 Demo.seller 100%positive Demo.confirm
              Session.db_cancelled) as [[o2|e] db2'] eqn:H2;
    [|vm_compute in H2; discriminate].
  assert (E2 : db2' = Session.db_reopened).
  { unfold Session.db_reopened. rewrite H2. reflexivity. }
  subst db2'.
  destruct (cancel_order Demo.env4 Demo.buyer 100%positive None Session.db_reopened)
    as [[o3|e] db3] eqn:H3; [|vm_compute in H3; discriminate].
  exists o1, o2, o3, db3.
  split; [reflexivity|]. split; [reflexivity|]. split; [reflexivity|].
  split; [vm_compute; reflexivity|]. split; [vm_compute; reflexivity|].
  assert (Ho : orders Demo.db1 !! 100%positive = Some Demo.order1)
    by (vm_compute; reflexivity).
  destruct (reopened_order_restores_stock_twice
              Demo.env2 Demo.buyer None Demo.env3 Demo.seller Demo.confirm
              Demo.env4 Demo.buyer None 100%positive Demo.db1 Demo.order1
              o1 Session.db_cancelled o2 Session.db_reopened o3 db3
              Ho H1 eq_refl H2 H3) as (_ & Hstock).
  rewrite (Hstock 1%positive). vm_compute. reflexivity.
Defined.

Lemma order_identity_is_permanent_witness :
  exists o',
    orders Demo.db1 !! 100%positive = Some Demo.order1
    /\ orders (handle_all Demo.db1 Session.later) !! 100%positive = Some o'
    /\ Order.orderNumber o' = Some "LL000000042"%string
    /\ Order.status o' = Order.delivered
    /\ Order_calculateRefundAmount o' = 0%Q.
Proof.
  assert (Ho : orders Demo.db1 !! 100%positive = Some Demo.order1)
    by (vm_compute; reflexivity).
  destruct (order_identity_is_permanent Demo.db1 100%positive Demo.order1
              Session.later Ho)
    as (o' & Ho' & _ & _ & _ & _ & Hn & Hr).
  exists o'. split; [exact Ho|]. split; [exact Ho'|].
  split; [apply Hn; vm_compute; reflexivity|]. split.
  - vm_compute in Ho'. injection Ho' as <-. reflexivity.
  - apply Hr. vm_compute. discriminate.
Defined.

Lemma vote_tally_invariant_witness :
  length (reviews (handle_all Demo.db1 Session.later_text_vote)) = 1%nat
  /\ forall r, In r (reviews (handle_all Demo.db1 Session.later_text_vote)) ->
       (Z.of_nat (length (List.filter
                            (fun vote => bool_decide (Review.helpful vote = Some true))
                            (Review.votedBy r)))
          <= Review.helpfulVotes r <= Z.of_nat (length (Review.votedBy r))
        /\ NoDup (map Review.user (Review.votedBy r)))
       /\ Review.helpfulVotes r = 2
       /\ map Review.helpful (Review.votedBy r) = [Some true; Some false].
Proof.
  split; [vm_compute; reflexivity|].
  intros r Hin. split.
  - apply (vote_tally_invariant Demo.db1 Session.later_text_vote); [|exact Hin].
    intros r0 [].
  - destruct (reviews (handle_all Demo.db1 Session.later_text_vote))
      as [|r1 [|]] eqn:E; try (vm_compute in E; discriminate).
    destruct Hin as [<-|[]]. vm_compute in E. injection E as <-.
    split; reflexivity.
Defined.

Lemma ratings_stay_in_range_witness :
  (forall r, In r (reviews (handle_all Demo.db1 Session.later)) ->
     (1 <= Review.overall r <= 5)%Q)
  /\ (1 <= average (rating_of_stats
                      (Review_aggregate (fun _ => true)
                         (reviews (handle_all Demo.db1 Session.later)))) <= 5)%Q.
Proof.
  destruct (ratings_stay_in_range Demo.db1 Session.later) as (Hall & Hagg).
  { intros r []. }
  split; [exact Hall|].
  destruct (Hagg (fun _ => true)) as [[_ Hc]|[Hr _]]; [|exact Hr].
  vm_compute in Hc. discriminate.
Defined.

Lemma review_changes_need_the_author_witness :
  (exists r, own_review 102%positive Demo.buyer Demo.db3 = Some r)
  /\ update_review Demo.other 102%positive
       {| body_rating := None; body_title := Some "Fine"%string;
          body_comment := None |} Demo.db3
     = (Failed NotFound, Demo.db3)
  /\ delete_review Demo.other 102%positive Demo.db3 = (Failed NotFound, Demo.db3).
Proof.
  split.
  { destruct (own_review 102%positive Demo.buyer Demo.db3) eqn:E;
      [eauto|vm_compute in E; discriminate]. }
  destruct (review_changes_need_the_author Demo.other 102%positive Demo.db3)
    as (Hup & Hdel).
  { intros r Hin _.
    destruct (reviews Demo.db3) as [|r1 [|]] eqn:E;
      try (vm_compute in E; discriminate).
    destruct Hin as [<-|[]]. vm_compute in E. injection E as <-.
    simpl. discriminate. }
  split; [apply Hup|exact Hdel].
Defined.

Lemma delete_review_removes_exactly_witness :
  exists db',
    delete_review Demo.buyer 102%positive Demo.db3 = (Done tt, db')
    /\ reviews Demo.db3 <> []
    /\ reviews db' = [].
Proof.
  destruct (delete_review Demo.buyer 102%positive Demo.db3)
    as [[[]|e] db'] eqn:H; [|vm_compute in H; discriminate].
  exists db'. split; [reflexivity|].
  split; [intros E; vm_compute in E; discriminate|].
  destruct (delete_review_removes_exactly _ _ _ _ H) as (r0 & _ & _ & _ & Hrest & _).
  rewrite Hrest. vm_compute. reflexivity.
Defined.

Lemma update_review_rating_witness :
  exists r0 db',
    own_review 102%positive Demo.buyer Demo.db3 = Some r0
    /\ update_review Demo.buyer 102%positive
         {| body_rating := Some {| in_overall := Some 2%Q; in_quality := Some 3%Q;
                                   in_craftsmanship := None; in_packaging := None;
                                   in_shipping := None |};
            body_title := Some "  Good  "%string;
            body_comment := None |} Demo.db3
       = (Done (Review.set_overall 2%Q r0), db')
    /\ update_review Demo.buyer 102%positive
         {| body_rating := Some {| in_overall := Some 4%Q; in_quality := Some 9%Q;
                                   in_craftsmanship := None; in_packaging := None;
                                   in_shipping := None |};
            body_title := None; body_comment := None |} Demo.db3
       = (Failed InternalError, Demo.db3)
    /\ update_review Demo.buyer 102%positive
         {| body_rating := None; body_title := None;
            body_comment := Some ""%string |} Demo.db3
       = (Failed InternalError, Demo.db3).
Proof.
  destruct (own_review 102%positive Demo.buyer Demo.db3) as [r0|] eqn:E;
    [|vm_compute in E; discriminate].
  exists r0.
  destruct (update_review_rating Demo.buyer 102%positive Demo.db3 r0
              {| body_rating := Some {| in_overall := Some 2%Q; in_quality := Some 3%Q;
                                        in_craftsmanship := None; in_packaging := None;
                                        in_shipping := None |};
                 body_title := Some "  Good  "%string;
                 body_comment := None |} E) as (Hok & _).
  destruct Hok as (db' & Hrun & _).
  { apply updates_valid_iff. reflexivity. }
  exists db'. split; [reflexivity|]. split; [exact Hrun|]. split.
  - apply (update_review_rating Demo.buyer 102%positive Demo.db3 r0 _ E).
    intros Hacc. apply updates_valid_iff in Hacc. discriminate.
  - apply (update_review_rating Demo.buyer 102%positive Demo.db3 r0 _ E).
    intros Hacc. apply updates_valid_iff in Hacc. discriminate.
Defined.

Lemma user_orders_page_witness :
  exists items pg,
    GET_users_orders Demo.buyer (Some 1) (Some 2) Demo.db2 = (Done (items, pg), Demo.db2)
    /\ totalItems pg = 1
    /\ Z.of_nat (length items) = 1
    /\ (hasNext pg = true <-> 1 * 2 < totalItems pg).
Proof.
  destruct (user_orders_page Demo.buyer (Some 1) (Some 2) Demo.db2 eq_refl)
    as (items & pg & Hrun & _ & _ & _ & Htotal & Hlen & _ & Hnext & _).
  assert (Hone : totalItems pg = 1) by (rewrite Htotal; vm_compute; reflexivity).
  exists items, pg. split; [exact Hrun|]. split; [exact Hone|].
  split; [|exact Hnext].
  rewrite Hlen, Hone. reflexivity.
Defined.

Lemma one_vote_per_user_witness :
  exists r r' db',
    List.find (has_id 102%positive) (reviews Demo.db3) = Some r
    /\ vote_helpful Demo.env4 Demo.other 102%positive (JString "yes") Demo.db3
       = (Done (Review.helpfulVotes r'), db')
    /\ Review.helpfulVotes r' = Review.helpfulVotes r + 1
    /\ vote_helpful Demo.env4 Demo.other 102%positive (JBool false) db'
       = (Failed AlreadyVoted, db')
    /\ vote_helpful Demo.env4 Demo.other 102%positive (JString "maybe") Demo.db3
       = (Failed InternalError, Demo.db3).
Proof.
  destruct (List.find (has_id 102%positive) (reviews Demo.db3)) as [r|] eqn:Hfind;
    [|vm_compute in Hfind; discriminate].
  destruct (one_vote_per_user Demo.env4 Demo.other 102%positive (JString "yes")
              Demo.db3 r Hfind) as [_ Hfirst].
  destruct Hfirst as (_ & Hfirst).
  { intros vote Hin. vm_compute in Hfind. inversion Hfind. subst r.
    destruct Hin. }
  destruct (Hfirst (Some true) eq_refl)
    as (r' & db' & Hvote & _ & _ & Hcount & _ & _ & Hagain).
  exists r, r', db'. split; [reflexivity|]. split; [exact Hvote|].
  split; [exact Hcount|]. split; [apply Hagain|].
  apply (one_vote_per_user Demo.env4 Demo.other 102%positive (JString "maybe")
           Demo.db3 r Hfind); [|reflexivity].
  intros vote Hin. vm_compute in Hfind. inversion Hfind. subst r.
  destruct Hin.
Defined.

Lemma cancel_restores_order_units_witness :
  exists o db',
    cancel_order Demo.env2 Demo.buyer 100%positive None Demo.db1 = (Done o, db')
    /\ Product.quantity <$> (Product.inventory <$> products Demo.db1 !! 1%positive)
       = Some 7
    /\ Product.quantity <$> (Product.inventory <$> products db' !! 1%positive)
       = Some 10.
Proof.
  destruct (cancel_order Demo.env2 Demo.buyer 100%positive None Demo.db1)
    as [[o|e] db'] eqn:H; [|vm_compute in H; discriminate].
  exists o, db'. split; [reflexivity|]. split; [vm_compute; reflexivity|].
  destruct (cancel_restores_order_units _ _ _ _ _ _ _ H)
    as (loaded & Hl & _ & Hstock).
  specialize (Hstock 1%positive).
  assert (Hloaded : loaded = Demo.order1).
  { vm_compute in Hl. injection Hl as <-. vm_compute. reflexivity. }
  destruct (products Demo.db1 !! 1%positive) as [p|] eqn:Hp;
    [|vm_compute in Hp; discriminate].
  destruct Hstock as (p' & Hp' & _ & Hq).
  rewrite Hp'. simpl. f_equal.
  vm_compute in Hp. injection Hp as <-. simpl in Hq.
  destruct Hq as [Hq _]. rewrite Hq, Hloaded. vm_compute. reflexivity.
Defined.
